(** * Skylark drone operations: conflict detection and replacement matching

    A shallow embedding of the rule evaluators of
    [app/services/conflict_service.py] and of the candidate scorers of
    [app/services/agent_service.py], with the record types of
    [app/models/schemas.py].

    Conventions of the embedding.
    - Python [str] is [string], read as ASCII text: [str.lower] is the ASCII
      case mapping and the digits [strptime] accepts are 0 to 9.
    - Python [int] is [Z].
    - [datetime.date] is a record of year, month and day, ordered as Python
      orders dates (year first, then month, then day).
    - [Optional[T]] is [option T].
    - A raised exception is the [Raise] outcome of [result]; the loops are
      written with an error monad so that the first exception in iteration
      order aborts the call, as in Python.
    - [Conflict.id] (a fresh [uuid4]) and [Conflict.detected_at] (the wall
      clock) come from the environment and are read by no rule; the record
      below carries every other field. *)

From Stdlib Require Import Bool Arith ZArith List String Ascii Lia.
From Stdlib Require Import Sorting.Sorted Sorting.Permutation.
Import ListNotations.
Local Open Scope string_scope.
Local Open Scope Z_scope.
Local Open Scope list_scope.

Set Implicit Arguments.

(* ===================================================================== *)
(** ** Exceptions *)
(* ===================================================================== *)

Inductive exn : Type :=
| ValueError   (* strptime: the text does not match the format *)
| TypeError.   (* strptime: the argument is None, not a str *)

Inductive result (A : Type) : Type :=
| Ok (a : A)
| Raise (e : exn).

Arguments Ok {A} a.
Arguments Raise {A} e.

Definition bind {A B : Type} (m : result A) (k : A -> result B) : result B :=
  match m with
  | Ok a => k a
  | Raise e => Raise e
  end.

Notation "x <- m ;; k" := (bind m (fun x => k))
  (at level 61, m at next level, right associativity).

(** [for x in l: conflicts.extend(f x)], where [f] may raise. *)
Fixpoint for_each {A B : Type} (f : A -> result (list B)) (l : list A)
  : result (list B) :=
  match l with
  | [] => Ok []
  | x :: xs =>
      cs <- f x ;;
      rest <- for_each f xs ;;
      Ok (cs ++ rest)
  end.

(* ===================================================================== *)
(** ** Strings *)
(* ===================================================================== *)

(** [x in xs] on a list of strings. *)
Definition mem (x : string) (xs : list string) : bool :=
  existsb (String.eqb x) xs.

Definition lower_ascii (c : ascii) : ascii :=
  let n := nat_of_ascii c in
  if (65 <=? n)%nat && (n <=? 90)%nat then ascii_of_nat (n + 32) else c.

(** [s.lower()]. *)
Fixpoint lower (s : string) : string :=
  match s with
  | EmptyString => EmptyString
  | String c r => String (lower_ascii c) (lower r)
  end.

(** [sep.join(xs)]. *)
Definition join (sep : string) (xs : list string) : string :=
  String.concat sep xs.

(** Truthiness of an optional string: [None] and [''] are falsy. *)
Definition truthy (o : option string) : bool :=
  match o with
  | Some s => negb (String.eqb s "")
  | None => false
  end.

(** [o or d] for an optional string. *)
Definition or_else (o : option string) (d : string) : string :=
  match o with
  | Some s => if String.eqb s "" then d else s
  | None => d
  end.

(** An optional string inside an f-string. *)
Definition fmt (o : option string) : string :=
  match o with
  | Some s => s
  | None => "None"
  end.

(* ===================================================================== *)
(** ** Dates *)
(* ===================================================================== *)

Record date : Type := mkDate { year : nat; month : nat; day : nat }.

(** [a <= b] on [datetime.date]. *)
Definition date_leb (a b : date) : bool :=
  if (year a <? year b)%nat then true
  else if (year b <? year a)%nat then false
  else if (month a <? month b)%nat then true
  else if (month b <? month a)%nat then false
  else (day a <=? day b)%nat.

(** [a >= b] on [datetime.date]. *)
Definition date_geb (a b : date) : bool := date_leb b a.

Definition date_le (a b : date) : Prop := date_leb a b = true.

Definition digit (n : nat) : string :=
  String (ascii_of_nat (48 + Nat.modulo n 10)) EmptyString.

(** [str(d)], that is [d.isoformat()]: YYYY-MM-DD, zero padded. *)
Definition isoformat (d : date) : string :=
  (digit (year d / 1000) ++ digit (year d / 100) ++ digit (year d / 10)
    ++ digit (year d) ++ "-"
    ++ digit (month d / 10) ++ digit (month d) ++ "-"
    ++ digit (day d / 10) ++ digit (day d))%string.

Definition digit_val (c : ascii) : option nat :=
  let n := nat_of_ascii c in
  if (48 <=? n)%nat && (n <=? 57)%nat then Some (n - 48)%nat else None.

Definition in_range (lo hi : nat) (c : ascii) : bool :=
  match digit_val c with
  | Some v => (lo <=? v)%nat && (v <=? hi)%nat
  | None => false
  end.

Definition val (c : ascii) : nat :=
  match digit_val c with Some v => v | None => 0%nat end.

Definition dash : ascii := "-"%char.
Definition space : ascii := " "%char.

(** The directive [%Y] is the pattern [\d\d\d\d]. *)
Definition match_year (cs : list ascii) : option (nat * list ascii) :=
  match cs with
  | a :: b :: c :: d :: rest =>
      if in_range 0 9 a && in_range 0 9 b && in_range 0 9 c && in_range 0 9 d
      then Some ((val a * 1000 + val b * 100 + val c * 10 + val d)%nat, rest)
      else None
  | _ => None
  end.

(** The directive [%m] is the pattern [1[0-2]|0[1-9]|[1-9]]; the literal
    dash that follows it in the format decides between the alternatives. *)
Definition match_month_dash (cs : list ascii) : option (nat * list ascii) :=
  match cs with
  | a :: b :: c :: rest =>
      if Ascii.eqb a "1" && in_range 0 2 b && Ascii.eqb c dash
      then Some ((10 + val b)%nat, rest)
      else if Ascii.eqb a "0" && in_range 1 9 b && Ascii.eqb c dash
      then Some (val b, rest)
      else if in_range 1 9 a && Ascii.eqb b dash
      then Some (val a, c :: rest)
      else None
  | a :: b :: rest =>
      if in_range 1 9 a && Ascii.eqb b dash then Some (val a, rest) else None
  | _ => None
  end.

(** The directive [%d] is the pattern [3[0-1]|[1-2]\d|0[1-9]|[1-9]| [1-9]];
    the first alternative that matches is taken. *)
Definition match_day (cs : list ascii) : option (nat * list ascii) :=
  match cs with
  | a :: b :: rest =>
      if Ascii.eqb a "3" && in_range 0 1 b then Some ((30 + val b)%nat, rest)
      else if in_range 1 2 a && in_range 0 9 b
      then Some ((val a * 10 + val b)%nat, rest)
      else if Ascii.eqb a "0" && in_range 1 9 b then Some (val b, rest)
      else if in_range 1 9 a then Some (val a, b :: rest)
      else if Ascii.eqb a space && in_range 1 9 b then Some (val b, rest)
      else None
  | [a] => if in_range 1 9 a then Some (val a, []) else None
  | [] => None
  end.

Definition is_leap (y : nat) : bool :=
  ((y mod 4 =? 0) && (negb (y mod 100 =? 0) || (y mod 400 =? 0)))%nat.

Definition days_in_month (y m : nat) : nat :=
  match m with
  | 2 => if is_leap y then 29 else 28
  | 4 | 6 | 9 | 11 => 30
  | _ => 31
  end%nat.

(** [datetime.strptime(s, '%Y-%m-%d').date()] on a [str]: the whole text
    must match the format and name a day of the calendar. *)
Definition strptime (s : string) : option date :=
  match match_year (list_ascii_of_string s) with
  | Some (y, dash' :: r1) =>
      if Ascii.eqb dash' dash then
        match match_month_dash r1 with
        | Some (m, r2) =>
            match match_day r2 with
            | Some (d, []) =>
                if (1 <=? y)%nat && (d <=? days_in_month y m)%nat
                then Some (mkDate y m d) else None
            | _ => None
            end
        | None => None
        end
      else None
  | _ => None
  end.

(** The same call on the value stored under a project's date key, which is
    a [str] or [None]. *)
Definition strptime_date (v : option string) : result date :=
  match v with
  | None => Raise TypeError
  | Some s =>
      match strptime s with
      | Some d => Ok d
      | None => Raise ValueError
      end
  end.

(* ===================================================================== *)
(** ** schemas.py *)
(* ===================================================================== *)

(** The [str]-valued enumerations are stored by value ([use_enum_values]),
    so the fields that hold them are strings. *)
Module PilotStatus.
Definition AVAILABLE := "Available".
Definition ON_LEAVE := "On Leave".
Definition UNAVAILABLE := "Unavailable".
Definition ASSIGNED := "Assigned".
End PilotStatus.

Module DroneStatus.
Definition AVAILABLE := "Available".
Definition DEPLOYED := "Deployed".
Definition MAINTENANCE := "Maintenance".
Definition UNAVAILABLE := "Unavailable".
End DroneStatus.

Record Pilot : Type := mkPilot {
  pilot_id : string;
  pilot_name : string;
  skill_level : string;
  certifications : list string;
  drone_experience : list string;
  pilot_location : string;
  pilot_assignment : option string;
  pilot_start : option date;
  pilot_end : option date;
  pilot_status : string
}.

Record Drone : Type := mkDrone {
  drone_id : string;
  serial_number : string;
  model : string;
  capabilities : list string;
  drone_assignment : option string;
  drone_start : option date;
  drone_end : option date;
  drone_status : string;
  drone_location : string;
  next_maintenance_date : option date;
  notes : option string
}.

(** A project is the dict built by [_parse_project_row].  The date keys
    hold an ISO string or [None]; a list key that is absent reads as the
    empty list ([project.get(k, [])]). *)
Record Project : Type := mkProject {
  project_id : string;
  project_name : string;
  location : string;
  start_date : option string;
  end_date : option string;
  required_certifications : list string;
  required_capabilities : list string;
  required_skill_level : option string;
  assigned_pilots : list string;
  assigned_drones : list string
}.

Inductive ConflictType : Type :=
| DOUBLE_BOOKING_PILOT
| DOUBLE_BOOKING_DRONE
| CERTIFICATION_MISMATCH
| SKILL_MISMATCH
| LOCATION_MISMATCH
| DRONE_MAINTENANCE
| CAPABILITY_MISMATCH.

Record Conflict : Type := mkConflict {
  conflict_type : ConflictType;
  severity : string;
  description : string;
  affected_pilot_id : option string;
  affected_pilot_name : option string;
  affected_drone_id : option string;
  affected_drone_serial : option string;
  affected_project_id : option string;
  affected_project_name : option string;
  resolved : bool
}.

(* ===================================================================== *)
(** ** conflict_service.py *)
(* ===================================================================== *)

Definition skill_order : list string :=
  ["Beginner"; "Intermediate"; "Advanced"; "Expert"].

(** [xs.index(x)], for [x] in [xs]. *)
Fixpoint index (x : string) (xs : list string) : Z :=
  match xs with
  | [] => 0
  | y :: r => if String.eqb y x then 0 else 1 + index x r
  end.

(** [skill_order.index(s) if s in skill_order else 0]. *)
Definition skill_idx (s : string) : Z :=
  if mem s skill_order then index s skill_order else 0.

Definition _dates_overlap (start1 end1 start2 end2 : date) : bool :=
  date_leb start1 end2 && date_geb end1 start2.

(** [next((p for p in pilots if p.id == pilot_id), None)]. *)
Definition find_pilot (pilots : list Pilot) (pid : string) : option Pilot :=
  find (fun p => String.eqb (pilot_id p) pid) pilots.

Definition find_drone (drones : list Drone) (did : string) : option Drone :=
  find (fun d => String.eqb (drone_id d) did) drones.

Definition q (s : string) : string := ("'" ++ s ++ "'")%string.

Definition pilot_double_booking (pilot : Pilot) (assignment : string)
    (s e : date) (project : Project) : Conflict :=
  {| conflict_type := DOUBLE_BOOKING_PILOT;
     severity := "Critical";
     description :=
       ("Pilot " ++ pilot_name pilot ++ " is double-booked: assigned to "
        ++ q assignment ++ " (" ++ isoformat s ++ " to " ++ isoformat e
        ++ ") which overlaps with " ++ q (project_name project) ++ " ("
        ++ fmt (start_date project) ++ " to "
        ++ fmt (end_date project) ++ ")")%string;
     affected_pilot_id := Some (pilot_id pilot);
     affected_pilot_name := Some (pilot_name pilot);
     affected_drone_id := None;
     affected_drone_serial := None;
     affected_project_id := Some (project_id project);
     affected_project_name := Some (project_name project);
     resolved := false |}.

(** The body of the inner loop of [_detect_pilot_double_bookings], for a
    pilot whose assignment name and both dates are set. *)
Definition pilot_booking_check (pilot : Pilot) (assignment : string)
    (s e : date) (project : Project) : result (list Conflict) :=
  if String.eqb (project_name project) assignment then Ok []
  else if mem (pilot_id pilot) (assigned_pilots project) then
    proj_start <- strptime_date (start_date project) ;;
    proj_end <- strptime_date (end_date project) ;;
    if _dates_overlap s e proj_start proj_end
    then Ok [pilot_double_booking pilot assignment s e project]
    else Ok []
  else Ok [].

Definition pilot_bookings (projects : list Project) (pilot : Pilot)
  : result (list Conflict) :=
  match pilot_assignment pilot, pilot_start pilot, pilot_end pilot with
  | Some a, Some s, Some e =>
      if String.eqb a "" then Ok []
      else for_each (pilot_booking_check pilot a s e) projects
  | _, _, _ => Ok []
  end.

Definition _detect_pilot_double_bookings (pilots : list Pilot)
    (projects : list Project) : result (list Conflict) :=
  for_each (pilot_bookings projects) pilots.

Definition drone_double_booking (drone : Drone) (assignment : string)
    (project : Project) : Conflict :=
  {| conflict_type := DOUBLE_BOOKING_DRONE;
     severity := "Critical";
     description :=
       ("Drone " ++ serial_number drone ++ " (" ++ model drone
        ++ ") is double-booked: assigned to " ++ q assignment
        ++ " which overlaps with " ++ q (project_name project))%string;
     affected_pilot_id := None;
     affected_pilot_name := None;
     affected_drone_id := Some (drone_id drone);
     affected_drone_serial := Some (serial_number drone);
     affected_project_id := Some (project_id project);
     affected_project_name := Some (project_name project);
     resolved := false |}.

Definition drone_booking_check (drone : Drone) (assignment : string)
    (s e : date) (project : Project) : result (list Conflict) :=
  if String.eqb (project_name project) assignment then Ok []
  else if mem (drone_id drone) (assigned_drones project) then
    proj_start <- strptime_date (start_date project) ;;
    proj_end <- strptime_date (end_date project) ;;
    if _dates_overlap s e proj_start proj_end
    then Ok [drone_double_booking drone assignment project]
    else Ok []
  else Ok [].

Definition drone_bookings (projects : list Project) (drone : Drone)
  : result (list Conflict) :=
  match drone_assignment drone, drone_start drone, drone_end drone with
  | Some a, Some s, Some e =>
      if String.eqb a "" then Ok []
      else for_each (drone_booking_check drone a s e) projects
  | _, _, _ => Ok []
  end.

Definition _detect_drone_double_bookings (drones : list Drone)
    (projects : list Project) : result (list Conflict) :=
  for_each (drone_bookings projects) drones.

(** [[c for c in required if c not in have]]. *)
Definition missing (required have : list string) : list string :=
  filter (fun c => negb (mem c have)) required.

Definition non_empty {A : Type} (l : list A) : bool :=
  match l with [] => false | _ => true end.

Definition certification_mismatch (pilot : Pilot) (project : Project)
    (missing_certs : list string) : Conflict :=
  {| conflict_type := CERTIFICATION_MISMATCH;
     severity := "High";
     description :=
       ("Pilot " ++ pilot_name pilot ++ " is assigned to "
        ++ q (project_name project) ++ " but lacks required certifications: "
        ++ join ", " missing_certs)%string;
     affected_pilot_id := Some (pilot_id pilot);
     affected_pilot_name := Some (pilot_name pilot);
     affected_drone_id := None;
     affected_drone_serial := None;
     affected_project_id := Some (project_id project);
     affected_project_name := Some (project_name project);
     resolved := false |}.

Definition _detect_certification_mismatches (pilots : list Pilot)
    (projects : list Project) : list Conflict :=
  flat_map (fun project =>
    let required_certs := required_certifications project in
    if non_empty required_certs then
      flat_map (fun pid =>
        match find_pilot pilots pid with
        | None => []
        | Some pilot =>
            let missing_certs := missing required_certs (certifications pilot) in
            if non_empty missing_certs
            then [certification_mismatch pilot project missing_certs]
            else []
        end) (assigned_pilots project)
    else []) projects.

Definition skill_mismatch (pilot : Pilot) (project : Project)
    (required_skill : string) : Conflict :=
  {| conflict_type := SKILL_MISMATCH;
     severity := "Medium";
     description :=
       ("Pilot " ++ pilot_name pilot ++ " (skill level: " ++ skill_level pilot
        ++ ") is assigned to " ++ q (project_name project)
        ++ " which requires " ++ required_skill ++ " level")%string;
     affected_pilot_id := Some (pilot_id pilot);
     affected_pilot_name := Some (pilot_name pilot);
     affected_drone_id := None;
     affected_drone_serial := None;
     affected_project_id := Some (project_id project);
     affected_project_name := Some (project_name project);
     resolved := false |}.

Definition _detect_skill_mismatches (pilots : list Pilot)
    (projects : list Project) : list Conflict :=
  flat_map (fun project =>
    match required_skill_level project with
    | None => []
    | Some required_skill =>
        if String.eqb required_skill "" then []
        else
          let required_idx := skill_idx required_skill in
          flat_map (fun pid =>
            match find_pilot pilots pid with
            | None => []
            | Some pilot =>
                let pilot_idx := skill_idx (skill_level pilot) in
                if pilot_idx <? required_idx
                then [skill_mismatch pilot project required_skill]
                else []
            end) (assigned_pilots project)
    end) projects.

Definition pilot_location_mismatch (pilot : Pilot) (project : Project)
  : Conflict :=
  {| conflict_type := LOCATION_MISMATCH;
     severity := "Medium";
     description :=
       ("Pilot " ++ pilot_name pilot ++ " is in " ++ pilot_location pilot
        ++ " but assigned to " ++ q (project_name project) ++ " in "
        ++ location project)%string;
     affected_pilot_id := Some (pilot_id pilot);
     affected_pilot_name := Some (pilot_name pilot);
     affected_drone_id := None;
     affected_drone_serial := None;
     affected_project_id := Some (project_id project);
     affected_project_name := Some (project_name project);
     resolved := false |}.

Definition drone_location_mismatch (drone : Drone) (project : Project)
  : Conflict :=
  {| conflict_type := LOCATION_MISMATCH;
     severity := "Medium";
     description :=
       ("Drone " ++ serial_number drone ++ " is in " ++ drone_location drone
        ++ " but assigned to " ++ q (project_name project) ++ " in "
        ++ location project)%string;
     affected_pilot_id := None;
     affected_pilot_name := None;
     affected_drone_id := Some (drone_id drone);
     affected_drone_serial := Some (serial_number drone);
     affected_project_id := Some (project_id project);
     affected_project_name := Some (project_name project);
     resolved := false |}.

Definition pilot_drone_location_mismatch (pilot : Pilot) (drone : Drone)
    (project : Project) : Conflict :=
  {| conflict_type := LOCATION_MISMATCH;
     severity := "High";
     description :=
       ("Location mismatch on " ++ q (project_name project) ++ ": Pilot "
        ++ pilot_name pilot ++ " is in " ++ pilot_location pilot
        ++ " but drone " ++ serial_number drone ++ " is in "
        ++ drone_location drone)%string;
     affected_pilot_id := Some (pilot_id pilot);
     affected_pilot_name := Some (pilot_name pilot);
     affected_drone_id := Some (drone_id drone);
     affected_drone_serial := Some (serial_number drone);
     affected_project_id := Some (project_id project);
     affected_project_name := Some (project_name project);
     resolved := false |}.

(** The three loops run on one project by [_detect_location_mismatches]. *)
Definition pilot_location_checks (pilots : list Pilot) (project : Project)
  : list Conflict :=
  let project_location := lower (location project) in
  flat_map (fun pid =>
    match find_pilot pilots pid with
    | Some pilot =>
        if negb (String.eqb (lower (pilot_location pilot)) project_location)
        then [pilot_location_mismatch pilot project]
        else []
    | None => []
    end) (assigned_pilots project).

Definition drone_location_checks (drones : list Drone) (project : Project)
  : list Conflict :=
  let project_location := lower (location project) in
  flat_map (fun did =>
    match find_drone drones did with
    | Some drone =>
        if negb (String.eqb (lower (drone_location drone)) project_location)
        then [drone_location_mismatch drone project]
        else []
    | None => []
    end) (assigned_drones project).

Definition pilot_drone_location_checks (pilots : list Pilot)
    (drones : list Drone) (project : Project) : list Conflict :=
  flat_map (fun pid =>
    match find_pilot pilots pid with
    | None => []
    | Some pilot =>
        flat_map (fun did =>
          match find_drone drones did with
          | Some drone =>
              if negb (String.eqb (lower (pilot_location pilot))
                                  (lower (drone_location drone)))
              then [pilot_drone_location_mismatch pilot drone project]
              else []
          | None => []
          end) (assigned_drones project)
    end) (assigned_pilots project).

Definition _detect_location_mismatches (pilots : list Pilot)
    (drones : list Drone) (projects : list Project) : list Conflict :=
  flat_map (fun project =>
    pilot_location_checks pilots project
    ++ drone_location_checks drones project
    ++ pilot_drone_location_checks pilots drones project) projects.

Definition in_maintenance (drone : Drone) (project : Project) : Conflict :=
  {| conflict_type := DRONE_MAINTENANCE;
     severity := "Critical";
     description :=
       ("Drone " ++ serial_number drone ++ " (" ++ model drone
        ++ ") is in MAINTENANCE but assigned to " ++ q (project_name project)
        ++ ". Notes: " ++ or_else (notes drone) "No details")%string;
     affected_pilot_id := None;
     affected_pilot_name := None;
     affected_drone_id := Some (drone_id drone);
     affected_drone_serial := Some (serial_number drone);
     affected_project_id := Some (project_id project);
     affected_project_name := Some (project_name project);
     resolved := false |}.

Definition scheduled_maintenance (drone : Drone) (due : date)
    (project : Project) : Conflict :=
  {| conflict_type := DRONE_MAINTENANCE;
     severity := "Medium";
     description :=
       ("Drone " ++ serial_number drone ++ " has scheduled maintenance on "
        ++ isoformat due ++ " during " ++ q (project_name project) ++ " ("
        ++ fmt (start_date project) ++ " to " ++ fmt (end_date project)
        ++ ")")%string;
     affected_pilot_id := None;
     affected_pilot_name := None;
     affected_drone_id := Some (drone_id drone);
     affected_drone_serial := Some (serial_number drone);
     affected_project_id := Some (project_id project);
     affected_project_name := Some (project_name project);
     resolved := false |}.

(** The body of the inner loop of [_detect_drone_maintenance_conflicts]. *)
Definition maintenance_check (drones : list Drone) (project : Project)
    (did : string) : result (list Conflict) :=
  match find_drone drones did with
  | None => Ok []
  | Some drone =>
      let status_conflicts :=
        if String.eqb (drone_status drone) DroneStatus.MAINTENANCE
        then [in_maintenance drone project] else [] in
      match next_maintenance_date drone with
      | None => Ok status_conflicts
      | Some due =>
          proj_start <- strptime_date (start_date project) ;;
          proj_end <- strptime_date (end_date project) ;;
          if date_leb proj_start due && date_leb due proj_end
          then Ok (status_conflicts ++ [scheduled_maintenance drone due project])
          else Ok status_conflicts
      end
  end.

Definition _detect_drone_maintenance_conflicts (drones : list Drone)
    (projects : list Project) : result (list Conflict) :=
  for_each (fun project =>
    for_each (maintenance_check drones project) (assigned_drones project))
    projects.

Definition capability_mismatch (drone : Drone) (project : Project)
    (missing_caps : list string) : Conflict :=
  {| conflict_type := CAPABILITY_MISMATCH;
     severity := "High";
     description :=
       ("Drone " ++ serial_number drone ++ " (" ++ model drone
        ++ ") lacks required capabilities for " ++ q (project_name project)
        ++ ": " ++ join ", " missing_caps)%string;
     affected_pilot_id := None;
     affected_pilot_name := None;
     affected_drone_id := Some (drone_id drone);
     affected_drone_serial := Some (serial_number drone);
     affected_project_id := Some (project_id project);
     affected_project_name := Some (project_name project);
     resolved := false |}.

Definition _detect_capability_mismatches (drones : list Drone)
    (projects : list Project) : list Conflict :=
  flat_map (fun project =>
    let required_caps := required_capabilities project in
    if non_empty required_caps then
      flat_map (fun did =>
        match find_drone drones did with
        | None => []
        | Some drone =>
            let missing_caps := missing required_caps (capabilities drone) in
            if non_empty missing_caps
            then [capability_mismatch drone project missing_caps]
            else []
        end) (assigned_drones project)
    else []) projects.

(** [detect_all_conflicts], on the snapshot the record provider returned. *)
Definition detect_all_conflicts (pilots : list Pilot) (drones : list Drone)
    (projects : list Project) : result (list Conflict) :=
  c1 <- _detect_pilot_double_bookings pilots projects ;;
  c2 <- _detect_drone_double_bookings drones projects ;;
  let c3 := _detect_certification_mismatches pilots projects in
  let c4 := _detect_skill_mismatches pilots projects in
  let c5 := _detect_location_mismatches pilots drones projects in
  c6 <- _detect_drone_maintenance_conflicts drones projects ;;
  let c7 := _detect_capability_mismatches drones projects in
  Ok (c1 ++ c2 ++ c3 ++ c4 ++ c5 ++ c6 ++ c7).

(** [sheets_service.get_pilot_by_id] and [get_drone_by_id], on the rows the
    provider holds. *)
Definition get_pilot_by_id (pilots : list Pilot) (pid : string)
  : option Pilot := find_pilot pilots pid.

Definition get_drone_by_id (drones : list Drone) (did : string)
  : option Drone := find_drone drones did.

Definition pilot_conflict (t : ConflictType) (sev descr : string)
    (pilot : Pilot) (proj_id : string) : Conflict :=
  {| conflict_type := t;
     severity := sev;
     description := descr;
     affected_pilot_id := Some (pilot_id pilot);
     affected_pilot_name := Some (pilot_name pilot);
     affected_drone_id := None;
     affected_drone_serial := None;
     affected_project_id := Some proj_id;
     affected_project_name := None;
     resolved := false |}.

Definition drone_conflict (t : ConflictType) (sev descr : string)
    (drone : Drone) (proj_id : string) : Conflict :=
  {| conflict_type := t;
     severity := sev;
     description := descr;
     affected_pilot_id := None;
     affected_pilot_name := None;
     affected_drone_id := Some (drone_id drone);
     affected_drone_serial := Some (serial_number drone);
     affected_project_id := Some proj_id;
     affected_project_name := None;
     resolved := false |}.

Section CheckAssignment.

Variables (proj_id : string) (start_d end_d : date).
Variables (required_certs required_caps : list string).
Variables (required_skill loc : string).

(** The checks run on a pilot that [get_pilot_by_id] found. *)
Definition pilot_checks (pilot : Pilot) : list Conflict :=
  (if String.eqb (pilot_status pilot) PilotStatus.ON_LEAVE
   then [pilot_conflict DOUBLE_BOOKING_PILOT "Critical"
           ("Pilot " ++ pilot_name pilot ++ " is currently on leave")%string
           pilot proj_id]
   else [])
  ++ (match pilot_start pilot, pilot_end pilot with
      | Some s, Some e =>
          if _dates_overlap s e start_d end_d
          then [pilot_conflict DOUBLE_BOOKING_PILOT "Critical"
                  ("Pilot " ++ pilot_name pilot ++ " is already assigned to "
                   ++ q (fmt (pilot_assignment pilot))
                   ++ " during this period")%string
                  pilot proj_id]
          else []
      | _, _ => []
      end)
  ++ (let missing_certs := missing required_certs (certifications pilot) in
      if non_empty missing_certs
      then [pilot_conflict CERTIFICATION_MISMATCH "High"
              ("Pilot " ++ pilot_name pilot ++ " lacks certifications: "
               ++ join ", " missing_certs)%string
              pilot proj_id]
      else [])
  ++ (if mem required_skill skill_order then
        let required_idx := index required_skill skill_order in
        let pilot_idx := skill_idx (skill_level pilot) in
        if pilot_idx <? required_idx
        then [pilot_conflict SKILL_MISMATCH "Medium"
                ("Pilot " ++ pilot_name pilot ++ " skill level ("
                 ++ skill_level pilot ++ ") is below required ("
                 ++ required_skill ++ ")")%string
                pilot proj_id]
        else []
      else [])
  ++ (if negb (String.eqb loc "")
         && negb (String.eqb (lower (pilot_location pilot)) (lower loc))
      then [pilot_conflict LOCATION_MISMATCH "Medium"
              ("Pilot " ++ pilot_name pilot ++ " is in "
               ++ pilot_location pilot ++ ", project is in " ++ loc)%string
              pilot proj_id]
      else []).

(** The checks run on a drone that [get_drone_by_id] found. *)
Definition drone_checks (drone : Drone) : list Conflict :=
  (if String.eqb (drone_status drone) DroneStatus.MAINTENANCE
   then [drone_conflict DRONE_MAINTENANCE "Critical"
           ("Drone " ++ serial_number drone ++ " is in maintenance")%string
           drone proj_id]
   else [])
  ++ (match drone_start drone, drone_end drone with
      | Some s, Some e =>
          if _dates_overlap s e start_d end_d
          then [drone_conflict DOUBLE_BOOKING_DRONE "Critical"
                  ("Drone " ++ serial_number drone
                   ++ " is already assigned to "
                   ++ q (fmt (drone_assignment drone)))%string
                  drone proj_id]
          else []
      | _, _ => []
      end)
  ++ (let missing_caps := missing required_caps (capabilities drone) in
      if non_empty missing_caps
      then [drone_conflict CAPABILITY_MISMATCH "High"
              ("Drone " ++ serial_number drone ++ " lacks capabilities: "
               ++ join ", " missing_caps)%string
              drone proj_id]
      else [])
  ++ (if negb (String.eqb loc "")
         && negb (String.eqb (lower (drone_location drone)) (lower loc))
      then [drone_conflict LOCATION_MISMATCH "Medium"
              ("Drone " ++ serial_number drone ++ " is in "
               ++ drone_location drone ++ ", project is in " ++ loc)%string
              drone proj_id]
      else []).

Definition check_assignment_conflicts (pilots : list Pilot)
    (drones : list Drone) (pid did : option string) : list Conflict :=
  (match pid with
   | Some i =>
       if String.eqb i "" then []
       else match get_pilot_by_id pilots i with
            | Some pilot => pilot_checks pilot
            | None => []
            end
   | None => []
   end)
  ++ (match did with
      | Some i =>
          if String.eqb i "" then []
          else match get_drone_by_id drones i with
               | Some drone => drone_checks drone
               | None => []
               end
      | None => []
      end).

End CheckAssignment.

(* ===================================================================== *)
(** ** agent_service.py: replacement candidates *)
(* ===================================================================== *)

(** One entry of the [candidates] list.  The dict stores the dumped record
    under the key ['pilot'] or ['drone']; here it is the field [record]. *)
Record Candidate (R : Type) : Type := mkCandidate {
  record : R;
  score : Z;
  issues : list string;
  recommended : bool
}.

Section Sort.

Variable A : Type.
Variable key : A -> Z.

(** [l.sort(key=key, reverse=True)].  Python's sort is stable, also under
    [reverse=True]: entries with equal keys keep their order.  The result
    of a stable sort is determined by its input, so it is computed here by
    insertion from the right. *)
Fixpoint insert_desc (x : A) (l : list A) : list A :=
  match l with
  | [] => [x]
  | y :: r => if key x <? key y then y :: insert_desc x r else x :: y :: r
  end.

Fixpoint sort_desc (l : list A) : list A :=
  match l with
  | [] => []
  | x :: r => insert_desc x (sort_desc r)
  end.

(** The order of the sorted list: no entry is followed by a larger key. *)
Definition key_ge (a b : A) : Prop := key a >= key b.

End Sort.

(** The keys of the [arguments] dict of the two replacement tools; [None] is
    an absent key. *)
Record Args : Type := mkArgs {
  arg_project_id : option string;
  arg_required_certifications : option (list string);
  arg_required_capabilities : option (list string);
  arg_required_skill_level : option string;
  arg_preferred_location : option string;
  arg_exclude_pilot_id : option string;
  arg_exclude_drone_id : option string
}.

Definition get_default {A : Type} (o : option A) (d : A) : A :=
  match o with Some a => a | None => d end.

(** [next((p for p in projects if p['id'] == project_id), None)]. *)
Definition find_project (projects : list Project) (pid : option string)
  : option Project :=
  match pid with
  | Some i => find (fun p => String.eqb (project_id p) i) projects
  | None => None
  end.

(** [preferred_location and loc.lower() == preferred_location.lower()]. *)
Definition location_matches (preferred : option string) (loc : string)
  : bool :=
  match preferred with
  | Some pl => negb (String.eqb pl "") && String.eqb (lower loc) (lower pl)
  | None => false
  end.

(** [x == exclude_id], where [exclude_id] may be [None]. *)
Definition is_excluded (exclude_id : option string) (x : string) : bool :=
  match exclude_id with
  | Some e => String.eqb x e
  | None => false
  end.

Section RankPilots.

Variables (required_certs : list string) (required_skill : string).
Variables (preferred_location exclude_pilot_id : option string).

Definition required_skill_idx : Z := skill_idx required_skill.

(** The body of the loop over [all_pilots], for a pilot that is kept. *)
Definition pilot_candidate (pilot : Pilot) : Candidate Pilot :=
  let score := 0 in
  let issues := [] in
  let missing_certs := missing required_certs (certifications pilot) in
  let '(score, issues) :=
    if non_empty missing_certs
    then (score,
          issues ++ [("Missing certs: " ++ join ", " missing_certs)%string])
    else (score + 30, issues) in
  let pilot_skill_idx := skill_idx (skill_level pilot) in
  let '(score, issues) :=
    if pilot_skill_idx >=? required_skill_idx
    then (score + 25, issues)
    else (score,
          issues ++ [("Skill level " ++ skill_level pilot
                      ++ " below required " ++ required_skill)%string]) in
  let '(score, issues) :=
    if location_matches preferred_location (pilot_location pilot)
    then (score + 25, issues)
    else if truthy preferred_location
    then (score,
          issues ++ [("In " ++ pilot_location pilot ++ ", not "
                      ++ fmt preferred_location)%string])
    else (score, issues) in
  let score := score + pilot_skill_idx * 5 in
  {| record := pilot;
     score := score;
     issues := issues;
     recommended := (List.length issues =? 0)%nat |}.

Definition pilot_kept (pilot : Pilot) : bool :=
  negb (is_excluded exclude_pilot_id (pilot_id pilot))
  && String.eqb (pilot_status pilot) PilotStatus.AVAILABLE.

(** The [candidates] list before it is sorted. *)
Definition pilot_candidates (all_pilots : list Pilot)
  : list (Candidate Pilot) :=
  map pilot_candidate (filter pilot_kept all_pilots).

(** The loop, the sort and the slice [candidates[:5]]. *)
Definition rank_pilot_candidates (all_pilots : list Pilot)
  : list (Candidate Pilot) :=
  firstn 5 (sort_desc (@score Pilot) (pilot_candidates all_pilots)).

End RankPilots.

Section RankDrones.

Variables (required_caps : list string).
Variables (preferred_location exclude_drone_id : option string).

Definition drone_candidate (drone : Drone) : Candidate Drone :=
  let score := 0 in
  let issues := [] in
  let missing_caps := missing required_caps (capabilities drone) in
  let '(score, issues) :=
    if non_empty missing_caps
    then (score,
          issues ++ [("Missing capabilities: "
                      ++ join ", " missing_caps)%string])
    else (score + 40, issues) in
  let '(score, issues) :=
    if location_matches preferred_location (drone_location drone)
    then (score + 30, issues)
    else if truthy preferred_location
    then (score,
          issues ++ [("In " ++ drone_location drone ++ ", not "
                      ++ fmt preferred_location)%string])
    else (score, issues) in
  let score := score + Z.of_nat (List.length (capabilities drone)) * 2 in
  {| record := drone;
     score := score;
     issues := issues;
     recommended := (List.length issues =? 0)%nat |}.

Definition drone_kept (drone : Drone) : bool :=
  negb (is_excluded exclude_drone_id (drone_id drone))
  && String.eqb (drone_status drone) DroneStatus.AVAILABLE.

Definition drone_candidates (all_drones : list Drone)
  : list (Candidate Drone) :=
  map drone_candidate (filter drone_kept all_drones).

Definition rank_drone_candidates (all_drones : list Drone)
  : list (Candidate Drone) :=
  firstn 5 (sort_desc (@score Drone) (drone_candidates all_drones)).

End RankDrones.

(** The dict that [_find_replacement_pilot] serialises. *)
Record PilotReplacement : Type := mkPilotReplacement {
  pr_project_id : option string;
  pr_required_certifications : list string;
  pr_required_skill_level : string;
  pr_preferred_location : option string;
  pr_candidates : list (Candidate Pilot)
}.

Definition _find_replacement_pilot (projects : list Project)
    (all_pilots : list Pilot) (arguments : Args) : PilotReplacement :=
  let project_id := arg_project_id arguments in
  let required_certs := get_default (arg_required_certifications arguments) [] in
  let required_skill :=
    get_default (arg_required_skill_level arguments) "Intermediate" in
  let preferred_location := arg_preferred_location arguments in
  let exclude_pilot_id := arg_exclude_pilot_id arguments in
  let project := find_project projects project_id in
  let required_certs :=
    match project with
    | Some p => if non_empty required_certs then required_certs
                else required_certifications p
    | None => required_certs
    end in
  let required_skill :=
    match project with
    | Some p => if String.eqb required_skill ""
                then get_default (required_skill_level p) "Intermediate"
                else required_skill
    | None => required_skill
    end in
  let preferred_location :=
    match project with
    | Some p => if truthy preferred_location then preferred_location
                else Some (location p)
    | None => preferred_location
    end in
  {| pr_project_id := project_id;
     pr_required_certifications := required_certs;
     pr_required_skill_level := required_skill;
     pr_preferred_location := preferred_location;
     pr_candidates :=
       rank_pilot_candidates required_certs required_skill preferred_location
         exclude_pilot_id all_pilots |}.

(** The dict that [_find_replacement_drone] serialises. *)
Record DroneReplacement : Type := mkDroneReplacement {
  dr_project_id : option string;
  dr_required_capabilities : list string;
  dr_preferred_location : option string;
  dr_candidates : list (Candidate Drone)
}.

Definition _find_replacement_drone (projects : list Project)
    (all_drones : list Drone) (arguments : Args) : DroneReplacement :=
  let project_id := arg_project_id arguments in
  let required_caps := get_default (arg_required_capabilities arguments) [] in
  let preferred_location := arg_preferred_location arguments in
  let exclude_drone_id := arg_exclude_drone_id arguments in
  let project := find_project projects project_id in
  let required_caps :=
    match project with
    | Some p => if non_empty required_caps then required_caps
                else required_capabilities p
    | None => required_caps
    end in
  let preferred_location :=
    match project with
    | Some p => if truthy preferred_location then preferred_location
                else Some (location p)
    | None => preferred_location
    end in
  {| dr_project_id := project_id;
     dr_required_capabilities := required_caps;
     dr_preferred_location := preferred_location;
     dr_candidates :=
       rank_drone_candidates required_caps preferred_location
         exclude_drone_id all_drones |}.


(* ===================================================================== *)
(** ** The skill ranks as the specification lists them *)
(* ===================================================================== *)

(** Beginner = 0 < Intermediate = 1 < Advanced = 2 < Expert = 3, and rank 0
    for any other text.  The code computes ranks with [skill_idx]; the two
    are compared in [skill_idx_spec]. *)
Definition spec_skill_rank (s : string) : Z :=
  if String.eqb s "Beginner" then 0
  else if String.eqb s "Intermediate" then 1
  else if String.eqb s "Advanced" then 2
  else if String.eqb s "Expert" then 3
  else 0.

(* ===================================================================== *)
(** ** The candidate score as the specification words it *)
(* ===================================================================== *)

Section SpecScore.

Variables (required_certs : list string) (required_skill : string).
Variables (preferred_location : option string).

(** All required certifications are present. *)
Definition spec_all_present (pilot : Pilot) : bool :=
  forallb (fun c => mem c (certifications pilot)) required_certs.

(** A preferred location is given and matches, letter case ignored. *)
Definition spec_location_given : bool :=
  match preferred_location with
  | Some pl => negb (String.eqb pl "")
  | None => false
  end.

Definition spec_location_same (pilot : Pilot) : bool :=
  String.eqb (lower (pilot_location pilot))
             (lower (get_default preferred_location "")).

(** 30 for the certifications, 25 for the skill, 25 for the location, and
    5 times the pilot's rank. *)
Definition spec_pilot_score (pilot : Pilot) : Z :=
  (if spec_all_present pilot then 30 else 0)
  + (if spec_skill_rank (skill_level pilot) >=? spec_skill_rank required_skill
     then 25 else 0)
  + (if spec_location_given && spec_location_same pilot then 25 else 0)
  + 5 * spec_skill_rank (skill_level pilot).

(** One issue for the missing certifications (it lists each of them), one
    for a skill below the required one, one for a preferred location that is
    given and differs. *)
Definition spec_pilot_issues (pilot : Pilot) : list string :=
  (if spec_all_present pilot then []
   else [("Missing certs: "
          ++ join ", " (filter (fun c => negb (mem c (certifications pilot)))
                               required_certs))%string])
  ++ (if spec_skill_rank (skill_level pilot)
         >=? spec_skill_rank required_skill
      then []
      else [("Skill level " ++ skill_level pilot ++ " below required "
             ++ required_skill)%string])
  ++ (if spec_location_given && negb (spec_location_same pilot)
      then [("In " ++ pilot_location pilot ++ ", not "
             ++ get_default preferred_location "")%string]
      else []).

End SpecScore.

(** The pilot with one more certification, the others kept. *)
Definition add_certification (pilot : Pilot) (c : string) : Pilot :=
  {| pilot_id := pilot_id pilot;
     pilot_name := pilot_name pilot;
     skill_level := skill_level pilot;
     certifications := certifications pilot ++ [c];
     drone_experience := drone_experience pilot;
     pilot_location := pilot_location pilot;
     pilot_assignment := pilot_assignment pilot;
     pilot_start := pilot_start pilot;
     pilot_end := pilot_end pilot;
     pilot_status := pilot_status pilot |}.

(* ===================================================================== *)
(** ** The conflicts of the location rule *)
(* ===================================================================== *)

(** What [_detect_location_mismatches] emits: a conflict for each of the
    three comparisons that finds two different lowercased locations. *)
Definition location_mismatch_of (pilots : list Pilot) (drones : list Drone)
    (project : Project) (c : Conflict) : Prop :=
  (exists pid pilot,
     In pid (assigned_pilots project)
     /\ find_pilot pilots pid = Some pilot
     /\ lower (pilot_location pilot) <> lower (location project)
     /\ c = pilot_location_mismatch pilot project)
  \/ (exists did drone,
        In did (assigned_drones project)
        /\ find_drone drones did = Some drone
        /\ lower (drone_location drone) <> lower (location project)
        /\ c = drone_location_mismatch drone project)
  \/ (exists pid pilot did drone,
        In pid (assigned_pilots project)
        /\ find_pilot pilots pid = Some pilot
        /\ In did (assigned_drones project)
        /\ find_drone drones did = Some drone
        /\ lower (pilot_location pilot) <> lower (drone_location drone)
        /\ c = pilot_drone_location_mismatch pilot drone project).

(* ===================================================================== *)
(** ** Snapshots used as examples *)
(* ===================================================================== *)

Module Scenario.

Definition arjun : Pilot :=
  {| pilot_id := "P001"; pilot_name := "Arjun";
     skill_level := "Intermediate"; certifications := [];
     drone_experience := ["Mapping"]; pilot_location := "Bangalore";
     pilot_assignment := Some "A";
     pilot_start := Some (mkDate 2024 3 1);
     pilot_end := Some (mkDate 2024 3 10);
     pilot_status := PilotStatus.ASSIGNED |}.

Definition d1 : Drone :=
  {| drone_id := "D001"; serial_number := "DJI-M300-D001";
     model := "DJI M300"; capabilities := ["Thermal"];
     drone_assignment := None; drone_start := None; drone_end := None;
     drone_status := DroneStatus.AVAILABLE; drone_location := "Bangalore";
     next_maintenance_date := Some (mkDate 2024 3 5); notes := None |}.

Definition project_a : Project :=
  {| project_id := "PRJ-A"; project_name := "A"; location := "Bangalore";
     start_date := Some "2024-03-01"; end_date := Some "2024-03-10";
     required_certifications := []; required_capabilities := [];
     required_skill_level := Some "Intermediate";
     assigned_pilots := ["P001"]; assigned_drones := [] |}.

Definition project_b : Project :=
  {| project_id := "PRJ-B"; project_name := "B"; location := "Bangalore";
     start_date := Some "2024-03-05"; end_date := Some "2024-03-15";
     required_certifications := []; required_capabilities := [];
     required_skill_level := Some "Intermediate";
     assigned_pilots := ["P001"]; assigned_drones := ["D001"] |}.

(** A project whose start date is text that is not a date. *)
Definition project_tbd : Project :=
  {| project_id := "PRJ-C"; project_name := "C"; location := "Bangalore";
     start_date := Some "TBD"; end_date := Some "2024-03-15";
     required_certifications := []; required_capabilities := [];
     required_skill_level := Some "Intermediate";
     assigned_pilots := ["P001"]; assigned_drones := ["D001"] |}.

Definition meera : Pilot :=
  {| pilot_id := "P002"; pilot_name := "Meera";
     skill_level := "Expert"; certifications := ["DGCA"];
     drone_experience := ["Mapping"; "Thermal"; "Inspection"];
     pilot_location := "Mumbai";
     pilot_assignment := None; pilot_start := None; pilot_end := None;
     pilot_status := PilotStatus.AVAILABLE |}.

Definition kavya : Pilot :=
  {| pilot_id := "P003"; pilot_name := "Kavya";
     skill_level := "Advanced"; certifications := ["Night Ops"];
     drone_experience := ["Mapping"; "Thermal"];
     pilot_location := "BANGALORE";
     pilot_assignment := None; pilot_start := None; pilot_end := None;
     pilot_status := PilotStatus.AVAILABLE |}.

(** A project in Bangalore that lists a pilot in Mumbai and a pilot whose
    location is written BANGALORE. *)
Definition project_x : Project :=
  {| project_id := "PRJ-X"; project_name := "X"; location := "Bangalore";
     start_date := Some "2024-05-01"; end_date := Some "2024-05-10";
     required_certifications := []; required_capabilities := [];
     required_skill_level := Some "Intermediate";
     assigned_pilots := ["P002"; "P003"]; assigned_drones := [] |}.

End Scenario.

(* ===================================================================== *)
(** ** More example records *)
(* ===================================================================== *)

Module Fleet.

(** A drone deployed on project A from 1 to 10 March 2024 and in
    maintenance. *)
Definition d2 : Drone :=
  {| drone_id := "D002"; serial_number := "Mavic-3-D002";
     model := "Mavic 3"; capabilities := ["Mapping"];
     drone_assignment := Some "A";
     drone_start := Some (mkDate 2024 3 1);
     drone_end := Some (mkDate 2024 3 10);
     drone_status := DroneStatus.MAINTENANCE; drone_location := "Pune";
     next_maintenance_date := None; notes := None |}.

(** A project that lists pilot P003 and drone D002 and requires a
    certification and a capability that they lack. *)
Definition project_y : Project :=
  {| project_id := "PRJ-Y"; project_name := "Y"; location := "Bangalore";
     start_date := Some "2024-03-08"; end_date := Some "2024-03-20";
     required_certifications := ["DGCA"; "Night Ops"];
     required_capabilities := ["Thermal"; "Mapping"];
     required_skill_level := Some "Expert";
     assigned_pilots := ["P003"]; assigned_drones := ["D002"] |}.

End Fleet.

(* ===================================================================== *)
(** ** The shape of the sweep's result *)
(* ===================================================================== *)

(** The position of the rule that emits a conflict type, in the order in
    which [detect_all_conflicts] runs the rules. *)
Definition rule_rank (t : ConflictType) : nat :=
  match t with
  | DOUBLE_BOOKING_PILOT => 1
  | DOUBLE_BOOKING_DRONE => 2
  | CERTIFICATION_MISMATCH => 3
  | SKILL_MISMATCH => 4
  | LOCATION_MISMATCH => 5
  | DRONE_MAINTENANCE => 6
  | CAPABILITY_MISMATCH => 7
  end%nat.

Definition rule_order (a b : Conflict) : Prop :=
  (rule_rank (conflict_type a) <= rule_rank (conflict_type b))%nat.

(** The conflicts that the seven rules construct. *)
Definition built_by_rule (c : Conflict) : Prop :=
  (exists pilot a s e project, c = pilot_double_booking pilot a s e project)
  \/ (exists drone a project, c = drone_double_booking drone a project)
  \/ (exists pilot project ms, c = certification_mismatch pilot project ms)
  \/ (exists pilot project r, c = skill_mismatch pilot project r)
  \/ (exists pilot project, c = pilot_location_mismatch pilot project)
  \/ (exists drone project, c = drone_location_mismatch drone project)
  \/ (exists pilot drone project,
        c = pilot_drone_location_mismatch pilot drone project)
  \/ (exists drone project, c = in_maintenance drone project)
  \/ (exists drone due project, c = scheduled_maintenance drone due project)
  \/ (exists drone project ms, c = capability_mismatch drone project ms).

(** The severities that go with a conflict type. *)
Definition severity_of_type (t : ConflictType) (sev : string) : Prop :=
  match t with
  | DOUBLE_BOOKING_PILOT | DOUBLE_BOOKING_DRONE => sev = "Critical"
  | CERTIFICATION_MISMATCH | CAPABILITY_MISMATCH => sev = "High"
  | SKILL_MISMATCH => sev = "Medium"
  | LOCATION_MISMATCH => sev = "Medium" \/ sev = "High"
  | DRONE_MAINTENANCE => sev = "Critical" \/ sev = "Medium"
  end.

(* ===================================================================== *)
(** ** A placement without conflicts *)
(* ===================================================================== *)

Section Fits.

Variables (start_d end_d : date).
Variables (required_certs required_caps : list string).
Variables (required_skill loc : string).

(** The conditions that [check_assignment_conflicts] tests on a pilot. *)
Definition pilot_fits (pilot : Pilot) : Prop :=
  pilot_status pilot <> "On Leave"
  /\ (forall s e, pilot_start pilot = Some s -> pilot_end pilot = Some e ->
                  _dates_overlap s e start_d end_d = false)
  /\ (forall c, In c required_certs -> In c (certifications pilot))
  /\ (In required_skill skill_order ->
      spec_skill_rank (skill_level pilot) >= spec_skill_rank required_skill)
  /\ (loc = "" \/ lower (pilot_location pilot) = lower loc).

(** The conditions that [check_assignment_conflicts] tests on a drone. *)
Definition drone_fits (drone : Drone) : Prop :=
  drone_status drone <> "Maintenance"
  /\ (forall s e, drone_start drone = Some s -> drone_end drone = Some e ->
                  _dates_overlap s e start_d end_d = false)
  /\ (forall c, In c required_caps -> In c (capabilities drone))
  /\ (loc = "" \/ lower (drone_location drone) = lower loc).

End Fits.

(* ===================================================================== *)
(** ** Pools of more than five candidates *)
(* ===================================================================== *)

Module Pool.

Definition pilot (i lvl : string) : Pilot :=
  {| pilot_id := i; pilot_name := i; skill_level := lvl;
     certifications := []; drone_experience := [];
     pilot_location := "Pune"; pilot_assignment := None;
     pilot_start := None; pilot_end := None;
     pilot_status := PilotStatus.AVAILABLE |}.

Definition six_pilots : list Pilot :=
  [pilot "a" "Beginner"; pilot "b" "Expert"; pilot "c" "Beginner";
   pilot "d" "Advanced"; pilot "e" "Beginner"; pilot "f" "Intermediate"].

Definition drone (i : string) (caps : list string) (loc : string) : Drone :=
  {| drone_id := i; serial_number := i; model := "M";
     capabilities := caps; drone_assignment := None; drone_start := None;
     drone_end := None; drone_status := DroneStatus.AVAILABLE;
     drone_location := loc; next_maintenance_date := None; notes := None |}.

Definition six_drones : list Drone :=
  [drone "u" [] "Pune"; drone "v" ["Thermal"] "Pune";
   drone "w" ["Thermal"; "LiDAR"] "Goa"; drone "x" ["LiDAR"] "Pune";
   drone "y" [] "Goa"; drone "z" ["Thermal"; "LiDAR"; "RGB"] "Pune"].

End Pool.

(* ===================================================================== *)
(** ** The drone score in words *)
(* ===================================================================== *)

Section SpecDroneScore.

Variables (required_caps : list string).
Variables (preferred_location : option string).

(** All required capabilities are present. *)
Definition spec_all_capable (drone : Drone) : bool :=
  forallb (fun c => mem c (capabilities drone)) required_caps.

Definition spec_drone_location_same (drone : Drone) : bool :=
  String.eqb (lower (drone_location drone))
             (lower (get_default preferred_location "")).

(** 40 for the capabilities, 30 for the location, and 2 for each capability
    the drone has. *)
Definition spec_drone_score (drone : Drone) : Z :=
  (if spec_all_capable drone then 40 else 0)
  + (if spec_location_given preferred_location
        && spec_drone_location_same drone then 30 else 0)
  + 2 * Z.of_nat (List.length (capabilities drone)).

(** One issue for the missing capabilities, one for a preferred location
    that is given and differs. *)
Definition spec_drone_issues (drone : Drone) : list string :=
  (if spec_all_capable drone then []
   else [("Missing capabilities: "
          ++ join ", " (filter (fun c => negb (mem c (capabilities drone)))
                               required_caps))%string])
  ++ (if spec_location_given preferred_location
         && negb (spec_drone_location_same drone)
      then [("In " ++ drone_location drone ++ ", not "
             ++ get_default preferred_location "")%string]
      else []).

End SpecDroneScore.

(* ===================================================================== *)
(** ** agent_service.py: executing a reassignment *)
(* ===================================================================== *)

(** The keys of the [arguments] dict of [_execute_reassignment]; [None] is
    an absent key. *)
Record ReassignArgs : Type := mkReassignArgs {
  ra_project_name : option string;
  ra_old_pilot_id : option string;
  ra_new_pilot_id : option string;
  ra_old_drone_id : option string;
  ra_new_drone_id : option string;
  ra_start_date : option string;
  ra_end_date : option string;
  ra_reason : option string
}.

(** The [results] dict.  The key ['reason'] is set only when the [try] block
    ends, the key ['error'] only in the handler; the text [str(e)] of the
    exception is kept as the exception itself. *)
Record ReassignResult : Type := mkReassignResult {
  rr_success : bool;
  rr_actions : list string;
  rr_reason : option string;
  rr_error : option exn
}.

(** [datetime.strptime(v, '%Y-%m-%d').date() if v else None]. *)
Definition parse_if_given (v : option string) : result (option date) :=
  if truthy v then d <- strptime_date v ;; Ok (Some d) else Ok None.

Section Reassignment.

(** The record provider: its state, and the two update calls, which report
    success or failure and never raise (both write paths catch every
    exception and return [False]). *)
Variable Store : Type.
Variable update_pilot_status :
  string -> string -> option string -> option date -> option date ->
  Store -> bool * Store.
Variable update_drone_status :
  string -> string -> option string -> option date -> option date ->
  Store -> bool * Store.

Variable arguments : ReassignArgs.

(** The store and the [actions] list while the [try] block runs. *)
Definition World : Type := (Store * list string)%type.

Definition release_pilot (w : World) : World :=
  if truthy (ra_old_pilot_id arguments) then
    (snd (update_pilot_status (fmt (ra_old_pilot_id arguments)) "Available"
            None None None (fst w)),
     snd w ++ [("Released pilot " ++ fmt (ra_old_pilot_id arguments)
                ++ " from assignment")%string])
  else w.

Definition assign_pilot (w : World) : result World :=
  if truthy (ra_new_pilot_id arguments) then
    start <- parse_if_given (ra_start_date arguments) ;;
    end_ <- parse_if_given (ra_end_date arguments) ;;
    Ok (snd (update_pilot_status (fmt (ra_new_pilot_id arguments)) "Assigned"
               (ra_project_name arguments) start end_ (fst w)),
        snd w ++ [("Assigned pilot " ++ fmt (ra_new_pilot_id arguments)
                   ++ " to " ++ fmt (ra_project_name arguments))%string])
  else Ok w.

Definition release_drone (w : World) : World :=
  if truthy (ra_old_drone_id arguments) then
    (snd (update_drone_status (fmt (ra_old_drone_id arguments)) "Available"
            None None None (fst w)),
     snd w ++ [("Released drone " ++ fmt (ra_old_drone_id arguments)
                ++ " from deployment")%string])
  else w.

Definition deploy_drone (w : World) : result World :=
  if truthy (ra_new_drone_id arguments) then
    start <- parse_if_given (ra_start_date arguments) ;;
    end_ <- parse_if_given (ra_end_date arguments) ;;
    Ok (snd (update_drone_status (fmt (ra_new_drone_id arguments)) "Deployed"
               (ra_project_name arguments) start end_ (fst w)),
        snd w ++ [("Deployed drone " ++ fmt (ra_new_drone_id arguments)
                   ++ " to " ++ fmt (ra_project_name arguments))%string])
  else Ok w.

(** The handler: what was done before the exception stays done. *)
Definition failed (e : exn) (w : World) : ReassignResult * Store :=
  ({| rr_success := false; rr_actions := snd w; rr_reason := None;
      rr_error := Some e |}, fst w).

(** [_execute_reassignment], returning the [results] dict (before it is
    serialised) and the store it leaves. *)
Definition _execute_reassignment (store : Store) : ReassignResult * Store :=
  let w1 := release_pilot (store, []) in
  match assign_pilot w1 with
  | Raise e => failed e w1
  | Ok w2 =>
      let w3 := release_drone w2 in
      match deploy_drone w3 with
      | Raise e => failed e w3
      | Ok w4 =>
          ({| rr_success := true; rr_actions := snd w4;
              rr_reason :=
                Some (get_default (ra_reason arguments)
                                  "Urgent reassignment");
              rr_error := None |}, fst w4)
      end
  end.

End Reassignment.

(** A date argument that does not abort the reassignment. *)
Definition date_accepted (v : option string) : Prop :=
  truthy v = false \/ exists d, strptime_date v = Ok d.

(* ===================================================================== *)
(** ** A provider that records the updates it receives *)
(* ===================================================================== *)

Module Ledger.

(** The updates received so far, latest first, as (id, status). *)
Definition Store : Type := list (string * string).

Definition update (id status : string) (assignment : option string)
    (start_d end_d : option date) (s : Store) : bool * Store :=
  (true, (id, status) :: s).

(** Swap pilot P001 for P002 on project B, with a start date that names a
    thirteenth month. *)
Definition swap_with_bad_date : ReassignArgs :=
  {| ra_project_name := Some "B";
     ra_old_pilot_id := Some "P001"; ra_new_pilot_id := Some "P002";
     ra_old_drone_id := None; ra_new_drone_id := None;
     ra_start_date := Some "2024-13-01"; ra_end_date := Some "2024-03-15";
     ra_reason := None |}.

End Ledger.

(* ===================================================================== *)
(** ** google_sheets_service.py: text helpers *)
(* ===================================================================== *)

(** The characters [str.strip()] removes: tab, line feed, vertical tab, form
    feed, carriage return, the four separators 28 to 31, and the space. *)
Definition is_space (c : ascii) : bool :=
  let n := nat_of_ascii c in
  ((9 <=? n) && (n <=? 13) || (28 <=? n) && (n <=? 32))%nat.

Fixpoint lstrip (cs : list ascii) : list ascii :=
  match cs with
  | c :: r => if is_space c then lstrip r else cs
  | [] => []
  end.

Definition strip_chars (cs : list ascii) : list ascii :=
  rev (lstrip (rev (lstrip cs))).

(** [s.strip()]. *)
Definition strip (s : string) : string :=
  string_of_list_ascii (strip_chars (list_ascii_of_string s)).

(** [s.split(sep)] for a one-character separator: the pieces between the
    separators, of which there is always at least one. *)
Fixpoint split_chars (sep : ascii) (cs : list ascii) : list (list ascii) :=
  match cs with
  | [] => [[]]
  | c :: r =>
      if Ascii.eqb c sep then [] :: split_chars sep r
      else match split_chars sep r with
           | piece :: pieces => (c :: piece) :: pieces
           | [] => [[c]]
           end
  end.

Definition split (sep : ascii) (s : string) : list string :=
  map string_of_list_ascii (split_chars sep (list_ascii_of_string s)).

(** [[x.strip() for x in s.split(',') if x.strip()]]. *)
Definition split_labels (s : string) : list string :=
  filter (fun x => negb (String.eqb x ""))
         (map strip (split ","%char s)).

(** [s.replace(a, b)] for single characters. *)
Fixpoint replace_char (a b : ascii) (s : string) : string :=
  match s with
  | EmptyString => EmptyString
  | String c r => String (if Ascii.eqb c a then b else c) (replace_char a b r)
  end.

Fixpoint is_prefix (p s : list ascii) : bool :=
  match p, s with
  | [], _ => true
  | a :: p', b :: s' => Ascii.eqb a b && is_prefix p' s'
  | _ :: _, [] => false
  end.

Fixpoint occurs (p s : list ascii) : bool :=
  is_prefix p s
  || match s with
     | [] => false
     | _ :: s' => occurs p s'
     end.

(** [needle in hay] on strings. *)
Definition contains (needle hay : string) : bool :=
  occurs (list_ascii_of_string needle) (list_ascii_of_string hay).

(** A cell of a row: a [str], or [None] where the reader had no value. *)
Definition cell : Type := option string.

(** A row of a sheet or of a CSV file: the dict from column name to cell. *)
Definition row : Type := list (string * cell).

Fixpoint lookup (k : string) (r : row) : option cell :=
  match r with
  | [] => None
  | (k', v) :: rest => if String.eqb k' k then Some v else lookup k rest
  end.

(** [row.get(k)]. *)
Definition get (r : row) (k : string) : cell :=
  match lookup k r with
  | Some v => v
  | None => None
  end.

(** [row.get(k, d)]. *)
Definition get_or (r : row) (k d : string) : cell :=
  match lookup k r with
  | Some v => v
  | None => Some d
  end.

(** [a or b]. *)
Definition por (a b : cell) : cell := if truthy a then a else b.

(* ===================================================================== *)
(** ** google_sheets_service.py: dates *)
(* ===================================================================== *)

(** The directives of the five formats that [_parse_date] tries. *)
Inductive directive : Type :=
| DY               (* %Y : \d\d\d\d *)
| Dy               (* %y : \d\d *)
| Dm               (* %m : 1[0-2]|0[1-9]|[1-9] *)
| Dd               (* %d : 3[0-1]|[1-2]\d|0[1-9]|[1-9]| [1-9] *)
| Lit (c : ascii). (* a literal character *)

(** What the named groups of a match hold. *)
Record fields : Type := mkFields {
  f_year : option nat;
  f_month : option nat;
  f_day : option nat
}.

Definition no_fields : fields :=
  {| f_year := None; f_month := None; f_day := None |}.

(** The ways one directive matches a prefix of the text, in the order in
    which the regular expression tries its alternatives: the value read and
    the text left. *)
Definition alternatives (d : directive) (cs : list ascii)
  : list (nat * list ascii) :=
  match d with
  | DY =>
      match cs with
      | a :: b :: c :: e :: rest =>
          if in_range 0 9 a && in_range 0 9 b && in_range 0 9 c
             && in_range 0 9 e
          then [((val a * 1000 + val b * 100 + val c * 10 + val e)%nat, rest)]
          else []
      | _ => []
      end
  | Dy =>
      match cs with
      | a :: b :: rest =>
          if in_range 0 9 a && in_range 0 9 b
          then [((val a * 10 + val b)%nat, rest)] else []
      | _ => []
      end
  | Dm =>
      match cs with
      | a :: rest =>
          (match rest with
           | b :: rest' =>
               (if Ascii.eqb a "1" && in_range 0 2 b
                then [((10 + val b)%nat, rest')] else [])
               ++ (if Ascii.eqb a "0" && in_range 1 9 b
                   then [(val b, rest')] else [])
           | [] => []
           end)
          ++ (if in_range 1 9 a then [(val a, rest)] else [])
      | [] => []
      end
  | Dd =>
      match cs with
      | a :: rest =>
          (match rest with
           | b :: rest' =>
               (if Ascii.eqb a "3" && in_range 0 1 b
                then [((30 + val b)%nat, rest')] else [])
               ++ (if in_range 1 2 a && in_range 0 9 b
                   then [((val a * 10 + val b)%nat, rest')] else [])
               ++ (if Ascii.eqb a "0" && in_range 1 9 b
                   then [(val b, rest')] else [])
           | [] => []
           end)
          ++ (if in_range 1 9 a then [(val a, rest)] else [])
          ++ (match rest with
              | b :: rest' =>
                  if Ascii.eqb a space && in_range 1 9 b
                  then [(val b, rest')] else []
              | [] => []
              end)
      | [] => []
      end
  | Lit c =>
      match cs with
      | a :: rest => if Ascii.eqb a c then [(0%nat, rest)] else []
      | [] => []
      end
  end.

Definition record_field (d : directive) (v : nat) (f : fields) : fields :=
  match d with
  | DY => {| f_year := Some v; f_month := f_month f; f_day := f_day f |}
  | Dy =>
      {| f_year := Some (if (v <=? 68)%nat then 2000 + v else 1900 + v)%nat;
         f_month := f_month f; f_day := f_day f |}
  | Dm => {| f_year := f_year f; f_month := Some v; f_day := f_day f |}
  | Dd => {| f_year := f_year f; f_month := f_month f; f_day := Some v |}
  | Lit _ => f
  end.

(** All the matches of a format against a prefix of the text, in the order
    in which backtracking finds them. *)
Fixpoint matches (fmt : list directive) (cs : list ascii)
  : list (fields * list ascii) :=
  match fmt with
  | [] => [(no_fields, cs)]
  | d :: ds =>
      flat_map (fun '(v, rest) =>
                  map (fun '(f, rest') => (record_field d v f, rest'))
                      (matches ds rest))
               (alternatives d cs)
  end.

(** The date of the matched fields, if it is a day of the calendar. *)
Definition date_of_fields (f : fields) : option date :=
  match f_year f, f_month f, f_day f with
  | Some y, Some m, Some d =>
      if (1 <=? y)%nat && (1 <=? m)%nat && (m <=? 12)%nat
         && (1 <=? d)%nat && (d <=? days_in_month y m)%nat
      then Some (mkDate y m d) else None
  | _, _, _ => None
  end.

(** [datetime.strptime(s, fmt).date()], or [None] where it raises
    [ValueError]: the first match is taken, it must use up the text, and
    its fields must name a day of the calendar. *)
Definition strptime_fmt (fmt : list directive) (s : string) : option date :=
  match matches fmt (list_ascii_of_string s) with
  | (f, []) :: _ => date_of_fields f
  | _ => None
  end.

Definition slash : ascii := "/"%char.

Definition fmt_iso : list directive := [DY; Lit dash; Dm; Lit dash; Dd].
Definition fmt_mdy2 : list directive := [Dm; Lit slash; Dd; Lit slash; Dy].
Definition fmt_mdy4 : list directive := [Dm; Lit slash; Dd; Lit slash; DY].
Definition fmt_dmy2 : list directive := [Dd; Lit slash; Dm; Lit slash; Dy].
Definition fmt_dmy4 : list directive := [Dd; Lit slash; Dm; Lit slash; DY].

Definition formats : list (list directive) :=
  [fmt_iso; fmt_mdy2; fmt_mdy4; fmt_dmy2; fmt_dmy4].

(** The loop over the formats: the first that parses decides. *)
Fixpoint first_format (fmts : list (list directive)) (s : string)
  : option date :=
  match fmts with
  | [] => None
  | fmt :: rest =>
      match strptime_fmt fmt s with
      | Some d => Some d
      | None => first_format rest s
      end
  end.

Definition _parse_date (value : cell) : option date :=
  if truthy value then first_format formats (strip (fmt value)) else None.

(** A day of the calendar, with a year that [isoformat] writes with four
    digits. *)
Definition valid_date (d : date) : Prop :=
  (1 <= Z.of_nat (year d) <= 9999)
  /\ (1 <= month d <= 12)%nat
  /\ (1 <= day d <= days_in_month (year d) (month d))%nat.

(** [a < b] on [datetime.date]. *)
Definition date_ltb (a b : date) : bool := negb (date_leb b a).

(* ===================================================================== *)
(** ** google_sheets_service.py: rows *)
(* ===================================================================== *)

(** A step that raises on [None] (a method called on it); the parsers catch
    every exception and return [None]. *)
Definition obind {A B : Type} (o : option A) (k : A -> option B)
  : option B :=
  match o with
  | Some a => k a
  | None => None
  end.

Notation "x <~ o ;; k" := (obind o (fun x => k))
  (at level 61, o at next level, right associativity).

(** The en dash that the sheets use for an empty assignment, in UTF-8. *)
Definition en_dash : string :=
  String (ascii_of_nat 226) (String (ascii_of_nat 128)
    (String (ascii_of_nat 147) EmptyString)).

(** [None] when the stripped cell is an en dash, a hyphen or empty. *)
Definition assignment_of (raw : string) : option string :=
  let assignment := strip raw in
  if mem assignment [en_dash; "-"; ""] then None else Some assignment.

(** The parsed pilot, with the fields of the model that [Pilot] above does
    not carry. *)
Record PilotRow : Type := mkPilotRow {
  row_pilot : Pilot;
  row_email : string;
  row_pilot_notes : string
}.

Definition pilot_status_of (status_str : string) : string :=
  if String.eqb status_str "Available" then PilotStatus.AVAILABLE
  else if String.eqb status_str "Assigned" then PilotStatus.ASSIGNED
  else if String.eqb status_str "On Leave" then PilotStatus.ON_LEAVE
  else if String.eqb status_str "Unavailable" then PilotStatus.UNAVAILABLE
  else PilotStatus.AVAILABLE.

Definition _parse_pilot_row (r : row) : option PilotRow :=
  let pilot_id :=
    por (por (get r "pilot_id") (get r "Pilot ID")) (get_or r "ID" "") in
  let name := por (get r "name") (get_or r "Name" "") in
  if negb (truthy pilot_id) || negb (truthy name) then None
  else
    skills_str <~ por (get r "skills") (get_or r "Skills" "") ;;
    let skills := split_labels skills_str in
    certs_str <~
      por (get r "certifications") (get_or r "Certifications" "") ;;
    let certs := split_labels certs_str in
    let skill_level :=
      if (3 <=? List.length skills)%nat then "Expert"
      else if (2 <=? List.length skills)%nat then "Advanced"
      else if (1 <=? List.length skills)%nat then "Intermediate"
      else "Beginner" in
    status_raw <~ por (get r "status") (get_or r "Status" "Available") ;;
    let status := pilot_status_of (strip status_raw) in
    assignment_raw <~
      por (get r "current_assignment") (get_or r "Current Assignment" "") ;;
    let assignment := assignment_of assignment_raw in
    location_raw <~ por (get r "location") (get_or r "Location" "") ;;
    let location := strip location_raw in
    let available_from :=
      _parse_date
        (por (get r "available_from") (get_or r "Available From" "")) in
    Some
      {| row_pilot :=
           {| pilot_id := strip (fmt pilot_id);
              pilot_name := strip (fmt name);
              skill_level := skill_level;
              certifications := certs;
              drone_experience := skills;
              pilot_location := location;
              pilot_assignment := assignment;
              pilot_start :=
                if String.eqb status PilotStatus.ASSIGNED
                then available_from else None;
              pilot_end := None;
              pilot_status := status |};
         row_email :=
           (replace_char " " "." (lower (fmt name)) ++ "@skylark.com")%string;
         row_pilot_notes :=
           if non_empty skills
           then ("Skills: " ++ join ", " skills)%string else "" |}.

(** [get_all_pilots], on the rows that the sheet or the CSV reader yields. *)
Definition get_all_pilots (rows : list row) : list Pilot :=
  flat_map (fun r => match _parse_pilot_row r with
                     | Some p => [row_pilot p]
                     | None => []
                     end) rows.

Definition drone_status_of (status_str : string) : string :=
  if String.eqb status_str "Available" then DroneStatus.AVAILABLE
  else if String.eqb status_str "Deployed" then DroneStatus.DEPLOYED
  else if String.eqb status_str "Maintenance" then DroneStatus.MAINTENANCE
  else if String.eqb status_str "Unavailable" then DroneStatus.UNAVAILABLE
  else DroneStatus.AVAILABLE.

(** The fields [last_maintenance_date] and [flight_hours], which the parser
    sets to [None] and [0.0], are not carried by [Drone] above. *)
Definition _parse_drone_row (r : row) : option Drone :=
  let drone_id :=
    por (por (get r "drone_id") (get r "Drone ID")) (get_or r "ID" "") in
  let model := por (get r "model") (get_or r "Model" "") in
  if negb (truthy drone_id) || negb (truthy model) then None
  else
    caps_str <~ por (get r "capabilities") (get_or r "Capabilities" "") ;;
    let capabilities := split_labels caps_str in
    status_raw <~ por (get r "status") (get_or r "Status" "Available") ;;
    let status := drone_status_of (strip status_raw) in
    assignment_raw <~
      por (get r "current_assignment") (get_or r "Current Assignment" "") ;;
    let assignment := assignment_of assignment_raw in
    location_raw <~ por (get r "location") (get_or r "Location" "") ;;
    let location := strip location_raw in
    let maintenance_due :=
      _parse_date
        (por (get r "maintenance_due") (get_or r "Maintenance Due" "")) in
    Some
      {| drone_id := strip (fmt drone_id);
         serial_number :=
           (replace_char " " "-" (fmt model) ++ "-" ++ fmt drone_id)%string;
         model := strip (fmt model);
         capabilities := capabilities;
         drone_assignment := assignment;
         drone_start := None;
         drone_end := None;
         drone_status := status;
         drone_location := location;
         next_maintenance_date := maintenance_due;
         notes :=
           Some (if non_empty capabilities
                 then ("Capabilities: " ++ join ", " capabilities)%string
                 else "") |}.

Definition get_all_drones (rows : list row) : list Drone :=
  flat_map (fun r => match _parse_drone_row r with
                     | Some d => [d]
                     | None => []
                     end) rows.

(** The project dict, with the keys that [Project] above does not carry. *)
Record ProjectDict : Type := mkProjectDict {
  pd_project : Project;
  pd_client : string;
  pd_status : string;
  pd_priority : string;
  pd_notes : string
}.

Section Projects.

(** [date.today()]. *)
Variable today : date.

Definition _parse_project_row (r : row) : option ProjectDict :=
  let project_id := por (get r "project_id") (get_or r "Project ID" "") in
  let client := por (get r "client") (get_or r "Client" "") in
  if negb (truthy project_id) then None
  else
    let location := por (get r "location") (get_or r "Location" "") in
    skills_str <~
      por (get r "required_skills") (get_or r "Required Skills" "") ;;
    let req_skills := split_labels skills_str in
    certs_str <~
      por (get r "required_certs") (get_or r "Required Certs" "") ;;
    let req_certs := split_labels certs_str in
    let start_date :=
      _parse_date (por (get r "start_date") (get_or r "Start Date" "")) in
    let end_date :=
      _parse_date (por (get r "end_date") (get_or r "End Date" "")) in
    let priority := por (get r "priority") (get_or r "Priority" "Standard") in
    let req_skill_level :=
      match priority with
      | Some p => if String.eqb p "Urgent" then "Advanced" else "Intermediate"
      | None => "Intermediate"
      end in
    let status :=
      match start_date, end_date with
      | Some s, Some e =>
          if date_ltb today s then "Pending"
          else if date_ltb e today then "Completed"
          else "Active"
      | _, _ => "Pending Assignment"
      end in
    client_str <~ client ;;
    location_str <~ location ;;
    priority_str <~ priority ;;
    Some
      {| pd_project :=
           {| project_id := strip (fmt project_id);
              project_name := (client_str ++ " - " ++ location_str)%string;
              location := strip location_str;
              start_date := option_map isoformat start_date;
              end_date := option_map isoformat end_date;
              required_certifications := req_certs;
              required_capabilities := req_skills;
              required_skill_level := Some req_skill_level;
              assigned_pilots := [];
              assigned_drones := [] |};
         pd_client := strip client_str;
         pd_status := status;
         pd_priority := strip priority_str;
         pd_notes :=
           ("Required skills: " ++ join ", " req_skills)%string |}.

(** [get_demo_projects], on the rows that the sheet or the CSV reader
    yields. *)
Definition get_demo_projects (rows : list row) : list ProjectDict :=
  flat_map (fun r => match _parse_project_row r with
                     | Some p => [p]
                     | None => []
                     end) rows.

End Projects.

(* ===================================================================== *)
(** ** Rows used as examples *)
(* ===================================================================== *)

Module Sheet.

Definition pilot_row : row :=
  [("pilot_id", Some "P001"); ("name", Some "Arjun Rao");
   ("skills", Some "Mapping, Thermal"); ("certifications", Some "DGCA");
   ("status", Some "Assigned"); ("current_assignment", Some "Project-A");
   ("location", Some " Bangalore "); ("available_from", Some "2/5/26")].

Definition drone_row : row :=
  [("drone_id", Some "D001"); ("model", Some "DJI M300");
   ("capabilities", Some "Thermal, LiDAR"); ("status", Some "Maintenance");
   ("current_assignment", Some "-"); ("location", Some "Pune");
   ("maintenance_due", Some "2026-03-01")].

Definition project_row : row :=
  [("project_id", Some "PRJ001"); ("client", Some "Acme");
   ("location", Some "Pune"); ("required_skills", Some "Thermal");
   ("required_certs", Some "DGCA"); ("start_date", Some "2026-02-01");
   ("end_date", Some "28/2/2026"); ("priority", Some "Urgent")].

(** A row whose reader left the priority cell without a value. *)
Definition short_project_row : row :=
  [("project_id", Some "PRJ002"); ("client", Some "Beta");
   ("location", Some "Goa"); ("required_skills", Some "");
   ("required_certs", Some ""); ("start_date", Some "TBD");
   ("end_date", Some ""); ("priority", None)].

(** What the three rows are read into, with 10 February 2026 for today. *)
Definition pilot_read : PilotRow :=
  {| row_pilot :=
       {| pilot_id := "P001"; pilot_name := "Arjun Rao";
          skill_level := "Advanced"; certifications := ["DGCA"];
          drone_experience := ["Mapping"; "Thermal"];
          pilot_location := "Bangalore";
          pilot_assignment := Some "Project-A";
          pilot_start := Some (mkDate 2026 2 5); pilot_end := None;
          pilot_status := "Assigned" |};
     row_email := "arjun.rao@skylark.com";
     row_pilot_notes := "Skills: Mapping, Thermal" |}.

Definition drone_read : Drone :=
  {| drone_id := "D001"; serial_number := "DJI-M300-D001";
     model := "DJI M300"; capabilities := ["Thermal"; "LiDAR"];
     drone_assignment := None; drone_start := None; drone_end := None;
     drone_status := "Maintenance"; drone_location := "Pune";
     next_maintenance_date := Some (mkDate 2026 3 1);
     notes := Some "Capabilities: Thermal, LiDAR" |}.

Definition project_read : ProjectDict :=
  {| pd_project :=
       {| project_id := "PRJ001"; project_name := "Acme - Pune";
          location := "Pune";
          start_date := Some "2026-02-01"; end_date := Some "2026-02-28";
          required_certifications := ["DGCA"];
          required_capabilities := ["Thermal"];
          required_skill_level := Some "Advanced";
          assigned_pilots := []; assigned_drones := [] |};
     pd_client := "Acme"; pd_status := "Active"; pd_priority := "Urgent";
     pd_notes := "Required skills: Thermal" |}.

End Sheet.

(* ===================================================================== *)
(** ** The provider's filters for available pilots and drones *)
(* ===================================================================== *)

(** [xs.index(x)]: a [ValueError] when [x] is not in [xs]. *)
Definition index_of (x : string) (xs : list string) : result Z :=
  if mem x xs then Ok (index x xs) else Raise ValueError.

(** [any(needle.lower() in x.lower() for x in xs)]. *)
Definition any_contains (needle : string) (xs : list string) : bool :=
  existsb (fun x => contains (lower needle) (lower x)) xs.

(** The value of an optional filter under [if value:]: [None] and the empty
    string both leave the filter out. *)
Definition given (o : option string) : option string :=
  match o with
  | Some s => if String.eqb s "" then None else Some s
  | None => None
  end.

(** [get_available_pilots], on the roster that [get_all_pilots] returned. *)
Definition get_available_pilots (all_pilots : list Pilot)
    (skill certification place drone_model : option string)
  : result (list Pilot) :=
  let pilots :=
    filter (fun p => String.eqb (pilot_status p) PilotStatus.AVAILABLE)
      all_pilots in
  pilots <-
    match given skill with
    | Some s =>
        let min_idx := skill_idx s in
        for_each (fun p => i <- index_of (skill_level p) skill_order ;;
                           Ok (if min_idx <=? i then [p] else []))
          pilots
    | None => Ok pilots
    end ;;
  let pilots :=
    match given certification with
    | Some c => filter (fun p => any_contains c (certifications p)) pilots
    | None => pilots
    end in
  let pilots :=
    match given place with
    | Some l =>
        filter (fun p => String.eqb (lower (pilot_location p)) (lower l))
          pilots
    | None => pilots
    end in
  let pilots :=
    match given drone_model with
    | Some m => filter (fun p => any_contains m (drone_experience p)) pilots
    | None => pilots
    end in
  Ok pilots.

(** [get_available_drones], on the fleet that [get_all_drones] returned. *)
Definition get_available_drones (all_drones : list Drone)
    (capability place model_name : option string) : list Drone :=
  let drones :=
    filter (fun d => String.eqb (drone_status d) DroneStatus.AVAILABLE)
      all_drones in
  let drones :=
    match given capability with
    | Some c => filter (fun d => any_contains c (capabilities d)) drones
    | None => drones
    end in
  let drones :=
    match given place with
    | Some l =>
        filter (fun d => String.eqb (lower (drone_location d)) (lower l))
          drones
    | None => drones
    end in
  match given model_name with
  | Some m => filter (fun d => contains (lower m) (lower (model d))) drones
  | None => drones
  end.

(* ===================================================================== *)
(** ** The dashboard summary *)
(* ===================================================================== *)

(** The counts of the dashboard; the connection details are left out. *)
Record Dashboard : Type := mkDashboard {
  pilots_total : nat;
  pilots_available : nat;
  pilots_assigned : nat;
  pilots_on_leave : nat;
  drones_total : nat;
  drones_available : nat;
  drones_deployed : nat;
  drones_maintenance : nat;
  projects_total : nat;
  projects_active : nat;
  projects_pending : nat;
  conflicts_total : nat;
  conflicts_critical : nat;
  conflicts_high : nat;
  conflicts_medium : nat
}.

(** [len([x for x in xs if keep(x)])]. *)
Definition count {A : Type} (keep : A -> bool) (xs : list A) : nat :=
  List.length (filter keep xs).

(** [get_dashboard], on the rows that the provider reads, with one value of
    [date.today()] for the whole request. *)
Definition get_dashboard (today : date)
    (pilot_rows drone_rows project_rows : list row) : result Dashboard :=
  let pilots := get_all_pilots pilot_rows in
  let drones := get_all_drones drone_rows in
  let projects := get_demo_projects today project_rows in
  conflicts <- detect_all_conflicts pilots drones (map pd_project projects) ;;
  Ok {| pilots_total := List.length pilots;
        pilots_available :=
          count (fun p => String.eqb (pilot_status p) PilotStatus.AVAILABLE)
            pilots;
        pilots_assigned :=
          count (fun p => String.eqb (pilot_status p) PilotStatus.ASSIGNED)
            pilots;
        pilots_on_leave :=
          count (fun p => String.eqb (pilot_status p) PilotStatus.ON_LEAVE)
            pilots;
        drones_total := List.length drones;
        drones_available :=
          count (fun d => String.eqb (drone_status d) DroneStatus.AVAILABLE)
            drones;
        drones_deployed :=
          count (fun d => String.eqb (drone_status d) DroneStatus.DEPLOYED)
            drones;
        drones_maintenance :=
          count (fun d => String.eqb (drone_status d) DroneStatus.MAINTENANCE)
            drones;
        projects_total := List.length projects;
        projects_active :=
          count (fun p => String.eqb (pd_status p) "Active") projects;
        projects_pending :=
          count (fun p => contains "Pending" (pd_status p)) projects;
        conflicts_total := List.length conflicts;
        conflicts_critical :=
          count (fun c => String.eqb (severity c) "Critical") conflicts;
        conflicts_high :=
          count (fun c => String.eqb (severity c) "High") conflicts;
        conflicts_medium :=
          count (fun c => String.eqb (severity c) "Medium") conflicts |}.

(* ===================================================================== *)
(** ** google_sheets_service.py: the rows that a status update writes back *)
(* ===================================================================== *)

(** [row[k] = v]: the value of an existing key is replaced in place, a new
    key is added last. *)
Fixpoint set_item (r : row) (k : string) (v : cell) : row :=
  match r with
  | [] => [(k, v)]
  | (k', v') :: rest =>
      if String.eqb k' k then (k', v) :: rest
      else (k', v') :: set_item rest k v
  end.

(** [row.get(k) == s] for a string [s]. *)
Definition cell_is (c : cell) (s : string) : bool :=
  match c with
  | Some x => String.eqb x s
  | None => false
  end.

(** The body of the loop of [_update_pilot_in_csv] and of
    [_update_drone_in_csv], which differ in the id column only: the row
    that is appended to [rows]. *)
Definition updated_row (id_column id status : string)
    (assignment : option string) (r : row) : row :=
  if cell_is (get r id_column) id then
    set_item (set_item r "status" (Some status))
      "current_assignment" (Some (or_else assignment en_dash))
  else r.

(** The rows that [_update_pilot_in_csv] hands to the writer, from the rows
    that the reader yields.  Opening, reading and writing the file are not
    part of the model. *)
Definition _update_pilot_in_csv (rows : list row) (pilot_id status : string)
    (assignment : option string) : list row :=
  map (updated_row "pilot_id" pilot_id status assignment) rows.

(** The rows that [_update_drone_in_csv] hands to the writer. *)
Definition _update_drone_in_csv (rows : list row) (drone_id status : string)
    (assignment : option string) : list row :=
  map (updated_row "drone_id" drone_id status assignment) rows.

(* ===================================================================== *)
(** ** Letter case, as the specification words it *)
(* ===================================================================== *)

(** Two characters are the same letter when they are equal or when one is
    a capital from A to Z and the other is the small letter for it, 32
    places further on.  This is written without [lower], to compare with
    it. *)
Definition spec_same_letter (x y : ascii) : bool :=
  let n := nat_of_ascii x in
  let m := nat_of_ascii y in
  Nat.eqb n m
  || ((65 <=? n)%nat && (n <=? 90)%nat && Nat.eqb m (n + 32))
  || ((65 <=? m)%nat && (m <=? 90)%nat && Nat.eqb n (m + 32)).

(** Two texts differ in letter case only, or not at all. *)
Fixpoint spec_same_ignoring_case (a b : string) : bool :=
  match a, b with
  | EmptyString, EmptyString => true
  | String x a', String y b' =>
      spec_same_letter x y && spec_same_ignoring_case a' b'
  | _, _ => false
  end.

(* ===================================================================== *)
(** ** Rows with a date that is not a date *)
(* ===================================================================== *)

Module Dirty.

(** A mission whose start date is still to be decided. *)
Definition project_row : row :=
  [("project_id", Some "PRJ003"); ("client", Some "Gamma");
   ("location", Some "Pune"); ("required_skills", Some "Thermal");
   ("required_certs", Some "DGCA"); ("start_date", Some "TBD");
   ("end_date", Some "2026-03-15"); ("priority", Some "High")].

(** What the row is read into. *)
Definition project_read : ProjectDict :=
  {| pd_project :=
       {| project_id := "PRJ003"; project_name := "Gamma - Pune";
          location := "Pune";
          start_date := None; end_date := Some "2026-03-15";
          required_certifications := ["DGCA"];
          required_capabilities := ["Thermal"];
          required_skill_level := Some "Intermediate";
          assigned_pilots := []; assigned_drones := [] |};
     pd_client := "Gamma"; pd_status := "Pending Assignment";
     pd_priority := "High"; pd_notes := "Required skills: Thermal" |}.

End Dirty.

(* ===================================================================== *)
(** * Properties *)
(* ===================================================================== *)

Unset Implicit Arguments.

(** ** The order on dates *)

Ltac date_order :=
  unfold date_le, date_geb, date_leb in *;
  repeat match goal with
         | d : date |- _ => destruct d
         end;
  simpl in *;
  repeat match goal with
         | H : context [(?a <? ?b)%nat] |- _ =>
             destruct (Nat.ltb_spec a b); try discriminate H
         | |- context [(?a <? ?b)%nat] =>
             destruct (Nat.ltb_spec a b)
         end;
  repeat match goal with
         | H : (_ <=? _)%nat = true |- _ => apply Nat.leb_le in H
         end;
  try reflexivity; try (apply Nat.leb_le); try lia.

Lemma date_le_refl (a : date) : date_le a a.
Proof. date_order. Qed.

Lemma date_le_trans (a b c : date) :
  date_le a b -> date_le b c -> date_le a c.
Proof. intros Hab Hbc. date_order. Qed.

(** C1. For dates with startA <= endA and startB <= endB, [_dates_overlap]
    answers true exactly when startA <= endB and endA >= startB; two
    intervals that touch at one boundary date (endA = startB, or
    endB = startA) overlap. *)
Theorem dates_overlap_closed_intervals (startA endA startB endB : date)
    (HA : date_le startA endA) (HB : date_le startB endB) :
  (_dates_overlap startA endA startB endB = true
     <-> date_le startA endB /\ date_le startB endA)
  /\ (endA = startB -> _dates_overlap startA endA startB endB = true)
  /\ (endB = startA -> _dates_overlap startA endA startB endB = true).
Proof.
  assert (Hiff : _dates_overlap startA endA startB endB = true
                 <-> date_le startA endB /\ date_le startB endA).
  { unfold _dates_overlap, date_geb, date_le. apply andb_true_iff. }
  split; [exact Hiff | split; intros ->; apply Hiff; split].
  - eapply date_le_trans; eassumption.
  - apply date_le_refl.
  - apply date_le_refl.
  - eapply date_le_trans; eassumption.
Qed.

Lemma dates_overlap_closed_intervals_witness :
  _dates_overlap (mkDate 2024 1 1) (mkDate 2024 1 10)
                 (mkDate 2024 1 10) (mkDate 2024 1 20) = true.
Proof.
  refine (proj1 (proj2 (dates_overlap_closed_intervals
            (mkDate 2024 1 1) (mkDate 2024 1 10)
            (mkDate 2024 1 10) (mkDate 2024 1 20) _ _)) _);
    reflexivity.
Defined.

(** ** Loops that may raise *)

Lemma bind_ok {A B : Type} (m : result A) (k : A -> result B) (b : B) :
  bind m k = Ok b -> exists a, m = Ok a /\ k a = Ok b.
Proof. destruct m as [a | e]; simpl; [eauto | discriminate]. Qed.

Ltac bind_inv H :=
  let a := fresh "a" in
  let Ha := fresh "Ha" in
  apply bind_ok in H; destruct H as (a & Ha & H).

(** A loop that returns yields, in order, what its iterations yield. *)
Lemma for_each_ok {A B : Type} (f : A -> result (list B)) (l : list A)
    (bs : list B) :
  for_each f l = Ok bs ->
  forall b, In b bs <-> exists x xs, In x l /\ f x = Ok xs /\ In b xs.
Proof.
  revert bs. induction l as [| x r IH]; simpl; intros bs H b.
  - inversion H; subst. split; [intros [] | intros (? & ? & [] & _)].
  - bind_inv H. bind_inv H. inversion H; subst; clear H.
    rewrite in_app_iff, (IH _ Ha0). split.
    + intros [Hb | (y & ys & Hy & Hfy & Hb)].
      * exists x, a. auto.
      * exists y, ys. auto.
    + intros (y & ys & [<- | Hy] & Hfy & Hb).
      * left. congruence.
      * right. eauto.
Qed.

(** A loop none of whose iterations raises returns. *)
Lemma for_each_total {A B : Type} (f : A -> result (list B)) (l : list A) :
  (forall x, In x l -> exists xs, f x = Ok xs) ->
  exists bs, for_each f l = Ok bs.
Proof.
  induction l as [| x r IH]; simpl; intros H.
  - eauto.
  - destruct (H x (or_introl eq_refl)) as (xs & ->).
    destruct IH as (bs & ->); [intros; apply H; auto |].
    simpl. eauto.
Qed.

(** A loop one of whose iterations raises does not return. *)
Lemma for_each_raises {A B : Type} (f : A -> result (list B)) (l : list A)
    (x : A) (e : exn) :
  In x l -> f x = Raise e -> exists e', for_each f l = Raise e'.
Proof.
  induction l as [| y r IH]; simpl; intros Hx Hf; [contradiction |].
  destruct Hx as [-> | Hx].
  - rewrite Hf. simpl. eauto.
  - destruct (f y); simpl; [| eauto].
    destruct (IH Hx Hf) as (e' & ->). simpl. eauto.
Qed.

Lemma mem_In (x : string) (xs : list string) : mem x xs = true <-> In x xs.
Proof.
  unfold mem. rewrite existsb_exists. split.
  - intros (y & Hy & Heq). apply String.eqb_eq in Heq. subst. assumption.
  - intros H. exists x. split; [assumption | apply String.eqb_refl].
Qed.

(** ** Pilot double booking *)

Lemma pilot_booking_check_ok (pilot : Pilot) (a : string) (s e : date)
    (project : Project) (cs : list Conflict) (c : Conflict) :
  pilot_booking_check pilot a s e project = Ok cs -> In c cs ->
  c = pilot_double_booking pilot a s e project
  /\ project_name project <> a
  /\ In (pilot_id pilot) (assigned_pilots project)
  /\ exists ps pe,
       strptime_date (start_date project) = Ok ps
       /\ strptime_date (end_date project) = Ok pe
       /\ _dates_overlap s e ps pe = true.
Proof.
  unfold pilot_booking_check. intros H Hc.
  destruct (String.eqb_spec (project_name project) a) as [Heq | Hne].
  { inversion H; subst. contradiction. }
  destruct (mem (pilot_id pilot) (assigned_pilots project)) eqn:Hmem.
  2:{ inversion H; subst. contradiction. }
  bind_inv H. bind_inv H.
  destruct (_dates_overlap s e a0 a1) eqn:Hov; inversion H; subst.
  2:{ contradiction. }
  destruct Hc as [<- | []].
  repeat split; auto.
  - apply mem_In. assumption.
  - eauto.
Qed.

(** C2. Every conflict that the pilot double-booking rule emits comes from a
    pilot of the snapshot and a project of the snapshot whose name differs
    from that pilot's current assignment: the conflict names that pilot and
    that project, and the project's name is not the pilot's
    current_assignment. *)
Theorem pilot_double_booking_no_self_conflict (pilots : list Pilot)
    (projects : list Project) (cs : list Conflict) :
  _detect_pilot_double_bookings pilots projects = Ok cs ->
  forall c, In c cs ->
    conflict_type c = DOUBLE_BOOKING_PILOT
    /\ exists pilot project,
         In pilot pilots /\ In project projects
         /\ affected_pilot_id c = Some (pilot_id pilot)
         /\ affected_pilot_name c = Some (pilot_name pilot)
         /\ affected_project_id c = Some (project_id project)
         /\ affected_project_name c = Some (project_name project)
         /\ pilot_assignment pilot <> Some (project_name project).
Proof.
  unfold _detect_pilot_double_bookings. intros H c Hc.
  apply (for_each_ok _ _ _ H) in Hc.
  destruct Hc as (pilot & xs & Hpilot & Hxs & Hc).
  unfold pilot_bookings in Hxs.
  destruct (pilot_assignment pilot) as [a |] eqn:Ha;
    [| inversion Hxs; subst; contradiction].
  destruct (pilot_start pilot) as [s |];
    [| inversion Hxs; subst; contradiction].
  destruct (pilot_end pilot) as [e |];
    [| inversion Hxs; subst; contradiction].
  destruct (String.eqb a ""); [inversion Hxs; subst; contradiction |].
  apply (for_each_ok _ _ _ Hxs) in Hc.
  destruct Hc as (project & ys & Hproject & Hys & Hc).
  destruct (pilot_booking_check_ok _ _ _ _ _ _ _ Hys Hc) as (-> & Hne & _).
  split; [reflexivity |].
  exists pilot, project. simpl. repeat split; auto.
  intros Heq. apply Hne. congruence.
Qed.

Lemma pilot_double_booking_no_self_conflict_witness :
  let c := pilot_double_booking Scenario.arjun "A" (mkDate 2024 3 1)
             (mkDate 2024 3 10) Scenario.project_b in
  conflict_type c = DOUBLE_BOOKING_PILOT
  /\ exists pilot project,
       In pilot [Scenario.arjun]
       /\ In project [Scenario.project_a; Scenario.project_b]
       /\ affected_pilot_id c = Some (pilot_id pilot)
       /\ affected_pilot_name c = Some (pilot_name pilot)
       /\ affected_project_id c = Some (project_id project)
       /\ affected_project_name c = Some (project_name project)
       /\ pilot_assignment pilot <> Some (project_name project).
Proof.
  apply (pilot_double_booking_no_self_conflict
           [Scenario.arjun] [Scenario.project_a; Scenario.project_b]
           [pilot_double_booking Scenario.arjun "A" (mkDate 2024 3 1)
              (mkDate 2024 3 10) Scenario.project_b]).
  - reflexivity.
  - left. reflexivity.
Defined.

(** ** Drone maintenance *)

Lemma for_each_incl {A B : Type} (f : A -> result (list B)) (l : list A)
    (bs xs : list B) (x : A) :
  for_each f l = Ok bs -> In x l -> f x = Ok xs -> incl xs bs.
Proof.
  intros H Hx Hf b Hb. apply (for_each_ok _ _ _ H). eauto.
Qed.

Lemma for_each_In_ok {A B : Type} (f : A -> result (list B)) (l : list A)
    (bs : list B) (x : A) :
  for_each f l = Ok bs -> In x l -> exists xs, f x = Ok xs.
Proof.
  revert bs. induction l as [| y r IH]; simpl; intros bs H Hx;
    [contradiction |].
  bind_inv H. bind_inv H. destruct Hx as [<- | Hx]; eauto.
Qed.

(** C3. Whenever the maintenance rule returns, then for every project of the
    snapshot and every id in its assigned_drones that resolves to a drone
    with a next_maintenance_date lying between the project's start and end
    dates, both ends included, the returned list holds a Medium
    Drone-in-Maintenance conflict for that drone and that project, whatever
    the drone's status is. *)
Theorem scheduled_maintenance_in_window_emitted (drones : list Drone)
    (projects : list Project) (cs : list Conflict) (project : Project)
    (did : string) (drone : Drone) (due proj_start proj_end : date) :
  _detect_drone_maintenance_conflicts drones projects = Ok cs ->
  In project projects ->
  In did (assigned_drones project) ->
  find_drone drones did = Some drone ->
  next_maintenance_date drone = Some due ->
  strptime_date (start_date project) = Ok proj_start ->
  strptime_date (end_date project) = Ok proj_end ->
  date_le proj_start due -> date_le due proj_end ->
  exists c,
    In c cs
    /\ conflict_type c = DRONE_MAINTENANCE
    /\ severity c = "Medium"
    /\ affected_drone_id c = Some (drone_id drone)
    /\ affected_drone_serial c = Some (serial_number drone)
    /\ affected_project_id c = Some (project_id project)
    /\ affected_project_name c = Some (project_name project).
Proof.
  unfold _detect_drone_maintenance_conflicts.
  intros H Hproject Hdid Hfind Hdue Hs He Hlo Hhi.
  exists (scheduled_maintenance drone due project).
  split; [| simpl; repeat split; reflexivity].
  destruct (for_each_In_ok _ _ _ _ H Hproject) as (ps & Hps).
  apply (for_each_incl _ _ _ _ _ H Hproject Hps).
  destruct (for_each_In_ok _ _ _ _ Hps Hdid) as (ds & Hds).
  apply (for_each_incl _ _ _ _ _ Hps Hdid Hds).
  unfold maintenance_check in Hds.
  rewrite Hfind, Hdue, Hs, He in Hds. simpl in Hds.
  unfold date_le in Hlo, Hhi. rewrite Hlo, Hhi in Hds. simpl in Hds.
  inversion Hds; subst. apply in_or_app. right. left. reflexivity.
Qed.

Lemma scheduled_maintenance_in_window_emitted_witness :
  exists c,
    In c [scheduled_maintenance Scenario.d1 (mkDate 2024 3 5)
            Scenario.project_b]
    /\ conflict_type c = DRONE_MAINTENANCE
    /\ severity c = "Medium"
    /\ affected_drone_id c = Some "D001"
    /\ affected_drone_serial c = Some "DJI-M300-D001"
    /\ affected_project_id c = Some "PRJ-B"
    /\ affected_project_name c = Some "B".
Proof.
  apply (scheduled_maintenance_in_window_emitted
           [Scenario.d1] [Scenario.project_a; Scenario.project_b]
           _ Scenario.project_b "D001" Scenario.d1
           (mkDate 2024 3 5) (mkDate 2024 3 5) (mkDate 2024 3 15));
    try reflexivity; simpl; auto.
Defined.

(** ** Skill ranks *)

Lemma skill_idx_spec (s : string) : skill_idx s = spec_skill_rank s.
Proof.
  unfold skill_idx, spec_skill_rank, mem, skill_order.
  cbn [existsb].
  destruct (String.eqb_spec s "Beginner") as [-> | _]; [reflexivity |].
  destruct (String.eqb_spec s "Intermediate") as [-> | _]; [reflexivity |].
  destruct (String.eqb_spec s "Advanced") as [-> | _]; [reflexivity |].
  destruct (String.eqb_spec s "Expert") as [-> | _]; reflexivity.
Qed.

(** The lookup [next((p for p in pilots if p.id == pilot_id), None)] finds
    a pilot exactly when that pilot is in the snapshot under the id and no
    pilot before it carries the id. *)
Lemma find_pilot_first (pilots : list Pilot) (pid : string) (pilot : Pilot) :
  find_pilot pilots pid = Some pilot
  <-> exists before after,
        pilots = before ++ pilot :: after
        /\ pilot_id pilot = pid
        /\ forall other, In other before -> pilot_id other <> pid.
Proof.
  unfold find_pilot. induction pilots as [| x rest IH]; simpl.
  - split; [discriminate |].
    intros (before & after & H & _). destruct before; discriminate.
  - destruct (String.eqb_spec (pilot_id x) pid) as [Hx | Hx].
    + split.
      * intros H. inversion H; subst x.
        exists [], rest. split; [reflexivity |].
        split; [assumption | intros other []].
      * intros (before & after & H & Hid & Hbefore).
        destruct before as [| y before'].
        -- inversion H; subst. reflexivity.
        -- inversion H; subst y. exfalso.
           apply (Hbefore x); [left; reflexivity | assumption].
    + rewrite IH. split.
      * intros (before & after & -> & Hid & Hbefore).
        exists (x :: before), after. split; [reflexivity |].
        split; [assumption |].
        intros other [<- | Hother]; [assumption | auto].
      * intros (before & after & H & Hid & Hbefore).
        destruct before as [| y before'].
        -- inversion H; subst. contradiction.
        -- inversion H; subst y. exists before', after.
           split; [reflexivity |]. split; [assumption |].
           intros other Hother. apply Hbefore. right. assumption.
Qed.

Lemma find_pilot_present (pilots : list Pilot) (pid : string) :
  (exists pilot, In pilot pilots /\ pilot_id pilot = pid)
  <-> exists pilot, find_pilot pilots pid = Some pilot.
Proof.
  unfold find_pilot. split.
  - intros (pilot & Hin & Hid).
    destruct (find (fun p => String.eqb (pilot_id p) pid) pilots) eqn:E;
      [eauto |].
    exfalso. pose proof (find_none _ _ E pilot Hin) as Hn. simpl in Hn.
    rewrite Hid, String.eqb_refl in Hn. discriminate.
  - intros (pilot & H). apply find_some in H. destruct H as (Hin & Hid).
    apply String.eqb_eq in Hid. eauto.
Qed.

(** C4. The skill-mismatch rule emits a conflict for a pilot and a project
    exactly when the project has a required skill level, the pilot's id is
    in the project's assigned_pilots, the pilot is present in the snapshot
    under that id (the first pilot of the snapshot that carries it), and
    the pilot's rank (Beginner 0, Intermediate 1, Advanced 2, Expert 3, any
    other text 0) is strictly below the required rank (any other text 0);
    every conflict the rule emits is of Medium severity and names that
    pilot and that project.  A listed id under which the snapshot holds a
    pilot is never skipped. *)
Theorem skill_mismatch_emitted_iff (pilots : list Pilot)
    (projects : list Project) (c : Conflict) :
  (In c (_detect_skill_mismatches pilots projects)
   <-> exists project required pid pilot before after,
         In project projects
         /\ required_skill_level project = Some required
         /\ required <> ""
         /\ In pid (assigned_pilots project)
         /\ pilots = before ++ pilot :: after
         /\ pilot_id pilot = pid
         /\ (forall other, In other before -> pilot_id other <> pid)
         /\ spec_skill_rank (skill_level pilot) < spec_skill_rank required
         /\ c = skill_mismatch pilot project required)
  /\ (In c (_detect_skill_mismatches pilots projects) ->
      severity c = "Medium" /\ conflict_type c = SKILL_MISMATCH
      /\ exists pilot project,
           In pilot pilots /\ In project projects
           /\ affected_pilot_id c = Some (pilot_id pilot)
           /\ affected_project_id c = Some (project_id project))
  /\ (forall project required pid present,
        In project projects
        -> required_skill_level project = Some required -> required <> ""
        -> In pid (assigned_pilots project)
        -> In present pilots -> pilot_id present = pid
        -> exists pilot,
             In pilot pilots /\ pilot_id pilot = pid
             /\ (spec_skill_rank (skill_level pilot)
                 < spec_skill_rank required
                 -> In (skill_mismatch pilot project required)
                      (_detect_skill_mismatches pilots projects))).
Proof.
  assert (Hfound : In c (_detect_skill_mismatches pilots projects)
    <-> exists project required pid pilot,
         In project projects
         /\ required_skill_level project = Some required
         /\ required <> ""
         /\ In pid (assigned_pilots project)
         /\ find_pilot pilots pid = Some pilot
         /\ spec_skill_rank (skill_level pilot) < spec_skill_rank required
         /\ c = skill_mismatch pilot project required).
  { unfold _detect_skill_mismatches. rewrite in_flat_map. split.
    - intros (project & Hproject & Hc).
      destruct (required_skill_level project) as [required |] eqn:Hreq;
        [| contradiction].
      destruct (String.eqb_spec required "") as [Heq | Hne]; [contradiction |].
      apply in_flat_map in Hc. destruct Hc as (pid & Hpid & Hc).
      destruct (find_pilot pilots pid) as [pilot |] eqn:Hfind;
        [| contradiction].
      rewrite !skill_idx_spec in Hc.
      destruct (Z.ltb_spec (spec_skill_rank (skill_level pilot))
                           (spec_skill_rank required)) as [Hlt | Hge];
        [| contradiction].
      destruct Hc as [<- | []].
      exists project, required, pid, pilot. repeat split; assumption.
    - intros (project & required & pid & pilot & Hproject & Hreq & Hne
              & Hpid & Hfind & Hlt & ->).
      exists project. split; [assumption |].
      rewrite Hreq. destruct (String.eqb_spec required ""); [contradiction |].
      apply in_flat_map. exists pid. split; [assumption |].
      rewrite Hfind, !skill_idx_spec.
      destruct (Z.ltb_spec (spec_skill_rank (skill_level pilot))
                           (spec_skill_rank required)); [| lia].
      left. reflexivity. }
  assert (Hiff : In c (_detect_skill_mismatches pilots projects)
    <-> exists project required pid pilot before after,
         In project projects
         /\ required_skill_level project = Some required
         /\ required <> ""
         /\ In pid (assigned_pilots project)
         /\ pilots = before ++ pilot :: after
         /\ pilot_id pilot = pid
         /\ (forall other, In other before -> pilot_id other <> pid)
         /\ spec_skill_rank (skill_level pilot) < spec_skill_rank required
         /\ c = skill_mismatch pilot project required).
  { rewrite Hfound. split.
    - intros (project & required & pid & pilot & Hproject & Hreq & Hne
              & Hpid & Hfind & Hlt & Hc).
      apply find_pilot_first in Hfind.
      destruct Hfind as (before & after & Hsplit & Hid & Hbefore).
      exists project, required, pid, pilot, before, after.
      repeat split; assumption.
    - intros (project & required & pid & pilot & before & after & Hproject
              & Hreq & Hne & Hpid & Hsplit & Hid & Hbefore & Hlt & Hc).
      exists project, required, pid, pilot.
      repeat split; try assumption.
      apply find_pilot_first. exists before, after.
      repeat split; assumption. }
  split; [exact Hiff |]. split.
  - intros Hc. apply Hiff in Hc.
    destruct Hc as (project & required & pid & pilot & before & after
                    & Hproject & _ & _ & _ & Hsplit & _ & _ & _ & ->).
    split; [reflexivity |]. split; [reflexivity |].
    exists pilot, project. split.
    { rewrite Hsplit. apply in_or_app. right. left. reflexivity. }
    split; [assumption |]. split; reflexivity.
  - intros project required pid present Hproject Hreq Hne Hpid Hpresent Hid.
    destruct (proj1 (find_pilot_present pilots pid)) as (pilot & Hfind);
      [exists present; split; assumption |].
    pose proof (find_some _ _ Hfind) as (Hin & Heq).
    apply String.eqb_eq in Heq.
    exists pilot. split; [assumption |]. split; [assumption |].
    intros Hlt. unfold _detect_skill_mismatches. apply in_flat_map.
    exists project. split; [assumption |].
    rewrite Hreq. destruct (String.eqb_spec required ""); [contradiction |].
    apply in_flat_map. exists pid. split; [assumption |].
    rewrite Hfind, !skill_idx_spec.
    destruct (Z.ltb_spec (spec_skill_rank (skill_level pilot))
                         (spec_skill_rank required)); [| lia].
    left. reflexivity.
Qed.

(** Kavya, an Advanced pilot listed second in the snapshot, on a project
    that requires Expert. *)
Lemma skill_mismatch_emitted_iff_witness :
  In (skill_mismatch Scenario.kavya Fleet.project_y "Expert")
     (_detect_skill_mismatches [Scenario.meera; Scenario.kavya]
        [Fleet.project_y])
  /\ severity (skill_mismatch Scenario.kavya Fleet.project_y "Expert")
     = "Medium".
Proof.
  pose proof (skill_mismatch_emitted_iff [Scenario.meera; Scenario.kavya]
                [Fleet.project_y]
                (skill_mismatch Scenario.kavya Fleet.project_y "Expert"))
    as (Hiff & Hsev & _).
  assert (Hin : In (skill_mismatch Scenario.kavya Fleet.project_y "Expert")
                   (_detect_skill_mismatches [Scenario.meera; Scenario.kavya]
                      [Fleet.project_y])).
  { apply Hiff.
    exists Fleet.project_y, "Expert", "P003", Scenario.kavya,
           [Scenario.meera], [].
    split; [left; reflexivity |]. split; [reflexivity |].
    split; [discriminate |]. split; [left; reflexivity |].
    split; [reflexivity |]. split; [reflexivity |].
    split; [intros other [<- | []]; discriminate |].
    split; reflexivity. }
  split; [exact Hin | exact (proj1 (Hsev Hin))].
Defined.

(** ** Malformed project dates *)

(** The sweep returns on every snapshot whose project dates all parse. *)
Lemma sweep_returns_on_parseable_dates (pilots : list Pilot)
    (drones : list Drone) (projects : list Project) :
  (forall project, In project projects ->
     exists s e, strptime_date (start_date project) = Ok s
                 /\ strptime_date (end_date project) = Ok e) ->
  exists cs, detect_all_conflicts pilots drones projects = Ok cs.
Proof.
  intros Hdates. unfold detect_all_conflicts.
  assert (H1 : exists cs, _detect_pilot_double_bookings pilots projects
                          = Ok cs).
  { apply for_each_total. intros pilot _. unfold pilot_bookings.
    destruct (pilot_assignment pilot) as [a |], (pilot_start pilot) as [s |],
      (pilot_end pilot) as [e |]; eauto.
    destruct (String.eqb a ""); eauto.
    apply for_each_total. intros project Hp. unfold pilot_booking_check.
    destruct (Hdates project Hp) as (ps & pe & -> & ->). simpl.
    repeat match goal with
           | |- context [if ?b then _ else _] => destruct b
           end; eauto. }
  assert (H2 : exists cs, _detect_drone_double_bookings drones projects
                          = Ok cs).
  { apply for_each_total. intros drone _. unfold drone_bookings.
    destruct (drone_assignment drone) as [a |], (drone_start drone) as [s |],
      (drone_end drone) as [e |]; eauto.
    destruct (String.eqb a ""); eauto.
    apply for_each_total. intros project Hp. unfold drone_booking_check.
    destruct (Hdates project Hp) as (ps & pe & -> & ->). simpl.
    repeat match goal with
           | |- context [if ?b then _ else _] => destruct b
           end; eauto. }
  assert (H3 : exists cs, _detect_drone_maintenance_conflicts drones projects
                          = Ok cs).
  { apply for_each_total. intros project Hp.
    apply for_each_total. intros did _. unfold maintenance_check.
    destruct (Hdates project Hp) as (ps & pe & -> & ->). simpl.
    destruct (find_drone drones did) as [drone |]; eauto.
    destruct (next_maintenance_date drone) as [due |]; eauto.
    destruct (date_leb ps due && date_leb due pe); eauto. }
  destruct H1 as (c1 & ->), H2 as (c2 & ->), H3 as (c6 & ->). simpl. eauto.
Qed.

(** A project date that does not parse, on a project that lists a pilot
    holding another assignment, aborts the pilot double-booking rule and with
    it the sweep. *)
Lemma sweep_raises_on_unparseable_date (pilots : list Pilot)
    (drones : list Drone) (projects : list Project) (pilot : Pilot)
    (project : Project) (a : string) (s e : date) :
  In pilot pilots -> In project projects ->
  pilot_assignment pilot = Some a -> a <> "" ->
  pilot_start pilot = Some s -> pilot_end pilot = Some e ->
  project_name project <> a ->
  In (pilot_id pilot) (assigned_pilots project) ->
  (strptime_date (start_date project) = Raise ValueError
   \/ strptime_date (end_date project) = Raise ValueError) ->
  exists err, detect_all_conflicts pilots drones projects = Raise err.
Proof.
  intros Hpilot Hproject Ha Hne Hs He Hname Hin Hbad.
  assert (Hcheck : exists err,
            pilot_booking_check pilot a s e project = Raise err).
  { unfold pilot_booking_check.
    destruct (String.eqb_spec (project_name project) a); [contradiction |].
    rewrite (proj2 (mem_In _ _) Hin).
    destruct Hbad as [-> | Hend]; simpl; [eauto |].
    destruct (strptime_date (start_date project)); simpl; [| eauto].
    rewrite Hend. simpl. eauto. }
  destruct Hcheck as (err & Hcheck).
  destruct (for_each_raises _ _ _ _ Hproject Hcheck) as (err1 & Hloop).
  assert (Hbook : pilot_bookings projects pilot = Raise err1).
  { unfold pilot_bookings. rewrite Ha, Hs, He.
    destruct (String.eqb_spec a ""); [contradiction | exact Hloop]. }
  destruct (for_each_raises _ _ _ _ Hpilot Hbook) as (err2 & Hrule).
  exists err2. unfold detect_all_conflicts, _detect_pilot_double_bookings.
  rewrite Hrule. reflexivity.
Qed.

(** A snapshot written by hand, in which a project's start date is the text
    TBD and which lists on that project a pilot holding another assignment:
    the rules that parse project dates raise.  The record provider builds
    no such project: it stores a date as ISO text or not at all and lists
    nobody on a project (see the properties of the record provider). *)
Example text_date_on_hand_written_snapshot :
  strptime "TBD" = None
  /\ _detect_pilot_double_bookings [Scenario.arjun] [Scenario.project_tbd]
     = Raise ValueError
  /\ _detect_drone_maintenance_conflicts [Scenario.d1] [Scenario.project_tbd]
     = Raise ValueError
  /\ detect_all_conflicts [Scenario.arjun] [Scenario.d1]
       [Scenario.project_a; Scenario.project_b; Scenario.project_tbd]
     = Raise ValueError.
Proof. repeat split; reflexivity. Qed.

(** ** The conflict type of each rule *)

Lemma pilot_double_bookings_type (pilots : list Pilot)
    (projects : list Project) (cs : list Conflict) (c : Conflict) :
  _detect_pilot_double_bookings pilots projects = Ok cs -> In c cs ->
  conflict_type c = DOUBLE_BOOKING_PILOT.
Proof.
  unfold _detect_pilot_double_bookings. intros H Hc.
  apply (for_each_ok _ _ _ H) in Hc.
  destruct Hc as (pilot & xs & _ & Hxs & Hc).
  unfold pilot_bookings in Hxs.
  destruct (pilot_assignment pilot) as [a |], (pilot_start pilot) as [s |],
    (pilot_end pilot) as [e |];
    try (inversion Hxs; subst; contradiction).
  destruct (String.eqb a ""); [inversion Hxs; subst; contradiction |].
  apply (for_each_ok _ _ _ Hxs) in Hc.
  destruct Hc as (project & ys & _ & Hys & Hc).
  destruct (pilot_booking_check_ok _ _ _ _ _ _ _ Hys Hc) as (-> & _).
  reflexivity.
Qed.

Lemma drone_double_bookings_type (drones : list Drone)
    (projects : list Project) (cs : list Conflict) (c : Conflict) :
  _detect_drone_double_bookings drones projects = Ok cs -> In c cs ->
  conflict_type c = DOUBLE_BOOKING_DRONE.
Proof.
  unfold _detect_drone_double_bookings. intros H Hc.
  apply (for_each_ok _ _ _ H) in Hc.
  destruct Hc as (drone & xs & _ & Hxs & Hc).
  unfold drone_bookings in Hxs.
  destruct (drone_assignment drone) as [a |], (drone_start drone) as [s |],
    (drone_end drone) as [e |];
    try (inversion Hxs; subst; contradiction).
  destruct (String.eqb a ""); [inversion Hxs; subst; contradiction |].
  apply (for_each_ok _ _ _ Hxs) in Hc.
  destruct Hc as (project & ys & _ & Hys & Hc).
  unfold drone_booking_check in Hys.
  destruct (String.eqb (project_name project) a);
    [inversion Hys; subst; contradiction |].
  destruct (mem (drone_id drone) (assigned_drones project));
    [| inversion Hys; subst; contradiction].
  bind_inv Hys. bind_inv Hys.
  destruct (_dates_overlap s e a0 a1); inversion Hys; subst;
    [| contradiction].
  destruct Hc as [<- | []]. reflexivity.
Qed.

Lemma certification_mismatches_type (pilots : list Pilot)
    (projects : list Project) (c : Conflict) :
  In c (_detect_certification_mismatches pilots projects) ->
  conflict_type c = CERTIFICATION_MISMATCH.
Proof.
  unfold _detect_certification_mismatches. rewrite in_flat_map.
  intros (project & _ & Hc).
  destruct (non_empty (required_certifications project)); [| contradiction].
  apply in_flat_map in Hc. destruct Hc as (pid & _ & Hc).
  destruct (find_pilot pilots pid) as [pilot |]; [| contradiction].
  destruct (non_empty _); [| contradiction].
  destruct Hc as [<- | []]. reflexivity.
Qed.

Lemma maintenance_conflicts_type (drones : list Drone)
    (projects : list Project) (cs : list Conflict) (c : Conflict) :
  _detect_drone_maintenance_conflicts drones projects = Ok cs -> In c cs ->
  conflict_type c = DRONE_MAINTENANCE.
Proof.
  unfold _detect_drone_maintenance_conflicts. intros H Hc.
  apply (for_each_ok _ _ _ H) in Hc.
  destruct Hc as (project & xs & _ & Hxs & Hc).
  apply (for_each_ok _ _ _ Hxs) in Hc.
  destruct Hc as (did & ys & _ & Hys & Hc).
  unfold maintenance_check in Hys.
  destruct (find_drone drones did) as [drone |];
    [| inversion Hys; subst; contradiction].
  assert (Hstatus : forall c',
    In c' (if String.eqb (drone_status drone) DroneStatus.MAINTENANCE
           then [in_maintenance drone project] else []) ->
    conflict_type c' = DRONE_MAINTENANCE).
  { intros c' Hc'. destruct (String.eqb _ _); [| contradiction].
    destruct Hc' as [<- | []]. reflexivity. }
  destruct (next_maintenance_date drone) as [due |].
  - bind_inv Hys. bind_inv Hys.
    destruct (date_leb a due && date_leb due a0); inversion Hys; subst.
    + apply in_app_or in Hc. destruct Hc as [Hc | [<- | []]];
        [apply Hstatus; assumption | reflexivity].
    + apply Hstatus; assumption.
  - inversion Hys; subst. apply Hstatus; assumption.
Qed.

Lemma capability_mismatches_type (drones : list Drone)
    (projects : list Project) (c : Conflict) :
  In c (_detect_capability_mismatches drones projects) ->
  conflict_type c = CAPABILITY_MISMATCH.
Proof.
  unfold _detect_capability_mismatches. rewrite in_flat_map.
  intros (project & _ & Hc).
  destruct (non_empty (required_capabilities project)); [| contradiction].
  apply in_flat_map in Hc. destruct Hc as (did & _ & Hc).
  destruct (find_drone drones did) as [drone |]; [| contradiction].
  destruct (non_empty _); [| contradiction].
  destruct Hc as [<- | []]. reflexivity.
Qed.

Lemma skill_mismatches_type (pilots : list Pilot) (projects : list Project)
    (c : Conflict) :
  In c (_detect_skill_mismatches pilots projects) ->
  conflict_type c = SKILL_MISMATCH.
Proof.
  unfold _detect_skill_mismatches. rewrite in_flat_map.
  intros (project & _ & Hc).
  destruct (required_skill_level project) as [required |]; [| contradiction].
  destruct (String.eqb required ""); [contradiction |].
  apply in_flat_map in Hc. destruct Hc as (pid & _ & Hc).
  destruct (find_pilot pilots pid) as [pilot |]; [| contradiction].
  destruct (_ <? _); [| contradiction].
  destruct Hc as [<- | []]. reflexivity.
Qed.

(** ** Location mismatches *)

Lemma neq_eqb (a b : string) : negb (String.eqb a b) = true <-> a <> b.
Proof.
  rewrite negb_true_iff. apply String.eqb_neq.
Qed.

Lemma location_mismatches_iff (pilots : list Pilot) (drones : list Drone)
    (projects : list Project) (c : Conflict) :
  In c (_detect_location_mismatches pilots drones projects)
  <-> exists project,
        In project projects /\ location_mismatch_of pilots drones project c.
Proof.
  unfold _detect_location_mismatches. rewrite in_flat_map.
  split; intros (project & Hproject & Hc); exists project;
    (split; [assumption |]).
  - rewrite !in_app_iff in Hc. destruct Hc as [Hc | [Hc | Hc]].
    + left. unfold pilot_location_checks in Hc.
      apply in_flat_map in Hc. destruct Hc as (pid & Hpid & Hc).
      destruct (find_pilot pilots pid) as [pilot |] eqn:Hfind;
        [| contradiction].
      destruct (negb _) eqn:Hne; [| contradiction].
      destruct Hc as [<- | []]. apply neq_eqb in Hne.
      exists pid, pilot. auto.
    + right. left. unfold drone_location_checks in Hc.
      apply in_flat_map in Hc. destruct Hc as (did & Hdid & Hc).
      destruct (find_drone drones did) as [drone |] eqn:Hfind;
        [| contradiction].
      destruct (negb _) eqn:Hne; [| contradiction].
      destruct Hc as [<- | []]. apply neq_eqb in Hne.
      exists did, drone. auto.
    + right. right. unfold pilot_drone_location_checks in Hc.
      apply in_flat_map in Hc. destruct Hc as (pid & Hpid & Hc).
      destruct (find_pilot pilots pid) as [pilot |] eqn:Hfind;
        [| contradiction].
      apply in_flat_map in Hc. destruct Hc as (did & Hdid & Hc).
      destruct (find_drone drones did) as [drone |] eqn:Hfindd;
        [| contradiction].
      destruct (negb _) eqn:Hne; [| contradiction].
      destruct Hc as [<- | []]. apply neq_eqb in Hne.
      exists pid, pilot, did, drone. auto 6.
  - rewrite !in_app_iff.
    destruct Hc as [(pid & pilot & Hpid & Hfind & Hne & ->)
                   | [(did & drone & Hdid & Hfind & Hne & ->)
                     | (pid & pilot & did & drone & Hpid & Hfind & Hdid
                        & Hfindd & Hne & ->)]].
    + left. unfold pilot_location_checks. apply in_flat_map.
      exists pid. split; [assumption |]. rewrite Hfind.
      apply neq_eqb in Hne. rewrite Hne. left. reflexivity.
    + right. left. unfold drone_location_checks. apply in_flat_map.
      exists did. split; [assumption |]. rewrite Hfind.
      apply neq_eqb in Hne. rewrite Hne. left. reflexivity.
    + right. right. unfold pilot_drone_location_checks. apply in_flat_map.
      exists pid. split; [assumption |]. rewrite Hfind.
      apply in_flat_map. exists did. split; [assumption |]. rewrite Hfindd.
      apply neq_eqb in Hne. rewrite Hne. left. reflexivity.
Qed.

Lemma location_mismatch_of_type (pilots : list Pilot) (drones : list Drone)
    (project : Project) (c : Conflict) :
  location_mismatch_of pilots drones project c ->
  conflict_type c = LOCATION_MISMATCH.
Proof.
  intros [(? & ? & _ & _ & _ & ->)
         | [(? & ? & _ & _ & _ & ->)
           | (? & ? & ? & ? & _ & _ & _ & _ & _ & ->)]]; reflexivity.
Qed.

(** When the sweep returns, its location-mismatch conflicts are those of
    the location rule; the other six rules emit other conflict types. *)
Lemma sweep_location_mismatches (pilots : list Pilot) (drones : list Drone)
    (projects : list Project) (cs : list Conflict) :
  detect_all_conflicts pilots drones projects = Ok cs ->
  forall c,
    In c cs /\ conflict_type c = LOCATION_MISMATCH
    <-> exists project,
          In project projects /\ location_mismatch_of pilots drones project c.
Proof.
  unfold detect_all_conflicts. intros H c.
  bind_inv H. bind_inv H. bind_inv H. inversion H; subst; clear H.
  rewrite <- location_mismatches_iff, !in_app_iff. split.
  - intros [[Hc | [Hc | [Hc | [Hc | [Hc | [Hc | Hc]]]]]] Ht];
      try assumption; exfalso.
    + rewrite (pilot_double_bookings_type _ _ _ _ Ha Hc) in Ht. discriminate.
    + rewrite (drone_double_bookings_type _ _ _ _ Ha0 Hc) in Ht.
      discriminate.
    + rewrite (certification_mismatches_type _ _ _ Hc) in Ht. discriminate.
    + rewrite (skill_mismatches_type _ _ _ Hc) in Ht. discriminate.
    + rewrite (maintenance_conflicts_type _ _ _ _ Ha1 Hc) in Ht.
      discriminate.
    + rewrite (capability_mismatches_type _ _ _ Hc) in Ht. discriminate.
  - intros Hc. split; [auto 10 |].
    apply location_mismatches_iff in Hc. destruct Hc as (project & _ & Hc).
    exact (location_mismatch_of_type _ _ _ _ Hc).
Qed.

(** ** What lowercasing compares *)

(** A test that holds of the 256 characters holds of every character. *)
Lemma ascii_forall (f : ascii -> bool) :
  forallb f (map ascii_of_nat (seq 0 256)) = true -> forall c, f c = true.
Proof.
  intros H c. rewrite forallb_forall in H. apply H.
  rewrite <- (ascii_nat_embedding c). apply in_map. apply in_seq.
  pose proof (nat_ascii_bounded c). lia.
Qed.

(** On one character, [lower] identifies exactly a capital from A to Z
    with its small letter. *)
Lemma lower_ascii_same_letter (x y : ascii) :
  Ascii.eqb (lower_ascii x) (lower_ascii y) = spec_same_letter x y.
Proof.
  apply Bool.eqb_prop. revert y. apply ascii_forall. revert x.
  apply (ascii_forall
           (fun x => forallb
                       (fun y => Bool.eqb
                                   (Ascii.eqb (lower_ascii x) (lower_ascii y))
                                   (spec_same_letter x y))
                       (map ascii_of_nat (seq 0 256)))).
  vm_compute. reflexivity.
Qed.

(** Two texts are equal after [lower] exactly when they differ in letter
    case only: same length, and position by position the same letter. *)
Lemma lower_same_ignoring_case (a b : string) :
  lower a = lower b <-> spec_same_ignoring_case a b = true.
Proof.
  revert b. induction a as [| x a' IH]; intros [| y b']; simpl;
    try (split; [discriminate | discriminate]).
  - split; reflexivity.
  - rewrite andb_true_iff, <- IH, <- lower_ascii_same_letter, Ascii.eqb_eq.
    split.
    + intros H. inversion H. split; reflexivity || assumption.
    + intros (-> & ->). reflexivity.
Qed.

Lemma lower_differs_ignoring_case (a b : string) :
  lower a <> lower b <-> spec_same_ignoring_case a b = false.
Proof.
  rewrite lower_same_ignoring_case.
  destruct (spec_same_ignoring_case a b); split; congruence.
Qed.

(** C9. When the sweep returns, its location-mismatch conflicts are exactly
    those of the three comparisons (pilot against project, drone against
    project, pilot against drone on one project), and each is emitted if and
    only if the two locations are not the same text up to letter case,
    where a capital from A to Z and its small letter count as the same
    letter: two locations that differ in letter case only give no
    location-mismatch conflict.  That is what differing after [lower]
    comes to. *)
Theorem location_mismatch_case_insensitive (pilots : list Pilot)
    (drones : list Drone) (projects : list Project) (cs : list Conflict) :
  detect_all_conflicts pilots drones projects = Ok cs ->
  (forall c,
    In c cs /\ conflict_type c = LOCATION_MISMATCH
    <-> exists project,
          In project projects
          /\ ((exists pid pilot,
                In pid (assigned_pilots project)
                /\ find_pilot pilots pid = Some pilot
                /\ spec_same_ignoring_case (pilot_location pilot)
                     (location project) = false
                /\ c = pilot_location_mismatch pilot project)
              \/ (exists did drone,
                   In did (assigned_drones project)
                   /\ find_drone drones did = Some drone
                   /\ spec_same_ignoring_case (drone_location drone)
                        (location project) = false
                   /\ c = drone_location_mismatch drone project)
              \/ (exists pid pilot did drone,
                   In pid (assigned_pilots project)
                   /\ find_pilot pilots pid = Some pilot
                   /\ In did (assigned_drones project)
                   /\ find_drone drones did = Some drone
                   /\ spec_same_ignoring_case (pilot_location pilot)
                        (drone_location drone) = false
                   /\ c = pilot_drone_location_mismatch pilot drone project)))
  /\ (forall a b, lower a <> lower b
                  <-> spec_same_ignoring_case a b = false).
Proof.
  intros H. split; [| exact lower_differs_ignoring_case].
  intros c. rewrite (sweep_location_mismatches _ _ _ _ H c).
  unfold location_mismatch_of.
  split; intros (project & Hproject & Hc); exists project;
    (split; [assumption |]).
  - destruct Hc as [(pid & pilot & Hpid & Hfind & Hne & Hc)
                   | [(did & drone & Hdid & Hfind & Hne & Hc)
                     | (pid & pilot & did & drone & Hpid & Hfind & Hdid
                        & Hfindd & Hne & Hc)]];
      apply lower_differs_ignoring_case in Hne.
    + left. exists pid, pilot. auto.
    + right. left. exists did, drone. auto.
    + right. right. exists pid, pilot, did, drone. auto 6.
  - destruct Hc as [(pid & pilot & Hpid & Hfind & Hne & Hc)
                   | [(did & drone & Hdid & Hfind & Hne & Hc)
                     | (pid & pilot & did & drone & Hpid & Hfind & Hdid
                        & Hfindd & Hne & Hc)]];
      apply lower_differs_ignoring_case in Hne.
    + left. exists pid, pilot. auto.
    + right. left. exists did, drone. auto.
    + right. right. exists pid, pilot, did, drone. auto 6.
Qed.

(** Project X in Bangalore lists Meera, in Mumbai, and Kavya, whose
    location is written BANGALORE: the sweep reports Meera and not Kavya. *)
Lemma location_mismatch_case_insensitive_witness :
  let pilots := [Scenario.meera; Scenario.kavya] in
  let cs := [pilot_location_mismatch Scenario.meera Scenario.project_x] in
  let kavya_reported :=
    pilot_location_mismatch Scenario.kavya Scenario.project_x in
  detect_all_conflicts pilots [] [Scenario.project_x] = Ok cs
  /\ spec_same_ignoring_case "BANGALORE" "Bangalore" = true
  /\ spec_same_ignoring_case "Mumbai" "Bangalore" = false
  /\ ~ In kavya_reported cs
  /\ (In kavya_reported cs /\ conflict_type kavya_reported = LOCATION_MISMATCH
      <-> exists project,
          In project [Scenario.project_x]
          /\ ((exists pid pilot,
                In pid (assigned_pilots project)
                /\ find_pilot pilots pid = Some pilot
                /\ spec_same_ignoring_case (pilot_location pilot)
                     (location project) = false
                /\ kavya_reported = pilot_location_mismatch pilot project)
              \/ (exists did drone,
                   In did (assigned_drones project)
                   /\ find_drone [] did = Some drone
                   /\ spec_same_ignoring_case (drone_location drone)
                        (location project) = false
                   /\ kavya_reported = drone_location_mismatch drone project)
              \/ (exists pid pilot did drone,
                   In pid (assigned_pilots project)
                   /\ find_pilot pilots pid = Some pilot
                   /\ In did (assigned_drones project)
                   /\ find_drone [] did = Some drone
                   /\ spec_same_ignoring_case (pilot_location pilot)
                        (drone_location drone) = false
                   /\ kavya_reported
                      = pilot_drone_location_mismatch pilot drone project))).
Proof.
  cbv zeta.
  split; [reflexivity |]. split; [reflexivity |]. split; [reflexivity |].
  split; [intros [H | []]; discriminate |].
  apply (proj1 (location_mismatch_case_insensitive
                  [Scenario.meera; Scenario.kavya] [] [Scenario.project_x]
                  [pilot_location_mismatch Scenario.meera Scenario.project_x]
                  eq_refl)).
Defined.

(** ** The stable descending sort *)

Section SortFacts.

Variable A : Type.
Variable key : A -> Z.

Lemma insert_desc_perm (x : A) (l : list A) :
  Permutation (insert_desc key x l) (x :: l).
Proof.
  induction l as [| y r IH]; simpl.
  - apply Permutation_refl.
  - destruct (key x <? key y).
    + eapply perm_trans; [apply perm_skip, IH | apply perm_swap].
    + apply Permutation_refl.
Qed.

Lemma sort_desc_perm (l : list A) : Permutation (sort_desc key l) l.
Proof.
  induction l as [| x r IH]; simpl.
  - apply perm_nil.
  - eapply perm_trans; [apply insert_desc_perm | apply perm_skip, IH].
Qed.

Lemma insert_desc_sorted (x : A) (l : list A) :
  StronglySorted (key_ge key) l -> StronglySorted (key_ge key) (insert_desc key x l).
Proof.
  induction l as [| y r IH]; simpl; intros Hs.
  - constructor; constructor.
  - inversion Hs as [| ? ? Hr Hy]; subst.
    destruct (Z.ltb_spec (key x) (key y)) as [Hlt | Hge].
    + constructor; [apply IH; assumption |].
      apply Forall_forall. intros z Hz.
      apply (Permutation_in _ (insert_desc_perm x r)) in Hz.
      destruct Hz as [<- | Hz].
      * unfold key_ge. lia.
      * rewrite Forall_forall in Hy. apply Hy. assumption.
    + constructor; [assumption |].
      constructor; [unfold key_ge; lia |].
      rewrite Forall_forall in Hy |- *. intros z Hz.
      specialize (Hy z Hz). unfold key_ge in *. lia.
Qed.

Lemma sort_desc_sorted (l : list A) :
  StronglySorted (key_ge key) (sort_desc key l).
Proof.
  induction l as [| x r IH]; simpl.
  - constructor.
  - apply insert_desc_sorted. assumption.
Qed.

(** Entries with one key keep the order they had. *)
Lemma insert_desc_stable (k : Z) (x : A) (l : list A) :
  filter (fun a => key a =? k) (insert_desc key x l)
  = filter (fun a => key a =? k) (x :: l).
Proof.
  induction l as [| y r IH]; simpl; [reflexivity |].
  destruct (Z.ltb_spec (key x) (key y)) as [Hlt | Hge]; [| reflexivity].
  simpl. rewrite IH. simpl.
  destruct (Z.eqb_spec (key x) k), (Z.eqb_spec (key y) k);
    try reflexivity; lia.
Qed.

Lemma sort_desc_stable (k : Z) (l : list A) :
  filter (fun a => key a =? k) (sort_desc key l)
  = filter (fun a => key a =? k) l.
Proof.
  induction l as [| x r IH]; simpl; [reflexivity |].
  rewrite insert_desc_stable. simpl. rewrite IH. reflexivity.
Qed.

Lemma sort_desc_In (x : A) (l : list A) : In x (sort_desc key l) <-> In x l.
Proof.
  split; apply Permutation_in;
    [apply sort_desc_perm | apply Permutation_sym, sort_desc_perm].
Qed.

(** The slice [l[:5]] of the sorted list: its five (or fewer) first entries. *)
Lemma top5_of_sorted (l : list A) :
  let top := firstn 5 (sort_desc key l) in
  List.length top = Nat.min 5 (List.length l)
  /\ StronglySorted (key_ge key) top
  /\ exists rest,
       Permutation (top ++ rest) l
       /\ StronglySorted (key_ge key) (top ++ rest)
       /\ forall k, filter (fun a => key a =? k) (top ++ rest)
                    = filter (fun a => key a =? k) l.
Proof.
  intros top. subst top.
  assert (Hsplit := firstn_skipn 5 (sort_desc key l)).
  split; [| split].
  - rewrite length_firstn, (Permutation_length (sort_desc_perm l)).
    reflexivity.
  - assert (Hs := sort_desc_sorted l). rewrite <- Hsplit in Hs.
    revert Hs. generalize (firstn 5 (sort_desc key l)) as t.
    induction t as [| a t IH]; simpl; intros Hs; [constructor |].
    inversion Hs as [| ? ? Ht Ha]; subst.
    constructor; [apply IH; assumption |].
    apply Forall_app in Ha. apply Ha.
  - exists (skipn 5 (sort_desc key l)). rewrite Hsplit.
    split; [apply sort_desc_perm |].
    split; [apply sort_desc_sorted |].
    intros k. apply sort_desc_stable.
Qed.

End SortFacts.

(** ** Candidate scores *)

Lemma In_firstn {A : Type} (n : nat) (l : list A) (x : A) :
  In x (firstn n l) -> In x l.
Proof.
  intros H. rewrite <- (firstn_skipn n l). apply in_or_app. left. exact H.
Qed.

Lemma non_empty_missing (required have : list string) :
  non_empty (missing required have)
  = negb (forallb (fun c => mem c have) required).
Proof.
  unfold missing. induction required as [| c r IH]; simpl; [reflexivity |].
  destruct (mem c have); simpl; [assumption | reflexivity].
Qed.

(** The loop body computes the score and the issues of the specification. *)
Lemma pilot_candidate_spec (required_certs : list string)
    (required_skill : string) (preferred_location : option string)
    (pilot : Pilot) :
  pilot_candidate required_certs required_skill preferred_location pilot
  = {| record := pilot;
       score := spec_pilot_score required_certs required_skill
                  preferred_location pilot;
       issues := spec_pilot_issues required_certs required_skill
                   preferred_location pilot;
       recommended :=
         match spec_pilot_issues required_certs required_skill
                 preferred_location pilot with
         | [] => true
         | _ => false
         end |}.
Proof.
  unfold pilot_candidate, spec_pilot_score, spec_pilot_issues,
    required_skill_idx, spec_location_given, spec_location_same,
    location_matches, truthy.
  rewrite non_empty_missing, !skill_idx_spec.
  fold (spec_all_present required_certs pilot).
  unfold missing, get_default, fmt.
  destruct (spec_all_present required_certs pilot);
    destruct (spec_skill_rank (skill_level pilot)
              >=? spec_skill_rank required_skill);
    destruct preferred_location as [pl |];
    try destruct (String.eqb pl "");
    try destruct (String.eqb (lower (pilot_location pilot)) (lower pl));
    cbn [app List.length Nat.eqb negb andb]; f_equal; lia.
Qed.

Lemma pilot_kept_spec (exclude_pilot_id : option string) (pilot : Pilot) :
  pilot_kept exclude_pilot_id pilot = true
  <-> pilot_status pilot = "Available"
      /\ exclude_pilot_id <> Some (pilot_id pilot).
Proof.
  unfold pilot_kept, is_excluded, PilotStatus.AVAILABLE.
  rewrite andb_true_iff, negb_true_iff, String.eqb_eq.
  destruct exclude_pilot_id as [e |].
  - rewrite String.eqb_neq. split; intros [H1 H2]; split; auto; congruence.
  - split; intros [H1 H2]; split; auto; discriminate.
Qed.

(** Every pilot that is kept has its entry in the list that is sorted. *)
Lemma pilot_candidates_complete (required_certs : list string)
    (required_skill : string)
    (preferred_location exclude_pilot_id : option string)
    (all_pilots : list Pilot) (pilot : Pilot) :
  In pilot all_pilots ->
  pilot_status pilot = "Available" ->
  exclude_pilot_id <> Some (pilot_id pilot) ->
  In (pilot_candidate required_certs required_skill preferred_location pilot)
     (pilot_candidates required_certs required_skill preferred_location
        exclude_pilot_id all_pilots).
Proof.
  intros Hin Hst Hex. unfold pilot_candidates. apply in_map.
  apply filter_In. split; [assumption |]. apply pilot_kept_spec. auto.
Qed.

(** C6. Every entry that [rank_pilot_candidates] returns belongs to a pilot
    of the pool whose status is Available and whose id is not the excluded
    one; its score is 30 if no required certification is missing, plus 25 if
    the pilot's rank is at least the required rank, plus 25 if a preferred
    location is given and equals the pilot's location up to letter case,
    plus 5 times the pilot's rank; its issues are the missing certifications,
    the skill shortfall and the location that is given and differs; and it
    is recommended exactly when it has no issue. *)
Theorem ranked_pilot_score_and_recommendation (required_certs : list string)
    (required_skill : string)
    (preferred_location exclude_pilot_id : option string)
    (all_pilots : list Pilot) (c : Candidate Pilot) :
  In c (rank_pilot_candidates required_certs required_skill
          preferred_location exclude_pilot_id all_pilots) ->
  exists pilot,
    In pilot all_pilots
    /\ pilot_status pilot = "Available"
    /\ exclude_pilot_id <> Some (pilot_id pilot)
    /\ record c = pilot
    /\ score c = spec_pilot_score required_certs required_skill
                   preferred_location pilot
    /\ issues c = spec_pilot_issues required_certs required_skill
                    preferred_location pilot
    /\ (recommended c = true <-> issues c = []).
Proof.
  unfold rank_pilot_candidates, pilot_candidates. intros Hc.
  apply In_firstn, sort_desc_In, in_map_iff in Hc.
  destruct Hc as (pilot & <- & Hp). apply filter_In in Hp.
  destruct Hp as [Hin Hkept]. apply pilot_kept_spec in Hkept.
  destruct Hkept as [Hst Hex].
  exists pilot. rewrite pilot_candidate_spec. simpl.
  repeat split; auto.
  - destruct (spec_pilot_issues _ _ _ pilot); [reflexivity | discriminate].
  - intros ->. reflexivity.
Qed.

Lemma ranked_pilot_score_and_recommendation_witness :
  exists pilot,
    In pilot [Scenario.arjun; Scenario.meera; Scenario.kavya]
    /\ pilot_status pilot = "Available"
    /\ Some "P001" <> Some (pilot_id pilot)
    /\ Scenario.kavya = pilot
    /\ 90 = spec_pilot_score ["Night Ops"] "Advanced" (Some "bangalore") pilot
    /\ [] = spec_pilot_issues ["Night Ops"] "Advanced" (Some "bangalore")
              pilot
    /\ (true = true <-> @nil string = []).
Proof.
  apply (ranked_pilot_score_and_recommendation
           ["Night Ops"] "Advanced" (Some "bangalore") (Some "P001")
           [Scenario.arjun; Scenario.meera; Scenario.kavya]
           {| record := Scenario.kavya; score := 90; issues := [];
              recommended := true |}).
  vm_compute. left. reflexivity.
Defined.

Lemma forallb_mem_incl (required have have' : list string) :
  incl have have' ->
  forallb (fun c => mem c have) required = true ->
  forallb (fun c => mem c have') required = true.
Proof.
  intros Hincl H. rewrite forallb_forall in H |- *. intros x Hx.
  apply mem_In, Hincl, mem_In, H, Hx.
Qed.

(** C7. With the required certifications and the other scoring inputs held
    fixed, giving a pilot one required certification it lacked, and taking
    none away, does not lower the pilot's score. *)
Theorem adding_missing_certification_monotone (required_certs : list string)
    (required_skill : string) (preferred_location : option string)
    (pilot : Pilot) (c : string) :
  In c required_certs ->
  ~ In c (certifications pilot) ->
  score (pilot_candidate required_certs required_skill preferred_location
           (add_certification pilot c))
  >= score (pilot_candidate required_certs required_skill preferred_location
              pilot).
Proof.
  intros _ _. rewrite !pilot_candidate_spec. simpl.
  unfold spec_pilot_score, spec_location_same. simpl.
  assert (Hmono : spec_all_present required_certs pilot = true ->
                  spec_all_present required_certs (add_certification pilot c)
                  = true).
  { unfold spec_all_present. simpl. apply forallb_mem_incl.
    apply incl_appl, incl_refl. }
  destruct (spec_all_present required_certs pilot);
    [rewrite (Hmono eq_refl); lia |].
  destruct (spec_all_present required_certs (add_certification pilot c));
    lia.
Qed.

Lemma adding_missing_certification_monotone_witness :
  score (pilot_candidate ["DGCA"; "Night Ops"] "Advanced" (Some "Pune")
           (add_certification Scenario.kavya "DGCA"))
  >= score (pilot_candidate ["DGCA"; "Night Ops"] "Advanced" (Some "Pune")
              Scenario.kavya).
Proof.
  apply (adding_missing_certification_monotone
           ["DGCA"; "Night Ops"] "Advanced" (Some "Pune") Scenario.kavya
           "DGCA").
  - simpl. auto.
  - simpl. intros [H | []]. discriminate H.
Defined.

(** C8. [rank_pilot_candidates] and [rank_drone_candidates] return the first
    five entries (all of them when there are fewer) of the candidates sorted
    by descending score, entries of equal score staying in pool order; the
    returned list is itself in descending order and never longer than
    five. *)
Theorem ranked_candidates_sorted_stable_top5 :
  (forall (required_certs : list string) (required_skill : string)
          (preferred_location exclude_pilot_id : option string)
          (all_pilots : list Pilot),
     let candidates :=
       pilot_candidates required_certs required_skill preferred_location
         exclude_pilot_id all_pilots in
     let top :=
       rank_pilot_candidates required_certs required_skill preferred_location
         exclude_pilot_id all_pilots in
     (List.length top <= 5)%nat
     /\ List.length top = Nat.min 5 (List.length candidates)
     /\ StronglySorted (key_ge (@score Pilot)) top
     /\ exists rest,
          Permutation (top ++ rest) candidates
          /\ StronglySorted (key_ge (@score Pilot)) (top ++ rest)
          /\ forall k, filter (fun a => score a =? k) (top ++ rest)
                       = filter (fun a => score a =? k) candidates)
  /\ (forall (required_caps : list string)
             (preferred_location exclude_drone_id : option string)
             (all_drones : list Drone),
        let candidates :=
          drone_candidates required_caps preferred_location exclude_drone_id
            all_drones in
        let top :=
          rank_drone_candidates required_caps preferred_location
            exclude_drone_id all_drones in
        (List.length top <= 5)%nat
        /\ List.length top = Nat.min 5 (List.length candidates)
        /\ StronglySorted (key_ge (@score Drone)) top
        /\ exists rest,
             Permutation (top ++ rest) candidates
             /\ StronglySorted (key_ge (@score Drone)) (top ++ rest)
             /\ forall k, filter (fun a => score a =? k) (top ++ rest)
                          = filter (fun a => score a =? k) candidates).
Proof.
  split; intros; subst candidates top;
    unfold rank_pilot_candidates, rank_drone_candidates;
    match goal with
    | |- context [sort_desc ?key ?l] =>
        destruct (top5_of_sorted _ key l) as (Hlen & Hsorted & Hrest)
    end;
    (split; [rewrite Hlen; apply Nat.le_min_l |]);
    (split; [exact Hlen |]); (split; [exact Hsorted | exact Hrest]).
Qed.

(** Six candidates of which five are returned, the two of score 55 in pool
    order. *)
Example rank_pilot_candidates_truncates :
  let p (i : string) (lvl : string) :=
    {| pilot_id := i; pilot_name := i; skill_level := lvl;
       certifications := []; drone_experience := [];
       pilot_location := "Pune"; pilot_assignment := None;
       pilot_start := None; pilot_end := None;
       pilot_status := PilotStatus.AVAILABLE |} in
  map (fun c => (pilot_id (record c), score c))
      (rank_pilot_candidates [] "Beginner" None None
         [p "a" "Beginner"; p "b" "Expert"; p "c" "Beginner";
          p "d" "Advanced"; p "e" "Beginner"; p "f" "Intermediate"])
  = [("b", 70); ("d", 65); ("f", 60); ("a", 55); ("c", 55)].
Proof. reflexivity. Qed.

(** ** The pre-assignment check *)

Lemma drone_checks_no_pilot (proj_id : string) (start_d end_d : date)
    (required_caps : list string) (loc : string) (drone : Drone)
    (c : Conflict) :
  In c (drone_checks proj_id start_d end_d required_caps loc drone) ->
  affected_pilot_id c = None /\ affected_pilot_name c = None.
Proof.
  unfold drone_checks. rewrite !in_app_iff.
  intros [H | [H | [H | H]]]; revert H;
    repeat match goal with
           | |- In _ (if ?b then _ else _) -> _ => destruct b
           | |- In _ (match ?o with Some _ => _ | None => _ end) -> _ =>
               destruct o
           | |- In _ (let _ := _ in _) -> _ => cbv zeta
           end;
    first [intros [<- | []]; split; reflexivity | intros []].
Qed.

Lemma pilot_checks_no_drone (proj_id : string) (start_d end_d : date)
    (required_certs : list string) (required_skill loc : string)
    (pilot : Pilot) (c : Conflict) :
  In c (pilot_checks proj_id start_d end_d required_certs required_skill loc
          pilot) ->
  affected_drone_id c = None /\ affected_drone_serial c = None.
Proof.
  unfold pilot_checks. rewrite !in_app_iff.
  intros [H | [H | [H | [H | H]]]]; revert H;
    repeat match goal with
           | |- In _ (if ?b then _ else _) -> _ => destruct b
           | |- In _ (match ?o with Some _ => _ | None => _ end) -> _ =>
               destruct o
           | |- In _ (let _ := _ in _) -> _ => cbv zeta
           end;
    first [intros [<- | []]; split; reflexivity | intros []].
Qed.

(** C10. A pilot id that resolves to no pilot record adds nothing to the
    result of the pre-assignment check: the check returns what it returns
    for the drone alone, no returned conflict names a pilot, and the checks
    of a drone that resolves are all returned.  The same holds for a drone
    id that resolves to no drone record, with pilot and drone exchanged. *)
Theorem unknown_reference_skipped (proj_id : string) (start_d end_d : date)
    (required_certs required_caps : list string)
    (required_skill loc : string) (pilots : list Pilot)
    (drones : list Drone) :
  let check :=
    check_assignment_conflicts proj_id start_d end_d required_certs
      required_caps required_skill loc pilots drones in
  (forall (pid : string) (did : option string),
     get_pilot_by_id pilots pid = None ->
     check (Some pid) did = check None did
     /\ (forall c, In c (check (Some pid) did) ->
                   affected_pilot_id c = None /\ affected_pilot_name c = None)
     /\ (forall i drone,
           did = Some i -> i <> "" ->
           get_drone_by_id drones i = Some drone ->
           check (Some pid) did
           = drone_checks proj_id start_d end_d required_caps loc drone))
  /\ (forall (pid : option string) (did : string),
        get_drone_by_id drones did = None ->
        check pid (Some did) = check pid None
        /\ (forall c, In c (check pid (Some did)) ->
                      affected_drone_id c = None
                      /\ affected_drone_serial c = None)
        /\ (forall i pilot,
              pid = Some i -> i <> "" ->
              get_pilot_by_id pilots i = Some pilot ->
              check pid (Some did)
              = pilot_checks proj_id start_d end_d required_certs
                  required_skill loc pilot)).
Proof.
  intros check. subst check. unfold check_assignment_conflicts. split.
  - intros pid did Hnone. rewrite Hnone.
    assert (Hnil : (if String.eqb pid "" then @nil Conflict else []) = [])
      by (destruct (String.eqb pid ""); reflexivity).
    rewrite Hnil. simpl. repeat split.
    + destruct did as [i |]; [| contradiction].
      destruct (String.eqb i ""); [contradiction |].
      destruct (get_drone_by_id drones i) as [drone |]; [| contradiction].
      eapply drone_checks_no_pilot; eassumption.
    + destruct did as [i |]; [| contradiction].
      destruct (String.eqb i ""); [contradiction |].
      destruct (get_drone_by_id drones i) as [drone |]; [| contradiction].
      eapply drone_checks_no_pilot; eassumption.
    + intros i drone -> Hne Hfind. rewrite Hfind.
      destruct (String.eqb_spec i ""); [contradiction | reflexivity].
  - intros pid did Hnone. rewrite Hnone.
    assert (Hnil : (if String.eqb did "" then @nil Conflict else []) = [])
      by (destruct (String.eqb did ""); reflexivity).
    rewrite Hnil, !app_nil_r. repeat split.
    + destruct pid as [i |]; [| contradiction].
      destruct (String.eqb i ""); [contradiction |].
      destruct (get_pilot_by_id pilots i) as [pilot |]; [| contradiction].
      eapply pilot_checks_no_drone; eassumption.
    + destruct pid as [i |]; [| contradiction].
      destruct (String.eqb i ""); [contradiction |].
      destruct (get_pilot_by_id pilots i) as [pilot |]; [| contradiction].
      eapply pilot_checks_no_drone; eassumption.
    + intros i pilot -> Hne Hfind. rewrite Hfind.
      destruct (String.eqb_spec i ""); [contradiction | reflexivity].
Qed.

Lemma unknown_reference_skipped_witness :
  check_assignment_conflicts "PRJ-B" (mkDate 2024 3 5) (mkDate 2024 3 15)
    [] ["LiDAR"] "Intermediate" "Pune" [Scenario.arjun] [Scenario.d1]
    (Some "P404") (Some "D001")
  = drone_checks "PRJ-B" (mkDate 2024 3 5) (mkDate 2024 3 15) ["LiDAR"]
      "Pune" Scenario.d1.
Proof.
  refine (proj2 (proj2 (proj1 (unknown_reference_skipped
            "PRJ-B" (mkDate 2024 3 5) (mkDate 2024 3 15) [] ["LiDAR"]
            "Intermediate" "Pune" [Scenario.arjun] [Scenario.d1])
            "P404" (Some "D001") _)) "D001" Scenario.d1 _ _ _).
  - reflexivity.
  - reflexivity.
  - discriminate.
  - reflexivity.
Defined.


(* ===================================================================== *)
(** * Further properties of the conflict rules *)
(* ===================================================================== *)

(** ** Overlap *)

Lemma date_le_total (a b : date) : date_le a b \/ date_le b a.
Proof.
  unfold date_le, date_leb. destruct a as [ya ma da], b as [yb mb db]. simpl.
  repeat match goal with
         | |- context [(?x <? ?y)%nat] => destruct (Nat.ltb_spec x y)
         end; auto; try lia.
  destruct (Nat.leb_spec da db); auto.
  right. apply Nat.leb_le. lia.
Qed.

Lemma date_le_antisym (a b : date) : date_le a b -> date_le b a -> a = b.
Proof.
  unfold date_le, date_leb. destruct a as [ya ma da], b as [yb mb db]. simpl.
  repeat match goal with
         | |- context [(?x <? ?y)%nat] => destruct (Nat.ltb_spec x y)
         end; try discriminate; try lia.
  intros Hab Hba. apply Nat.leb_le in Hab, Hba. f_equal; lia.
Qed.

(** Two well-formed closed intervals overlap exactly when some date lies in
    both. *)
Theorem dates_overlap_iff_common_date (start1 end1 start2 end2 : date) :
  date_le start1 end1 -> date_le start2 end2 ->
  (_dates_overlap start1 end1 start2 end2 = true
   <-> exists d, (date_le start1 d /\ date_le d end1)
                 /\ (date_le start2 d /\ date_le d end2)).
Proof.
  intros H1 H2. unfold _dates_overlap, date_geb.
  rewrite andb_true_iff. fold (date_le start1 end2) (date_le start2 end1).
  split.
  - intros [Ha Hb]. destruct (date_le_total start1 start2) as [Hle | Hle].
    + exists start2. repeat split; auto using date_le_refl.
    + exists start1. repeat split; auto using date_le_refl.
  - intros (d & [Ha Hb] & [Hc Hd]).
    split; eapply date_le_trans; eassumption.
Qed.

Lemma dates_overlap_iff_common_date_witness :
  _dates_overlap (mkDate 2024 3 1) (mkDate 2024 3 10)
                 (mkDate 2024 3 5) (mkDate 2024 3 15) = true
  <-> exists d, (date_le (mkDate 2024 3 1) d /\ date_le d (mkDate 2024 3 10))
                /\ (date_le (mkDate 2024 3 5) d
                    /\ date_le d (mkDate 2024 3 15)).
Proof.
  apply (dates_overlap_iff_common_date (mkDate 2024 3 1) (mkDate 2024 3 10)
           (mkDate 2024 3 5) (mkDate 2024 3 15)); reflexivity.
Defined.

(** Overlap does not depend on which interval is named first, and an
    interval that ends before the other starts does not overlap it. *)
Theorem dates_overlap_symmetric_and_disjoint (start1 end1 start2 end2 : date) :
  _dates_overlap start1 end1 start2 end2
  = _dates_overlap start2 end2 start1 end1
  /\ (_dates_overlap start1 end1 start2 end2 = false
      <-> (date_le end2 start1 /\ end2 <> start1)
          \/ (date_le end1 start2 /\ end1 <> start2)).
Proof.
  unfold _dates_overlap, date_geb. split; [apply andb_comm |].
  rewrite andb_false_iff. split.
  - intros [H | H]; [left | right].
    + destruct (date_le_total start1 end2) as [Hle | Hle];
        [unfold date_le in Hle; congruence |].
      split; [assumption |]. intros ->.
      rewrite (date_le_refl start1) in H. discriminate.
    + destruct (date_le_total start2 end1) as [Hle | Hle];
        [unfold date_le in Hle; congruence |].
      split; [assumption |]. intros ->.
      rewrite (date_le_refl start2) in H. discriminate.
  - intros [[Hle Hne] | [Hle Hne]]; [left | right].
    + destruct (date_leb start1 end2) eqn:E; [| reflexivity].
      exfalso. apply Hne. apply date_le_antisym; assumption.
    + destruct (date_leb start2 end1) eqn:E; [| reflexivity].
      exfalso. apply Hne. apply date_le_antisym; assumption.
Qed.

(** ** What each rule emits *)

Lemma for_each_intro {A B : Type} (f : A -> result (list B)) (l : list A)
    (bs : list B) (x : A) (b : B) :
  for_each f l = Ok bs -> In x l ->
  (forall xs, f x = Ok xs -> In b xs) -> In b bs.
Proof.
  intros H Hx Hb. destruct (for_each_In_ok _ _ _ _ H Hx) as (xs & Hxs).
  apply (for_each_ok _ _ _ H). exists x, xs. auto.
Qed.

(** When the pilot double-booking rule returns, it emits a conflict exactly
    for each pilot with an assignment name and both assignment dates, and
    each project with another name that lists the pilot and whose window
    overlaps the pilot's. *)
Theorem pilot_double_bookings_iff (pilots : list Pilot)
    (projects : list Project) (cs : list Conflict) :
  _detect_pilot_double_bookings pilots projects = Ok cs ->
  forall c,
    In c cs
    <-> exists pilot project a s e ps pe,
          In pilot pilots /\ In project projects
          /\ pilot_assignment pilot = Some a /\ a <> ""
          /\ pilot_start pilot = Some s /\ pilot_end pilot = Some e
          /\ project_name project <> a
          /\ In (pilot_id pilot) (assigned_pilots project)
          /\ strptime_date (start_date project) = Ok ps
          /\ strptime_date (end_date project) = Ok pe
          /\ _dates_overlap s e ps pe = true
          /\ c = pilot_double_booking pilot a s e project.
Proof.
  unfold _detect_pilot_double_bookings. intros H c. split.
  - intros Hc. apply (for_each_ok _ _ _ H) in Hc.
    destruct Hc as (pilot & xs & Hpilot & Hxs & Hc).
    unfold pilot_bookings in Hxs.
    destruct (pilot_assignment pilot) as [a |] eqn:Ha;
      [| inversion Hxs; subst; contradiction].
    destruct (pilot_start pilot) as [s |] eqn:Hs;
      [| inversion Hxs; subst; contradiction].
    destruct (pilot_end pilot) as [e |] eqn:He;
      [| inversion Hxs; subst; contradiction].
    destruct (String.eqb_spec a "") as [Hempty | Hne];
      [inversion Hxs; subst; contradiction |].
    apply (for_each_ok _ _ _ Hxs) in Hc.
    destruct Hc as (project & ys & Hproject & Hys & Hc).
    destruct (pilot_booking_check_ok _ _ _ _ _ _ _ Hys Hc)
      as (-> & Hname & Hin & ps & pe & Hps & Hpe & Hov).
    exists pilot, project, a, s, e, ps, pe. repeat split; assumption.
  - intros (pilot & project & a & s & e & ps & pe & Hpilot & Hproject & Ha
            & Hne & Hs & He & Hname & Hin & Hps & Hpe & Hov & ->).
    apply (for_each_intro _ _ _ _ _ H Hpilot). intros xs Hxs.
    unfold pilot_bookings in Hxs. rewrite Ha, Hs, He in Hxs.
    destruct (String.eqb_spec a ""); [contradiction |].
    apply (for_each_intro _ _ _ _ _ Hxs Hproject). intros ys Hys.
    unfold pilot_booking_check in Hys.
    destruct (String.eqb_spec (project_name project) a); [contradiction |].
    rewrite (proj2 (mem_In _ _) Hin), Hps, Hpe in Hys. simpl in Hys.
    rewrite Hov in Hys. inversion Hys; subst. left. reflexivity.
Qed.

Lemma pilot_double_bookings_iff_witness :
  let c := pilot_double_booking Scenario.arjun "A" (mkDate 2024 3 1)
             (mkDate 2024 3 10) Scenario.project_b in
  In c [c]
  <-> exists pilot project a s e ps pe,
        In pilot [Scenario.arjun]
        /\ In project [Scenario.project_a; Scenario.project_b]
        /\ pilot_assignment pilot = Some a /\ a <> ""
        /\ pilot_start pilot = Some s /\ pilot_end pilot = Some e
        /\ project_name project <> a
        /\ In (pilot_id pilot) (assigned_pilots project)
        /\ strptime_date (start_date project) = Ok ps
        /\ strptime_date (end_date project) = Ok pe
        /\ _dates_overlap s e ps pe = true
        /\ c = pilot_double_booking pilot a s e project.
Proof.
  apply (pilot_double_bookings_iff
           [Scenario.arjun] [Scenario.project_a; Scenario.project_b]).
  reflexivity.
Defined.

(** The drone double-booking rule, as the pilot rule with drones for pilots:
    it never pairs a drone with the project named as its current
    assignment. *)
Theorem drone_double_bookings_iff (drones : list Drone)
    (projects : list Project) (cs : list Conflict) :
  _detect_drone_double_bookings drones projects = Ok cs ->
  forall c,
    In c cs
    <-> exists drone project a s e ps pe,
          In drone drones /\ In project projects
          /\ drone_assignment drone = Some a /\ a <> ""
          /\ drone_start drone = Some s /\ drone_end drone = Some e
          /\ project_name project <> a
          /\ In (drone_id drone) (assigned_drones project)
          /\ strptime_date (start_date project) = Ok ps
          /\ strptime_date (end_date project) = Ok pe
          /\ _dates_overlap s e ps pe = true
          /\ c = drone_double_booking drone a project.
Proof.
  unfold _detect_drone_double_bookings. intros H c. split.
  - intros Hc. apply (for_each_ok _ _ _ H) in Hc.
    destruct Hc as (drone & xs & Hdrone & Hxs & Hc).
    unfold drone_bookings in Hxs.
    destruct (drone_assignment drone) as [a |] eqn:Ha;
      [| inversion Hxs; subst; contradiction].
    destruct (drone_start drone) as [s |] eqn:Hs;
      [| inversion Hxs; subst; contradiction].
    destruct (drone_end drone) as [e |] eqn:He;
      [| inversion Hxs; subst; contradiction].
    destruct (String.eqb_spec a "") as [Hempty | Hne];
      [inversion Hxs; subst; contradiction |].
    apply (for_each_ok _ _ _ Hxs) in Hc.
    destruct Hc as (project & ys & Hproject & Hys & Hc).
    unfold drone_booking_check in Hys.
    destruct (String.eqb_spec (project_name project) a) as [Heq | Hname];
      [inversion Hys; subst; contradiction |].
    destruct (mem (drone_id drone) (assigned_drones project)) eqn:Hmem;
      [| inversion Hys; subst; contradiction].
    bind_inv Hys. bind_inv Hys.
    destruct (_dates_overlap s e a0 a1) eqn:Hov; inversion Hys; subst;
      [| contradiction].
    destruct Hc as [<- | []].
    exists drone, project, a, s, e, a0, a1.
    repeat split; try assumption. apply mem_In. assumption.
  - intros (drone & project & a & s & e & ps & pe & Hdrone & Hproject & Ha
            & Hne & Hs & He & Hname & Hin & Hps & Hpe & Hov & ->).
    apply (for_each_intro _ _ _ _ _ H Hdrone). intros xs Hxs.
    unfold drone_bookings in Hxs. rewrite Ha, Hs, He in Hxs.
    destruct (String.eqb_spec a ""); [contradiction |].
    apply (for_each_intro _ _ _ _ _ Hxs Hproject). intros ys Hys.
    unfold drone_booking_check in Hys.
    destruct (String.eqb_spec (project_name project) a); [contradiction |].
    rewrite (proj2 (mem_In _ _) Hin), Hps, Hpe in Hys. simpl in Hys.
    rewrite Hov in Hys. inversion Hys; subst. left. reflexivity.
Qed.

Lemma drone_double_bookings_iff_witness :
  let c := drone_double_booking Fleet.d2 "A" Fleet.project_y in
  In c [c]
  <-> exists drone project a s e ps pe,
        In drone [Fleet.d2] /\ In project [Fleet.project_y]
        /\ drone_assignment drone = Some a /\ a <> ""
        /\ drone_start drone = Some s /\ drone_end drone = Some e
        /\ project_name project <> a
        /\ In (drone_id drone) (assigned_drones project)
        /\ strptime_date (start_date project) = Ok ps
        /\ strptime_date (end_date project) = Ok pe
        /\ _dates_overlap s e ps pe = true
        /\ c = drone_double_booking drone a project.
Proof.
  apply (drone_double_bookings_iff [Fleet.d2] [Fleet.project_y]).
  reflexivity.
Defined.

Lemma non_empty_In {A : Type} (l : list A) :
  non_empty l = true <-> exists x, In x l.
Proof.
  destruct l as [| x r]; simpl; split; try discriminate.
  - intros (x & []).
  - intros _. exists x. auto.
  - reflexivity.
Qed.

Lemma missing_In (required have : list string) (x : string) :
  In x (missing required have) <-> In x required /\ ~ In x have.
Proof.
  unfold missing. rewrite filter_In, negb_true_iff.
  split; intros [H1 H2]; split; auto.
  - intros Hin. apply mem_In in Hin. congruence.
  - destruct (mem x have) eqn:E; [| reflexivity].
    apply mem_In in E. contradiction.
Qed.

(** The certification rule emits a High conflict for a project and a pilot
    exactly when the pilot's id is listed on the project, resolves to that
    pilot, and some required certification is not among the pilot's; the
    description lists the required certifications that the pilot lacks, in
    the order the project requires them. *)
Theorem certification_mismatches_iff (pilots : list Pilot)
    (projects : list Project) (c : Conflict) :
  In c (_detect_certification_mismatches pilots projects)
  <-> exists project pid pilot,
        In project projects
        /\ In pid (assigned_pilots project)
        /\ find_pilot pilots pid = Some pilot
        /\ (exists cert, In cert (required_certifications project)
                         /\ ~ In cert (certifications pilot))
        /\ c = certification_mismatch pilot project
                 (missing (required_certifications project)
                          (certifications pilot)).
Proof.
  unfold _detect_certification_mismatches. rewrite in_flat_map. split.
  - intros (project & Hproject & Hc).
    destruct (non_empty (required_certifications project)); [| contradiction].
    apply in_flat_map in Hc. destruct Hc as (pid & Hpid & Hc).
    destruct (find_pilot pilots pid) as [pilot |] eqn:Hfind;
      [| contradiction].
    destruct (non_empty (missing _ _)) eqn:Hne; [| contradiction].
    destruct Hc as [<- | []].
    apply non_empty_In in Hne. destruct Hne as (cert & Hcert).
    apply missing_In in Hcert.
    exists project, pid, pilot. repeat split; eauto.
  - intros (project & pid & pilot & Hproject & Hpid & Hfind
            & (cert & Hcert) & ->).
    exists project. split; [assumption |].
    assert (Hreq : non_empty (required_certifications project) = true)
      by (apply non_empty_In; exists cert; tauto).
    rewrite Hreq. apply in_flat_map. exists pid. split; [assumption |].
    rewrite Hfind.
    assert (Hne : non_empty (missing (required_certifications project)
                                     (certifications pilot)) = true)
      by (apply non_empty_In; exists cert; apply missing_In; assumption).
    rewrite Hne. left. reflexivity.
Qed.

(** The capability rule, as the certification rule with drones and
    capabilities. *)
Theorem capability_mismatches_iff (drones : list Drone)
    (projects : list Project) (c : Conflict) :
  In c (_detect_capability_mismatches drones projects)
  <-> exists project did drone,
        In project projects
        /\ In did (assigned_drones project)
        /\ find_drone drones did = Some drone
        /\ (exists cap, In cap (required_capabilities project)
                        /\ ~ In cap (capabilities drone))
        /\ c = capability_mismatch drone project
                 (missing (required_capabilities project)
                          (capabilities drone)).
Proof.
  unfold _detect_capability_mismatches. rewrite in_flat_map. split.
  - intros (project & Hproject & Hc).
    destruct (non_empty (required_capabilities project)); [| contradiction].
    apply in_flat_map in Hc. destruct Hc as (did & Hdid & Hc).
    destruct (find_drone drones did) as [drone |] eqn:Hfind;
      [| contradiction].
    destruct (non_empty (missing _ _)) eqn:Hne; [| contradiction].
    destruct Hc as [<- | []].
    apply non_empty_In in Hne. destruct Hne as (cap & Hcap).
    apply missing_In in Hcap.
    exists project, did, drone. repeat split; eauto.
  - intros (project & did & drone & Hproject & Hdid & Hfind
            & (cap & Hcap) & ->).
    exists project. split; [assumption |].
    assert (Hreq : non_empty (required_capabilities project) = true)
      by (apply non_empty_In; exists cap; tauto).
    rewrite Hreq. apply in_flat_map. exists did. split; [assumption |].
    rewrite Hfind.
    assert (Hne : non_empty (missing (required_capabilities project)
                                     (capabilities drone)) = true)
      by (apply non_empty_In; exists cap; apply missing_In; assumption).
    rewrite Hne. left. reflexivity.
Qed.

(** When the maintenance rule returns, it emits, for a drone listed on a
    project and resolved, a Critical conflict exactly when the drone's status
    is Maintenance (whatever its next maintenance date) and a Medium conflict
    exactly when its next maintenance date lies in the project's window. *)
Theorem maintenance_conflicts_iff (drones : list Drone)
    (projects : list Project) (cs : list Conflict) :
  _detect_drone_maintenance_conflicts drones projects = Ok cs ->
  forall c,
    In c cs
    <-> exists project did drone,
          In project projects
          /\ In did (assigned_drones project)
          /\ find_drone drones did = Some drone
          /\ ((drone_status drone = "Maintenance"
               /\ c = in_maintenance drone project)
              \/ (exists due ps pe,
                    next_maintenance_date drone = Some due
                    /\ strptime_date (start_date project) = Ok ps
                    /\ strptime_date (end_date project) = Ok pe
                    /\ date_le ps due /\ date_le due pe
                    /\ c = scheduled_maintenance drone due project)).
Proof.
  unfold _detect_drone_maintenance_conflicts. intros H c. split.
  - intros Hc. apply (for_each_ok _ _ _ H) in Hc.
    destruct Hc as (project & xs & Hproject & Hxs & Hc).
    apply (for_each_ok _ _ _ Hxs) in Hc.
    destruct Hc as (did & ys & Hdid & Hys & Hc).
    unfold maintenance_check in Hys.
    destruct (find_drone drones did) as [drone |] eqn:Hfind;
      [| inversion Hys; subst; contradiction].
    exists project, did, drone. repeat split; try assumption.
    assert (Hstatus : forall c',
      In c' (if String.eqb (drone_status drone) DroneStatus.MAINTENANCE
             then [in_maintenance drone project] else []) ->
      drone_status drone = "Maintenance"
      /\ c' = in_maintenance drone project).
    { intros c' Hc'.
      destruct (String.eqb_spec (drone_status drone) DroneStatus.MAINTENANCE)
        as [Heq | Hne]; [| contradiction].
      destruct Hc' as [<- | []]. auto. }
    destruct (next_maintenance_date drone) as [due |] eqn:Hdue.
    + bind_inv Hys. bind_inv Hys.
      destruct (date_leb a due && date_leb due a0) eqn:Hwin;
        inversion Hys; subst.
      * apply in_app_or in Hc. destruct Hc as [Hc | [<- | []]];
          [left; apply Hstatus; assumption |].
        right. apply andb_true_iff in Hwin. destruct Hwin as [Hlo Hhi].
        exists due, a, a0. repeat split; assumption.
      * left. apply Hstatus. assumption.
    + inversion Hys; subst. left. apply Hstatus. assumption.
  - intros (project & did & drone & Hproject & Hdid & Hfind & Hcase).
    apply (for_each_intro _ _ _ _ _ H Hproject). intros xs Hxs.
    apply (for_each_intro _ _ _ _ _ Hxs Hdid). intros ys Hys.
    unfold maintenance_check in Hys. rewrite Hfind in Hys.
    destruct Hcase as [[Hst ->]
                      | (due & ps & pe & Hdue & Hps & Hpe & Hlo & Hhi & ->)].
    + unfold DroneStatus.MAINTENANCE in Hys. rewrite Hst in Hys.
      simpl in Hys.
      destruct (next_maintenance_date drone) as [due |].
      * bind_inv Hys. bind_inv Hys.
        destruct (date_leb a due && date_leb due a0); inversion Hys; subst;
          simpl; auto.
      * inversion Hys; subst. simpl. auto.
    + rewrite Hdue, Hps, Hpe in Hys. simpl in Hys.
      unfold date_le in Hlo, Hhi. rewrite Hlo, Hhi in Hys. simpl in Hys.
      inversion Hys; subst. apply in_or_app. right. left. reflexivity.
Qed.

Lemma maintenance_conflicts_iff_witness :
  let c := in_maintenance Fleet.d2 Fleet.project_y in
  In c [c]
  <-> exists project did drone,
        In project [Fleet.project_y]
        /\ In did (assigned_drones project)
        /\ find_drone [Fleet.d2] did = Some drone
        /\ ((drone_status drone = "Maintenance"
             /\ c = in_maintenance drone project)
            \/ (exists due ps pe,
                  next_maintenance_date drone = Some due
                  /\ strptime_date (start_date project) = Ok ps
                  /\ strptime_date (end_date project) = Ok pe
                  /\ date_le ps due /\ date_le due pe
                  /\ c = scheduled_maintenance drone due project)).
Proof.
  apply (maintenance_conflicts_iff [Fleet.d2] [Fleet.project_y]).
  reflexivity.
Defined.

(** ** The result of the sweep as a whole *)

Lemma detect_all_conflicts_parts (pilots : list Pilot) (drones : list Drone)
    (projects : list Project) (cs : list Conflict) :
  detect_all_conflicts pilots drones projects = Ok cs ->
  exists c1 c2 c6,
    _detect_pilot_double_bookings pilots projects = Ok c1
    /\ _detect_drone_double_bookings drones projects = Ok c2
    /\ _detect_drone_maintenance_conflicts drones projects = Ok c6
    /\ cs = c1 ++ c2
            ++ _detect_certification_mismatches pilots projects
            ++ _detect_skill_mismatches pilots projects
            ++ _detect_location_mismatches pilots drones projects
            ++ c6 ++ _detect_capability_mismatches drones projects.
Proof.
  unfold detect_all_conflicts. intros H.
  bind_inv H. bind_inv H. bind_inv H. inversion H; subst.
  exists a, a0, a1. auto.
Qed.

Lemma location_mismatches_type (pilots : list Pilot) (drones : list Drone)
    (projects : list Project) (c : Conflict) :
  In c (_detect_location_mismatches pilots drones projects) ->
  conflict_type c = LOCATION_MISMATCH.
Proof.
  intros Hc. apply location_mismatches_iff in Hc.
  destruct Hc as (project & _ & Hc).
  exact (location_mismatch_of_type _ _ _ _ Hc).
Qed.

Lemma sweep_built_by_rule (pilots : list Pilot) (drones : list Drone)
    (projects : list Project) (cs : list Conflict) (c : Conflict) :
  detect_all_conflicts pilots drones projects = Ok cs -> In c cs ->
  built_by_rule c.
Proof.
  intros H Hc. apply detect_all_conflicts_parts in H.
  destruct H as (c1 & c2 & c6 & H1 & H2 & H6 & ->).
  unfold built_by_rule.
  rewrite !in_app_iff in Hc.
  destruct Hc as [Hc | [Hc | [Hc | [Hc | [Hc | [Hc | Hc]]]]]].
  - left. unfold _detect_pilot_double_bookings in H1.
    apply (for_each_ok _ _ _ H1) in Hc.
    destruct Hc as (pilot & xs & _ & Hxs & Hc). unfold pilot_bookings in Hxs.
    destruct (pilot_assignment pilot) as [a |], (pilot_start pilot) as [s |],
      (pilot_end pilot) as [e |];
      try (inversion Hxs; subst; contradiction).
    destruct (String.eqb a ""); [inversion Hxs; subst; contradiction |].
    apply (for_each_ok _ _ _ Hxs) in Hc.
    destruct Hc as (project & ys & _ & Hys & Hc).
    destruct (pilot_booking_check_ok _ _ _ _ _ _ _ Hys Hc) as (-> & _).
    eauto 6.
  - right. left. unfold _detect_drone_double_bookings in H2.
    apply (for_each_ok _ _ _ H2) in Hc.
    destruct Hc as (drone & xs & _ & Hxs & Hc). unfold drone_bookings in Hxs.
    destruct (drone_assignment drone) as [a |], (drone_start drone) as [s |],
      (drone_end drone) as [e |];
      try (inversion Hxs; subst; contradiction).
    destruct (String.eqb a ""); [inversion Hxs; subst; contradiction |].
    apply (for_each_ok _ _ _ Hxs) in Hc.
    destruct Hc as (project & ys & _ & Hys & Hc).
    unfold drone_booking_check in Hys.
    destruct (String.eqb (project_name project) a);
      [inversion Hys; subst; contradiction |].
    destruct (mem (drone_id drone) (assigned_drones project));
      [| inversion Hys; subst; contradiction].
    bind_inv Hys. bind_inv Hys.
    destruct (_dates_overlap s e a0 a1); inversion Hys; subst;
      [| contradiction].
    destruct Hc as [<- | []]. eauto.
  - do 2 right. left. unfold _detect_certification_mismatches in Hc.
    apply in_flat_map in Hc. destruct Hc as (project & _ & Hc).
    destruct (non_empty (required_certifications project)); [| contradiction].
    apply in_flat_map in Hc. destruct Hc as (pid & _ & Hc).
    destruct (find_pilot pilots pid) as [pilot |]; [| contradiction].
    destruct (non_empty _); [| contradiction].
    destruct Hc as [<- | []]. eauto.
  - do 3 right. left. unfold _detect_skill_mismatches in Hc.
    apply in_flat_map in Hc. destruct Hc as (project & _ & Hc).
    destruct (required_skill_level project) as [r |]; [| contradiction].
    destruct (String.eqb r ""); [contradiction |].
    apply in_flat_map in Hc. destruct Hc as (pid & _ & Hc).
    destruct (find_pilot pilots pid) as [pilot |]; [| contradiction].
    destruct (_ <? _); [| contradiction].
    destruct Hc as [<- | []]. eauto.
  - apply location_mismatches_iff in Hc. destruct Hc as (project & _ & Hc).
    do 4 right.
    destruct Hc as [(? & pilot & _ & _ & _ & ->)
                   | [(? & drone & _ & _ & _ & ->)
                     | (? & pilot & ? & drone & _ & _ & _ & _ & _ & ->)]].
    + left. eauto.
    + right. left. eauto.
    + do 2 right. left. eauto.
  - do 7 right. unfold _detect_drone_maintenance_conflicts in H6.
    apply (for_each_ok _ _ _ H6) in Hc.
    destruct Hc as (project & xs & _ & Hxs & Hc).
    apply (for_each_ok _ _ _ Hxs) in Hc.
    destruct Hc as (did & ys & _ & Hys & Hc).
    unfold maintenance_check in Hys.
    destruct (find_drone drones did) as [drone |];
      [| inversion Hys; subst; contradiction].
    assert (Hstatus : forall c',
      In c' (if String.eqb (drone_status drone) DroneStatus.MAINTENANCE
             then [in_maintenance drone project] else []) ->
      c' = in_maintenance drone project).
    { intros c' Hc'. destruct (String.eqb _ _); [| contradiction].
      destruct Hc' as [<- | []]. reflexivity. }
    destruct (next_maintenance_date drone) as [due |].
    + bind_inv Hys. bind_inv Hys.
      destruct (date_leb a due && date_leb due a0); inversion Hys; subst.
      * apply in_app_or in Hc. destruct Hc as [Hc | [<- | []]].
        -- left. rewrite (Hstatus _ Hc). eauto.
        -- right. left. eauto.
      * left. rewrite (Hstatus _ Hc). eauto.
    + inversion Hys; subst. left. rewrite (Hstatus _ Hc). eauto.
  - do 9 right. unfold _detect_capability_mismatches in Hc.
    apply in_flat_map in Hc. destruct Hc as (project & _ & Hc).
    destruct (non_empty (required_capabilities project)); [| contradiction].
    apply in_flat_map in Hc. destruct Hc as (did & _ & Hc).
    destruct (find_drone drones did) as [drone |]; [| contradiction].
    destruct (non_empty _); [| contradiction].
    destruct Hc as [<- | []]. eauto.
Qed.

(** Every conflict of a sweep that returns is unresolved, names its project
    by id and by name, names a pilot or a drone, and carries the severity
    fixed for its type: Critical, High or Medium, never Low. *)
Theorem sweep_conflicts_well_formed (pilots : list Pilot)
    (drones : list Drone) (projects : list Project) (cs : list Conflict) :
  detect_all_conflicts pilots drones projects = Ok cs ->
  forall c, In c cs ->
    resolved c = false
    /\ affected_project_id c <> None
    /\ affected_project_name c <> None
    /\ (affected_pilot_id c <> None \/ affected_drone_id c <> None)
    /\ severity_of_type (conflict_type c) (severity c)
    /\ severity c <> "Low".
Proof.
  intros H c Hc. pose proof (sweep_built_by_rule _ _ _ _ _ H Hc) as Hb.
  unfold built_by_rule in Hb.
  repeat match goal with
         | Hx : _ \/ _ |- _ => destruct Hx as [Hx | Hx]
         | Hx : exists _, _ |- _ => destruct Hx as (? & Hx)
         end; subst c; simpl;
    repeat split; try discriminate; auto;
    first [left; discriminate | right; discriminate].
Qed.

Lemma sweep_conflicts_well_formed_witness :
  let c := pilot_location_mismatch Scenario.meera Scenario.project_x in
  resolved c = false
  /\ affected_project_id c <> None
  /\ affected_project_name c <> None
  /\ (affected_pilot_id c <> None \/ affected_drone_id c <> None)
  /\ severity_of_type (conflict_type c) (severity c)
  /\ severity c <> "Low".
Proof.
  apply (sweep_conflicts_well_formed
           [Scenario.meera; Scenario.kavya] [] [Scenario.project_x]
           [pilot_location_mismatch Scenario.meera Scenario.project_x]).
  - reflexivity.
  - left. reflexivity.
Defined.

Lemma sorted_app {A : Type} (R : A -> A -> Prop) (l1 l2 : list A) :
  StronglySorted R l1 -> StronglySorted R l2 ->
  (forall x y, In x l1 -> In y l2 -> R x y) ->
  StronglySorted R (l1 ++ l2).
Proof.
  induction l1 as [| a r IH]; simpl; intros H1 H2 H; [assumption |].
  inversion H1 as [| ? ? Hr Ha]; subst.
  constructor.
  - apply IH; auto.
  - apply Forall_app. split; [assumption |].
    apply Forall_forall. intros y Hy. apply H; auto.
Qed.

Lemma one_rule_sorted (l : list Conflict) (t : ConflictType) :
  (forall c, In c l -> conflict_type c = t) -> StronglySorted rule_order l.
Proof.
  induction l as [| a r IH]; intros H; constructor.
  - apply IH. intros c Hc. apply H. right. assumption.
  - apply Forall_forall. intros c Hc. unfold rule_order.
    rewrite (H a (or_introl eq_refl)), (H c (or_intror Hc)). apply le_n.
Qed.

(** A sweep that returns lists its conflicts rule by rule, in the order in
    which the rules run: pilot double bookings first, then drone double
    bookings, certification, skill and location mismatches, maintenance
    conflicts, and capability mismatches last. *)
Theorem sweep_conflicts_in_rule_order (pilots : list Pilot)
    (drones : list Drone) (projects : list Project) (cs : list Conflict) :
  detect_all_conflicts pilots drones projects = Ok cs ->
  StronglySorted rule_order cs.
Proof.
  intros H. apply detect_all_conflicts_parts in H.
  destruct H as (c1 & c2 & c6 & H1 & H2 & H6 & ->).
  pose proof (fun c => pilot_double_bookings_type _ _ _ c H1) as T1.
  pose proof (fun c => drone_double_bookings_type _ _ _ c H2) as T2.
  pose proof (certification_mismatches_type pilots projects) as T3.
  pose proof (skill_mismatches_type pilots projects) as T4.
  pose proof (location_mismatches_type pilots drones projects) as T5.
  pose proof (fun c => maintenance_conflicts_type _ _ _ c H6) as T6.
  pose proof (capability_mismatches_type drones projects) as T7.
  repeat (apply sorted_app;
          [eapply one_rule_sorted; eassumption | |
           intros x y Hx Hy; unfold rule_order; rewrite ?in_app_iff in Hy;
           repeat match goal with
                  | Hd : _ \/ _ |- _ => destruct Hd as [Hd | Hd]
                  end;
           repeat match goal with
                  | T : forall c, In c ?l -> conflict_type c = _,
                    Hin : In ?z ?l |- _ =>
                      rewrite (T z Hin); clear Hin
                  end; simpl; lia]).
  eapply one_rule_sorted; eassumption.
Qed.

Lemma sweep_conflicts_in_rule_order_witness :
  StronglySorted rule_order
    [pilot_double_booking Scenario.arjun "A" (mkDate 2024 3 1)
       (mkDate 2024 3 10) Scenario.project_b;
     scheduled_maintenance Scenario.d1 (mkDate 2024 3 5) Scenario.project_b].
Proof.
  apply (sweep_conflicts_in_rule_order
           [Scenario.arjun] [Scenario.d1]
           [Scenario.project_a; Scenario.project_b]).
  reflexivity.
Defined.

Lemma for_each_nil {A B : Type} (f : A -> result (list B)) (l : list A) :
  (forall x, In x l -> f x = Ok []) -> for_each f l = Ok [].
Proof.
  induction l as [| x r IH]; simpl; intros H; [reflexivity |].
  rewrite (H x (or_introl eq_refl)), IH; [reflexivity |].
  intros y Hy. apply H. right. assumption.
Qed.

Lemma flat_map_nil {A B : Type} (f : A -> list B) (l : list A) :
  (forall x, In x l -> f x = []) -> flat_map f l = [].
Proof.
  induction l as [| x r IH]; simpl; intros H; [reflexivity |].
  rewrite (H x (or_introl eq_refl)), IH; [reflexivity |].
  intros y Hy. apply H. right. assumption.
Qed.

Lemma no_assignments_no_conflicts (pilots : list Pilot)
    (drones : list Drone) (projects : list Project) :
  (forall project, In project projects ->
     assigned_pilots project = [] /\ assigned_drones project = []) ->
  detect_all_conflicts pilots drones projects = Ok [].
Proof.
  intros Hnone. unfold detect_all_conflicts.
  assert (H1 : _detect_pilot_double_bookings pilots projects = Ok []).
  { apply for_each_nil. intros pilot _. unfold pilot_bookings.
    destruct (pilot_assignment pilot) as [a |], (pilot_start pilot) as [s |],
      (pilot_end pilot) as [e |]; try reflexivity.
    destruct (String.eqb a ""); [reflexivity |].
    apply for_each_nil. intros project Hp. unfold pilot_booking_check.
    rewrite (proj1 (Hnone project Hp)). simpl.
    destruct (String.eqb _ _); reflexivity. }
  assert (H2 : _detect_drone_double_bookings drones projects = Ok []).
  { apply for_each_nil. intros drone _. unfold drone_bookings.
    destruct (drone_assignment drone) as [a |], (drone_start drone) as [s |],
      (drone_end drone) as [e |]; try reflexivity.
    destruct (String.eqb a ""); [reflexivity |].
    apply for_each_nil. intros project Hp. unfold drone_booking_check.
    rewrite (proj2 (Hnone project Hp)). simpl.
    destruct (String.eqb _ _); reflexivity. }
  assert (H6 : _detect_drone_maintenance_conflicts drones projects = Ok []).
  { apply for_each_nil. intros project Hp.
    rewrite (proj2 (Hnone project Hp)). reflexivity. }
  rewrite H1, H2, H6. simpl.
  unfold _detect_certification_mismatches, _detect_skill_mismatches,
    _detect_location_mismatches, _detect_capability_mismatches,
    pilot_location_checks, drone_location_checks,
    pilot_drone_location_checks.
  rewrite !flat_map_nil; try reflexivity; intros project Hp;
    destruct (Hnone project Hp) as [Hp1 Hp2]; rewrite ?Hp1, ?Hp2; simpl;
    try reflexivity.
  - destruct (non_empty _); reflexivity.
  - destruct (required_skill_level project) as [r |]; [| reflexivity].
    destruct (String.eqb r ""); reflexivity.
  - destruct (non_empty _); reflexivity.
Qed.

(** When no project lists a pilot or a drone, the sweep returns the empty
    list, and it does so even if project dates are missing or malformed:
    the dates of a project are parsed only for a resource it lists. *)
Theorem sweep_without_assignments_is_empty (pilots : list Pilot)
    (drones : list Drone) (projects : list Project) :
  (forall project, In project projects ->
     assigned_pilots project = [] /\ assigned_drones project = []) ->
  detect_all_conflicts pilots drones projects = Ok [].
Proof. apply no_assignments_no_conflicts. Qed.

Lemma sweep_without_assignments_is_empty_witness :
  detect_all_conflicts [Scenario.arjun] [Scenario.d1]
    [{| project_id := "PRJ-Z"; project_name := "Z"; location := "Pune";
        start_date := Some "TBD"; end_date := None;
        required_certifications := ["DGCA"];
        required_capabilities := ["Thermal"];
        required_skill_level := Some "Expert";
        assigned_pilots := []; assigned_drones := [] |}]
  = Ok [].
Proof.
  apply sweep_without_assignments_is_empty.
  intros project [<- | []]. split; reflexivity.
Defined.

(** ** The pre-assignment check on a placement that fits *)

Lemma app_nil_iff {A : Type} (l1 l2 : list A) :
  l1 ++ l2 = [] <-> l1 = [] /\ l2 = [].
Proof.
  split.
  - destruct l1; simpl; [auto | discriminate].
  - intros [-> ->]. reflexivity.
Qed.

Lemma single_nil_iff {A : Type} (b : bool) (x : A) :
  (if b then [x] else []) = [] <-> b = false.
Proof. destruct b; split; intros H; try reflexivity; discriminate. Qed.

Lemma missing_nil_iff (required have : list string) :
  non_empty (missing required have) = false
  <-> forall c, In c required -> In c have.
Proof.
  rewrite non_empty_missing, negb_false_iff, forallb_forall.
  split; intros H c Hc; apply mem_In, H, Hc.
Qed.

Lemma assigned_window_nil_iff (start_d end_d : date) (os oe : option date)
    (x : Conflict) :
  match os, oe with
  | Some s, Some e => if _dates_overlap s e start_d end_d then [x] else []
  | _, _ => []
  end = []
  <-> forall s e, os = Some s -> oe = Some e ->
                  _dates_overlap s e start_d end_d = false.
Proof.
  destruct os as [s |], oe as [e |];
    try (split; [intros _ s' e' Hs He; discriminate | reflexivity]).
  rewrite single_nil_iff. split.
  - intros H s' e' Hs He. inversion Hs; inversion He; subst. assumption.
  - intros H. apply H; reflexivity.
Qed.

Lemma location_check_nil_iff (loc here : string) :
  negb (String.eqb loc "") && negb (String.eqb (lower here) (lower loc))
  = false
  <-> loc = "" \/ lower here = lower loc.
Proof.
  rewrite andb_false_iff, !negb_false_iff, !String.eqb_eq. reflexivity.
Qed.

Lemma pilot_checks_nil_iff (proj_id : string) (start_d end_d : date)
    (required_certs : list string) (required_skill loc : string)
    (pilot : Pilot) :
  pilot_checks proj_id start_d end_d required_certs required_skill loc pilot
  = []
  <-> pilot_fits start_d end_d required_certs required_skill loc pilot.
Proof.
  unfold pilot_checks, pilot_fits. rewrite !app_nil_iff.
  cbv zeta. rewrite assigned_window_nil_iff, !single_nil_iff,
    missing_nil_iff, location_check_nil_iff.
  unfold PilotStatus.ON_LEAVE. rewrite String.eqb_neq.
  assert (Hskill :
    (if mem required_skill skill_order
     then if skill_idx (skill_level pilot)
             <? index required_skill skill_order
          then [pilot_conflict SKILL_MISMATCH "Medium"
                  ("Pilot " ++ pilot_name pilot ++ " skill level ("
                   ++ skill_level pilot ++ ") is below required ("
                   ++ required_skill ++ ")")%string pilot proj_id]
          else []
     else []) = []
    <-> (In required_skill skill_order ->
         spec_skill_rank (skill_level pilot)
         >= spec_skill_rank required_skill)).
  { rewrite <- !skill_idx_spec.
    destruct (mem required_skill skill_order) eqn:Hmem.
    - assert (Hidx : skill_idx required_skill
                     = index required_skill skill_order)
        by (unfold skill_idx; rewrite Hmem; reflexivity).
      rewrite single_nil_iff, Z.ltb_ge, Hidx. apply mem_In in Hmem.
      split; [intros H _; lia | intros H; specialize (H Hmem); lia].
    - split; [| reflexivity]. intros _ Hin.
      apply mem_In in Hin. congruence. }
  rewrite Hskill. reflexivity.
Qed.

Lemma drone_checks_nil_iff (proj_id : string) (start_d end_d : date)
    (required_caps : list string) (loc : string) (drone : Drone) :
  drone_checks proj_id start_d end_d required_caps loc drone = []
  <-> drone_fits start_d end_d required_caps loc drone.
Proof.
  unfold drone_checks, drone_fits. rewrite !app_nil_iff.
  cbv zeta. rewrite assigned_window_nil_iff, !single_nil_iff,
    missing_nil_iff, location_check_nil_iff.
  unfold DroneStatus.MAINTENANCE. rewrite String.eqb_neq. reflexivity.
Qed.

(** The pre-assignment check of a pilot and a drone that both resolve returns
    no conflict exactly when the pilot is not on leave, the drone is not in
    maintenance, neither has a recorded assignment window overlapping the
    placement, nothing required is missing, the pilot's rank reaches a
    required level that is one of the four known levels (a level that is not
    is not checked), and the locations agree up to letter case or no
    location is given. *)
Theorem placement_without_conflicts_iff (proj_id : string)
    (start_d end_d : date) (required_certs required_caps : list string)
    (required_skill loc : string) (pilots : list Pilot)
    (drones : list Drone) (pid did : string) (pilot : Pilot)
    (drone : Drone) :
  pid <> "" -> did <> "" ->
  get_pilot_by_id pilots pid = Some pilot ->
  get_drone_by_id drones did = Some drone ->
  (check_assignment_conflicts proj_id start_d end_d required_certs
     required_caps required_skill loc pilots drones (Some pid) (Some did)
   = []
   <-> pilot_fits start_d end_d required_certs required_skill loc pilot
       /\ drone_fits start_d end_d required_caps loc drone).
Proof.
  intros Hpid Hdid Hpilot Hdrone. unfold check_assignment_conflicts.
  rewrite Hpilot, Hdrone.
  destruct (String.eqb_spec pid ""); [contradiction |].
  destruct (String.eqb_spec did ""); [contradiction |].
  rewrite app_nil_iff, pilot_checks_nil_iff, drone_checks_nil_iff.
  reflexivity.
Qed.

Lemma placement_without_conflicts_iff_witness :
  check_assignment_conflicts "PRJ-B" (mkDate 2024 3 5) (mkDate 2024 3 15)
    ["DGCA"] ["Thermal"] "Advanced" "" [Scenario.meera] [Scenario.d1]
    (Some "P002") (Some "D001")
  = []
  <-> pilot_fits (mkDate 2024 3 5) (mkDate 2024 3 15) ["DGCA"] "Advanced" ""
        Scenario.meera
      /\ drone_fits (mkDate 2024 3 5) (mkDate 2024 3 15) ["Thermal"] ""
           Scenario.d1.
Proof.
  apply (placement_without_conflicts_iff "PRJ-B" (mkDate 2024 3 5)
           (mkDate 2024 3 15) ["DGCA"] ["Thermal"] "Advanced" ""
           [Scenario.meera] [Scenario.d1] "P002" "D001");
    try reflexivity; discriminate.
Defined.

(* ===================================================================== *)
(** * Further properties of the candidate ranking *)
(* ===================================================================== *)

Lemma spec_skill_rank_range (s : string) : 0 <= spec_skill_rank s <= 3.
Proof.
  unfold spec_skill_rank.
  repeat match goal with
         | |- context [String.eqb ?a ?b] => destruct (String.eqb a b)
         end; lia.
Qed.

Lemma spec_pilot_issues_nil (required_certs : list string)
    (required_skill : string) (preferred_location : option string)
    (pilot : Pilot) :
  spec_pilot_issues required_certs required_skill preferred_location pilot
  = []
  <-> spec_all_present required_certs pilot = true
      /\ (spec_skill_rank (skill_level pilot)
          >=? spec_skill_rank required_skill) = true
      /\ (spec_location_given preferred_location
          && negb (spec_location_same preferred_location pilot)) = false.
Proof.
  unfold spec_pilot_issues. rewrite !app_nil_iff.
  destruct (spec_all_present required_certs pilot),
    (spec_skill_rank (skill_level pilot) >=? spec_skill_rank required_skill),
    (spec_location_given preferred_location
     && negb (spec_location_same preferred_location pilot));
    split; intros (H1 & H2 & H3); repeat split; try discriminate; auto.
Qed.

(** A recommended candidate scores strictly more than a candidate that is
    not, under the same requirements. *)
Lemma recommended_outscores (required_certs : list string)
    (required_skill : string) (preferred_location : option string)
    (p1 p2 : Pilot) :
  let c1 := pilot_candidate required_certs required_skill preferred_location
              p1 in
  let c2 := pilot_candidate required_certs required_skill preferred_location
              p2 in
  recommended c1 = true -> recommended c2 = false -> score c1 > score c2.
Proof.
  intros c1 c2. subst c1 c2. rewrite !pilot_candidate_spec. simpl.
  intros H1 H2.
  assert (I1 : spec_pilot_issues required_certs required_skill
                 preferred_location p1 = [])
    by (destruct (spec_pilot_issues _ _ _ p1); [reflexivity | discriminate]).
  assert (I2 : spec_pilot_issues required_certs required_skill
                 preferred_location p2 <> [])
    by (intros E; rewrite E in H2; discriminate).
  rewrite spec_pilot_issues_nil in I1, I2.
  destruct I1 as (A1 & S1 & L1).
  unfold spec_pilot_score. rewrite A1, S1.
  pose proof (spec_skill_rank_range (skill_level p1)) as R1.
  pose proof (spec_skill_rank_range (skill_level p2)) as R2.
  pose proof (spec_skill_rank_range required_skill) as R3.
  apply Z.geb_le in S1.
  destruct (spec_location_given preferred_location);
    destruct (spec_location_same preferred_location p1); try discriminate;
    destruct (spec_all_present required_certs p2);
    destruct (Z.geb_spec (spec_skill_rank (skill_level p2))
                         (spec_skill_rank required_skill));
    destruct (spec_location_same preferred_location p2);
    cbn [andb negb] in *; try lia;
    exfalso; apply I2; repeat split; reflexivity.
Qed.

Lemma sorted_earlier_later {A : Type} (R : A -> A -> Prop)
    (l1 l2 l3 : list A) (a b : A) :
  StronglySorted R (l1 ++ a :: l2 ++ b :: l3) -> R a b.
Proof.
  induction l1 as [| x r IH]; simpl; intros H;
    inversion H as [| ? ? Hr Hx]; subst.
  - rewrite Forall_forall in Hx. apply Hx.
    apply in_or_app. right. left. reflexivity.
  - apply IH. assumption.
Qed.

(** In the list that [rank_pilot_candidates] returns, the recommended
    candidates come first: no candidate with an issue stands before a
    candidate without one. *)
Theorem recommended_pilots_rank_first (required_certs : list string)
    (required_skill : string)
    (preferred_location exclude_pilot_id : option string)
    (all_pilots : list Pilot)
    (before between after : list (Candidate Pilot))
    (a b : Candidate Pilot) :
  rank_pilot_candidates required_certs required_skill preferred_location
    exclude_pilot_id all_pilots
  = before ++ a :: between ++ b :: after ->
  recommended b = true -> recommended a = true.
Proof.
  intros Heq Hb.
  assert (Hin : forall c, In c (before ++ a :: between ++ b :: after) ->
                exists p, c = pilot_candidate required_certs required_skill
                                preferred_location p).
  { intros c Hc. rewrite <- Heq in Hc. unfold rank_pilot_candidates in Hc.
    apply In_firstn, sort_desc_In in Hc. unfold pilot_candidates in Hc.
    apply in_map_iff in Hc. destruct Hc as (p & <- & _). eauto. }
  destruct (Hin a) as (pa & ->);
    [apply in_or_app; right; left; reflexivity |].
  destruct (Hin b) as (pb & ->);
    [apply in_or_app; right; right; apply in_or_app; right; left;
     reflexivity |].
  destruct (recommended (pilot_candidate _ _ _ pa)) eqn:Ha; [reflexivity |].
  exfalso.
  pose proof (recommended_outscores required_certs required_skill
                preferred_location pb pa Hb Ha) as Hgt.
  destruct (top5_of_sorted _ (@score Pilot)
              (pilot_candidates required_certs required_skill
                 preferred_location exclude_pilot_id all_pilots))
    as (_ & Hsorted & _).
  fold (rank_pilot_candidates required_certs required_skill
          preferred_location exclude_pilot_id all_pilots) in Hsorted.
  rewrite Heq in Hsorted.
  apply sorted_earlier_later in Hsorted. unfold key_ge in Hsorted. lia.
Qed.

Lemma recommended_pilots_rank_first_witness :
  recommended (pilot_candidate [] "Advanced" None Scenario.meera) = true.
Proof.
  apply (recommended_pilots_rank_first
           [] "Advanced" None None [Scenario.kavya; Scenario.meera]
           [] [] []
           (pilot_candidate [] "Advanced" None Scenario.meera)
           (pilot_candidate [] "Advanced" None Scenario.kavya));
    reflexivity.
Defined.

Lemma sorted_front_back {A : Type} (R : A -> A -> Prop) (l1 l2 : list A)
    (a b : A) :
  StronglySorted R (l1 ++ l2) -> In a l1 -> In b l2 -> R a b.
Proof.
  induction l1 as [| x r IH]; simpl; intros H Ha Hb; [contradiction |].
  inversion H as [| ? ? Hr Hx]; subst. destruct Ha as [-> | Ha].
  - rewrite Forall_forall in Hx. apply Hx. apply in_or_app. auto.
  - apply IH; assumption.
Qed.

Lemma top5_keeps_best {A : Type} (key : A -> Z) (l : list A) (c t : A) :
  In c l -> ~ In c (firstn 5 (sort_desc key l)) ->
  In t (firstn 5 (sort_desc key l)) ->
  key t >= key c.
Proof.
  intros Hc Hout Ht.
  destruct (top5_of_sorted _ key l) as (_ & _ & rest & Hperm & Hsorted & _).
  apply (Permutation_in _ (Permutation_sym Hperm)) in Hc.
  apply in_app_or in Hc. destruct Hc as [Hc | Hc]; [contradiction |].
  exact (sorted_front_back _ _ _ _ _ Hsorted Ht Hc).
Qed.

(** The cut to five entries keeps the best: a pilot candidate that is left
    out of the returned list scores no more than any candidate in it. *)
Theorem ranked_pilots_keep_best (required_certs : list string)
    (required_skill : string)
    (preferred_location exclude_pilot_id : option string)
    (all_pilots : list Pilot) (c t : Candidate Pilot) :
  In c (pilot_candidates required_certs required_skill preferred_location
          exclude_pilot_id all_pilots) ->
  ~ In c (rank_pilot_candidates required_certs required_skill
            preferred_location exclude_pilot_id all_pilots) ->
  In t (rank_pilot_candidates required_certs required_skill
          preferred_location exclude_pilot_id all_pilots) ->
  score t >= score c.
Proof. apply top5_keeps_best. Qed.

(** The cut to five entries keeps the best drones too: a drone candidate
    that is left out of the returned list scores no more than any candidate
    in it. *)
Theorem ranked_drones_keep_best (required_caps : list string)
    (preferred_location exclude_drone_id : option string)
    (all_drones : list Drone) (c t : Candidate Drone) :
  In c (drone_candidates required_caps preferred_location exclude_drone_id
          all_drones) ->
  ~ In c (rank_drone_candidates required_caps preferred_location
            exclude_drone_id all_drones) ->
  In t (rank_drone_candidates required_caps preferred_location
          exclude_drone_id all_drones) ->
  score t >= score c.
Proof. apply top5_keeps_best. Qed.

Ltac not_listed :=
  let H := fresh "H" in
  intros H; vm_compute in H;
  repeat (destruct H as [H | H]; [discriminate H |]); exact H.

Lemma ranked_pilots_keep_best_witness :
  score (pilot_candidate [] "Beginner" None (Pool.pilot "b" "Expert"))
  >= score (pilot_candidate [] "Beginner" None (Pool.pilot "e" "Beginner")).
Proof.
  apply (ranked_pilots_keep_best [] "Beginner" None None Pool.six_pilots).
  - vm_compute. do 4 right. left. reflexivity.
  - not_listed.
  - vm_compute. left. reflexivity.
Defined.

Lemma ranked_drones_keep_best_witness :
  score (drone_candidate ["Thermal"] (Some "pune")
           (Pool.drone "z" ["Thermal"; "LiDAR"; "RGB"] "Pune"))
  >= score (drone_candidate ["Thermal"] (Some "pune")
              (Pool.drone "y" [] "Goa")).
Proof.
  apply (ranked_drones_keep_best ["Thermal"] (Some "pune") None
           Pool.six_drones).
  - vm_compute. do 4 right. left. reflexivity.
  - not_listed.
  - vm_compute. left. reflexivity.
Defined.

(** ** Drone candidates *)

Lemma drone_kept_spec (exclude_drone_id : option string) (drone : Drone) :
  drone_kept exclude_drone_id drone = true
  <-> drone_status drone = "Available"
      /\ exclude_drone_id <> Some (drone_id drone).
Proof.
  unfold drone_kept, is_excluded, DroneStatus.AVAILABLE.
  rewrite andb_true_iff, negb_true_iff, String.eqb_eq.
  destruct exclude_drone_id as [e |].
  - rewrite String.eqb_neq. split; intros [H1 H2]; split; auto; congruence.
  - split; intros [H1 H2]; split; auto; discriminate.
Qed.

Lemma drone_candidate_spec (required_caps : list string)
    (preferred_location : option string) (drone : Drone) :
  drone_candidate required_caps preferred_location drone
  = {| record := drone;
       score := spec_drone_score required_caps preferred_location drone;
       issues := spec_drone_issues required_caps preferred_location drone;
       recommended :=
         match spec_drone_issues required_caps preferred_location drone with
         | [] => true
         | _ => false
         end |}.
Proof.
  unfold drone_candidate, spec_drone_score, spec_drone_issues,
    spec_location_given, spec_drone_location_same, location_matches, truthy.
  rewrite non_empty_missing.
  fold (spec_all_capable required_caps drone).
  unfold missing, get_default, fmt.
  destruct (spec_all_capable required_caps drone);
    destruct preferred_location as [pl |];
    try destruct (String.eqb pl "");
    try destruct (String.eqb (lower (drone_location drone)) (lower pl));
    cbn [app List.length Nat.eqb negb andb]; f_equal; lia.
Qed.

Lemma spec_drone_issues_nil (required_caps : list string)
    (preferred_location : option string) (drone : Drone) :
  spec_drone_issues required_caps preferred_location drone = []
  <-> (forall cap, In cap required_caps -> In cap (capabilities drone))
      /\ (forall pl, preferred_location = Some pl -> pl <> "" ->
                     lower (drone_location drone) = lower pl).
Proof.
  unfold spec_drone_issues, spec_all_capable, spec_location_given,
    spec_drone_location_same, get_default.
  rewrite app_nil_iff.
  assert (Hall : forallb (fun cap => mem cap (capabilities drone))
                   required_caps = true
                 <-> forall cap, In cap required_caps ->
                                 In cap (capabilities drone)).
  { rewrite forallb_forall. split; intros H x Hx; apply mem_In, H, Hx. }
  destruct (forallb (fun cap => mem cap (capabilities drone)) required_caps).
  - destruct preferred_location as [pl |]; cbn [negb andb].
    + destruct (String.eqb_spec pl "") as [-> | Hne]; cbn [negb andb].
      * split; [| split; reflexivity]. intros _. split; [apply Hall; reflexivity |].
        intros pl' Hpl Hne. inversion Hpl; subst. contradiction.
      * destruct (String.eqb_spec (lower (drone_location drone)) (lower pl))
          as [Heq | Hdiff]; cbn [negb].
        -- split; [| split; reflexivity]. intros _.
           split; [apply Hall; reflexivity |].
           intros pl' Hpl _. inversion Hpl; subst. assumption.
        -- split; [intros [_ H]; discriminate |].
           intros [_ H]. exfalso. apply Hdiff. apply (H pl); auto.
    + split; [| split; reflexivity]. intros _. split; [apply Hall; reflexivity |].
      intros pl' Hpl. discriminate.
  - split; [intros [H _]; discriminate |].
    intros [H _]. apply Hall in H. discriminate.
Qed.

(** Every entry that [rank_drone_candidates] returns belongs to a drone of
    the pool whose status is Available and whose id is not the excluded one;
    its score is 40 if no required capability is missing, plus 30 if a
    preferred location is given and equals the drone's location up to letter
    case, plus twice the number of the drone's capabilities; and it is
    recommended exactly when no required capability is missing and the
    preferred location, if one is given, is the drone's. *)
Theorem ranked_drone_score_and_recommendation (required_caps : list string)
    (preferred_location exclude_drone_id : option string)
    (all_drones : list Drone) (c : Candidate Drone) :
  In c (rank_drone_candidates required_caps preferred_location
          exclude_drone_id all_drones) ->
  exists drone,
    In drone all_drones
    /\ drone_status drone = "Available"
    /\ exclude_drone_id <> Some (drone_id drone)
    /\ record c = drone
    /\ score c = spec_drone_score required_caps preferred_location drone
    /\ issues c = spec_drone_issues required_caps preferred_location drone
    /\ (recommended c = true <-> issues c = [])
    /\ (recommended c = true
        <-> (forall cap, In cap required_caps ->
                         In cap (capabilities drone))
            /\ (forall pl, preferred_location = Some pl -> pl <> "" ->
                           lower (drone_location drone) = lower pl)).
Proof.
  unfold rank_drone_candidates, drone_candidates. intros Hc.
  apply In_firstn, sort_desc_In, in_map_iff in Hc.
  destruct Hc as (drone & <- & Hd). apply filter_In in Hd.
  destruct Hd as [Hin Hkept]. apply drone_kept_spec in Hkept.
  destruct Hkept as [Hst Hex].
  exists drone. rewrite drone_candidate_spec. simpl.
  assert (Hrec : match spec_drone_issues required_caps preferred_location
                         drone with
                 | [] => true
                 | _ => false
                 end = true
                 <-> spec_drone_issues required_caps preferred_location drone
                     = []).
  { destruct (spec_drone_issues _ _ drone); split; intros H;
      try reflexivity; discriminate. }
  do 3 (split; [assumption |]). do 3 (split; [reflexivity |]).
  split; [exact Hrec |].
  rewrite <- spec_drone_issues_nil. exact Hrec.
Qed.

Lemma ranked_drone_score_and_recommendation_witness :
  exists drone,
    In drone Pool.six_drones
    /\ drone_status drone = "Available"
    /\ None <> Some (drone_id drone)
    /\ Pool.drone "z" ["Thermal"; "LiDAR"; "RGB"] "Pune" = drone
    /\ 76 = spec_drone_score ["Thermal"] (Some "pune") drone
    /\ [] = spec_drone_issues ["Thermal"] (Some "pune") drone
    /\ (true = true <-> @nil string = [])
    /\ (true = true
        <-> (forall cap, In cap ["Thermal"] -> In cap (capabilities drone))
            /\ (forall pl, Some "pune" = Some pl -> pl <> "" ->
                           lower (drone_location drone) = lower pl)).
Proof.
  apply (ranked_drone_score_and_recommendation
           ["Thermal"] (Some "pune") None Pool.six_drones
           {| record := Pool.drone "z" ["Thermal"; "LiDAR"; "RGB"] "Pune";
              score := 76; issues := []; recommended := true |}).
  vm_compute. left. reflexivity.
Defined.

(* ===================================================================== *)
(** * Properties of the replacement tools *)
(* ===================================================================== *)

(** What the arguments give takes precedence over the project; the project
    fills in the certifications and the location that the arguments leave
    out, but not the skill level: when the key is absent the required level
    is Intermediate, whatever the project requires.  The candidates are
    ranked against the requirements so resolved. *)
Theorem replacement_requirements_resolved (projects : list Project)
    (all_pilots : list Pilot) (arguments : Args) :
  let r := _find_replacement_pilot projects all_pilots arguments in
  (arg_required_skill_level arguments = None ->
   pr_required_skill_level r = "Intermediate")
  /\ (forall s, arg_required_skill_level arguments = Some s -> s <> "" ->
                pr_required_skill_level r = s)
  /\ (forall certs, arg_required_certifications arguments = Some certs ->
                    certs <> [] -> pr_required_certifications r = certs)
  /\ (forall loc, arg_preferred_location arguments = Some loc -> loc <> "" ->
                  pr_preferred_location r = Some loc)
  /\ (forall p, find_project projects (arg_project_id arguments) = Some p ->
        (get_default (arg_required_certifications arguments) [] = [] ->
         pr_required_certifications r = required_certifications p)
        /\ (truthy (arg_preferred_location arguments) = false ->
            pr_preferred_location r = Some (location p)))
  /\ pr_candidates r
     = rank_pilot_candidates (pr_required_certifications r)
         (pr_required_skill_level r) (pr_preferred_location r)
         (arg_exclude_pilot_id arguments) all_pilots.
Proof.
  intros r. subst r. unfold _find_replacement_pilot. simpl.
  destruct (find_project projects (arg_project_id arguments)) as [p |].
  - split; [intros ->; reflexivity |].
    split; [intros s -> Hs; simpl;
            destruct (String.eqb_spec s ""); [contradiction | reflexivity] |].
    split; [intros certs -> Hc; simpl;
            destruct certs; [contradiction | reflexivity] |].
    split; [intros loc -> Hl; simpl;
            destruct (String.eqb_spec loc ""); [contradiction | reflexivity]
           |].
    split; [| reflexivity].
    intros p' Hp. inversion Hp; subst p'. split.
    + intros ->. reflexivity.
    + intros ->. reflexivity.
  - split; [intros ->; reflexivity |].
    split; [intros s -> _; reflexivity |].
    split; [intros certs -> _; reflexivity |].
    split; [intros loc -> _; reflexivity |].
    split; [discriminate | reflexivity].
Qed.

(** ** Executing a reassignment *)

Lemma parse_if_given_ok (v : option string) :
  (exists d, parse_if_given v = Ok d) <-> date_accepted v.
Proof.
  unfold parse_if_given, date_accepted. destruct (truthy v).
  - split.
    + intros (d & H). right. destruct (strptime_date v); [eauto |].
      discriminate.
    + intros [H | (d & ->)]; [discriminate | simpl; eauto].
  - split; eauto.
Qed.

(** What [_execute_reassignment] reports does not depend on the record
    provider: the outcome of the update calls is not read, and success is
    reported exactly when the start and end dates, if a new pilot or a new
    drone is named, are absent, empty or parse. *)
Theorem reassignment_report_ignores_provider (Store1 Store2 : Type)
    (update_pilot1 update_drone1 :
       string -> string -> option string -> option date -> option date ->
       Store1 -> bool * Store1)
    (update_pilot2 update_drone2 :
       string -> string -> option string -> option date -> option date ->
       Store2 -> bool * Store2)
    (arguments : ReassignArgs) (store1 : Store1) (store2 : Store2) :
  fst (_execute_reassignment update_pilot1 update_drone1 arguments store1)
  = fst (_execute_reassignment update_pilot2 update_drone2 arguments store2)
  /\ (rr_success
        (fst (_execute_reassignment update_pilot1 update_drone1 arguments
                store1)) = true
      <-> (truthy (ra_new_pilot_id arguments) = true
           \/ truthy (ra_new_drone_id arguments) = true ->
           date_accepted (ra_start_date arguments)
           /\ date_accepted (ra_end_date arguments))).
Proof.
  split.
  - unfold _execute_reassignment, release_pilot, assign_pilot,
      release_drone, deploy_drone, failed.
    destruct (truthy (ra_old_pilot_id arguments)),
      (truthy (ra_new_pilot_id arguments)),
      (truthy (ra_old_drone_id arguments)),
      (truthy (ra_new_drone_id arguments)),
      (parse_if_given (ra_start_date arguments)),
      (parse_if_given (ra_end_date arguments)); reflexivity.
  - rewrite <- !parse_if_given_ok.
    unfold _execute_reassignment, release_pilot, assign_pilot,
      release_drone, deploy_drone, failed.
    destruct (truthy (ra_old_pilot_id arguments)),
      (truthy (ra_new_pilot_id arguments)),
      (truthy (ra_old_drone_id arguments)),
      (truthy (ra_new_drone_id arguments)),
      (parse_if_given (ra_start_date arguments)) as [ds | es],
      (parse_if_given (ra_end_date arguments)) as [de | ee];
      simpl; split; intros H;
      first
        [ reflexivity
        | discriminate H
        | intros [X | X]; discriminate X
        | intros _; split; eauto
        | exfalso;
          assert (HP : true = true \/ true = true) by (left; reflexivity);
          destruct (H HP) as [(d1 & H1) (d2 & H2)];
          first [discriminate H1 | discriminate H2]
        | exfalso;
          assert (HP : true = true \/ false = true) by (left; reflexivity);
          destruct (H HP) as [(d1 & H1) (d2 & H2)];
          first [discriminate H1 | discriminate H2]
        | exfalso;
          assert (HP : false = true \/ true = true) by (right; reflexivity);
          destruct (H HP) as [(d1 & H1) (d2 & H2)];
          first [discriminate H1 | discriminate H2] ].
Qed.

(** A reassignment is not all-or-nothing: when an old and a new pilot are
    named and a date does not parse, the old pilot has already been released
    when the failure is reported; the update that releases it is the only
    one made, and the report lists it among the actions with success false
    and no reason. *)
Theorem failed_reassignment_keeps_release (Store : Type)
    (update_pilot_status update_drone_status :
       string -> string -> option string -> option date -> option date ->
       Store -> bool * Store)
    (arguments : ReassignArgs) (store : Store) :
  truthy (ra_old_pilot_id arguments) = true ->
  truthy (ra_new_pilot_id arguments) = true ->
  ~ (date_accepted (ra_start_date arguments)
     /\ date_accepted (ra_end_date arguments)) ->
  let out :=
    _execute_reassignment update_pilot_status update_drone_status arguments
      store in
  rr_success (fst out) = false
  /\ rr_actions (fst out)
     = [("Released pilot " ++ fmt (ra_old_pilot_id arguments)
         ++ " from assignment")%string]
  /\ rr_reason (fst out) = None
  /\ rr_error (fst out) = Some ValueError
  /\ snd out
     = snd (update_pilot_status (fmt (ra_old_pilot_id arguments))
              "Available" None None None store).
Proof.
  intros Hold Hnew Hbad out. subst out.
  rewrite <- !parse_if_given_ok in Hbad.
  unfold _execute_reassignment, release_pilot, assign_pilot, failed.
  rewrite Hold, Hnew. cbn [fst snd app].
  assert (Hexn : forall v e, parse_if_given v = Raise e -> e = ValueError).
  { intros v e. unfold parse_if_given, strptime_date, truthy.
    destruct v as [s |]; [| discriminate].
    destruct (negb (String.eqb s "")); [| discriminate].
    destruct (strptime s); simpl; intros H; inversion H. reflexivity. }
  destruct (parse_if_given (ra_start_date arguments)) as [ds | es] eqn:Es.
  - destruct (parse_if_given (ra_end_date arguments)) as [de | ee] eqn:Ee.
    + exfalso. apply Hbad. split; eauto.
    + simpl. rewrite (Hexn _ _ Ee). repeat split; reflexivity.
  - simpl. rewrite (Hexn _ _ Es). repeat split; reflexivity.
Qed.

Lemma failed_reassignment_keeps_release_witness :
  let out :=
    _execute_reassignment Ledger.update Ledger.update
      Ledger.swap_with_bad_date [] in
  rr_success (fst out) = false
  /\ rr_actions (fst out) = ["Released pilot P001 from assignment"]
  /\ rr_reason (fst out) = None
  /\ rr_error (fst out) = Some ValueError
  /\ snd out = [("P001", "Available")].
Proof.
  apply (failed_reassignment_keeps_release Ledger.Store Ledger.update
           Ledger.update Ledger.swap_with_bad_date []).
  - reflexivity.
  - reflexivity.
  - intros [[H | (d & H)] _]; discriminate H.
Defined.

(* ===================================================================== *)
(** * Properties of the record provider *)
(* ===================================================================== *)

(** ** Dates written and read back *)

Local Abbreviation dc n := (ascii_of_nat (48 + Nat.modulo n 10)).

Lemma digit_val_dc (n : nat) : digit_val (dc n) = Some (n mod 10)%nat.
Proof.
  assert (H : (n mod 10 < 10)%nat) by (apply Nat.mod_upper_bound; lia).
  revert H. generalize (n mod 10)%nat. intros k Hk.
  do 10 (destruct k as [| k]; [reflexivity |]). lia.
Qed.

Lemma in_range_dc (n : nat) : in_range 0 9 (dc n) = true.
Proof.
  unfold in_range. rewrite digit_val_dc.
  assert (H : (n mod 10 < 10)%nat) by (apply Nat.mod_upper_bound; lia).
  apply andb_true_iff. split; apply Nat.leb_le; lia.
Qed.

Lemma val_dc (n : nat) : val (dc n) = (n mod 10)%nat.
Proof. unfold val. rewrite digit_val_dc. reflexivity. Qed.

Lemma is_space_dc (n : nat) : is_space (dc n) = false.
Proof.
  assert (H : (n mod 10 < 10)%nat) by (apply Nat.mod_upper_bound; lia).
  revert H. generalize (n mod 10)%nat. intros k Hk.
  do 10 (destruct k as [| k]; [reflexivity |]). lia.
Qed.

Lemma four_digits (y : nat) :
  Z.of_nat y <= 9999 ->
  ((y / 1000) mod 10 * 1000 + (y / 100) mod 10 * 100 + (y / 10) mod 10 * 10
   + y mod 10 = y)%nat.
Proof.
  intros H.
  assert (E1 : (y mod (10 * 1000) = y mod 10 + 10 * ((y / 10) mod 1000))%nat)
    by apply Nat.Div0.mod_mul_r.
  assert (E2 : ((y / 10) mod (10 * 100)
                = (y / 10) mod 10 + 10 * ((y / 10 / 10) mod 100))%nat)
    by apply Nat.Div0.mod_mul_r.
  assert (E3 : ((y / 10 / 10) mod (10 * 10)
                = (y / 10 / 10) mod 10
                  + 10 * ((y / 10 / 10 / 10) mod 10))%nat)
    by apply Nat.Div0.mod_mul_r.
  rewrite !Nat.Div0.div_div in E2, E3.
  change (10 * 10)%nat with 100%nat in *.
  change (100 * 10)%nat with 1000%nat in *.
  change (10 * 100)%nat with 1000%nat in *.
  assert (E4 : (y / 100 / 10 = y / 1000)%nat)
    by (rewrite Nat.Div0.div_div; reflexivity).
  rewrite ?E4 in E3.
  assert (E0 : (y mod (10 * 1000) = y)%nat).
  { apply Nat.mod_small. apply Nat2Z.inj_lt. rewrite Nat2Z.inj_mul.
    simpl. lia. }
  lia.
Qed.

Lemma isoformat_chars (d : date) :
  list_ascii_of_string (isoformat d)
  = [dc (year d / 1000); dc (year d / 100); dc (year d / 10); dc (year d);
     dash; dc (month d / 10); dc (month d); dash;
     dc (day d / 10); dc (day d)].
Proof. destruct d. reflexivity. Qed.

Lemma match_year_digits (y : nat) (rest : list ascii) :
  Z.of_nat y <= 9999 ->
  match_year (dc (y / 1000) :: dc (y / 100) :: dc (y / 10) :: dc y :: rest)
  = Some (y, rest).
Proof.
  intros H. unfold match_year. rewrite !in_range_dc, !val_dc.
  cbn [andb]. rewrite (four_digits y H). reflexivity.
Qed.

Lemma match_month_dash_digits (m : nat) (rest : list ascii) :
  (1 <= m <= 12)%nat ->
  match_month_dash (dc (m / 10) :: dc m :: dash :: rest) = Some (m, rest).
Proof.
  intros H.
  do 13 (destruct m as [| m]; [try lia; reflexivity |]). lia.
Qed.

Lemma match_day_digits (d : nat) :
  (1 <= d <= 31)%nat ->
  match_day [dc (d / 10); dc d] = Some (d, []).
Proof.
  intros H.
  do 32 (destruct d as [| d]; [try lia; reflexivity |]). lia.
Qed.

Lemma days_in_month_le_31 (y m : nat) : (days_in_month y m <= 31)%nat.
Proof.
  unfold days_in_month.
  do 12 (destruct m as [| m]; [try destruct (is_leap y); lia |]). lia.
Qed.

(** The rules read back the dates that the provider writes: for a day of the
    calendar, [strptime] applied to its ISO text gives the day back. *)
Lemma strptime_isoformat (d : date) :
  valid_date d -> strptime (isoformat d) = Some d.
Proof.
  intros (Hy & Hm & Hd). unfold strptime. rewrite isoformat_chars.
  rewrite match_year_digits by lia.
  change (Ascii.eqb dash dash) with true. cbv iota.
  rewrite match_month_dash_digits by assumption.
  pose proof (days_in_month_le_31 (year d) (month d)) as H31.
  rewrite match_day_digits by lia.
  assert (H1 : (1 <=? year d)%nat = true) by (apply Nat.leb_le; lia).
  assert (H2 : (day d <=? days_in_month (year d) (month d))%nat = true)
    by (apply Nat.leb_le; lia).
  rewrite H1, H2. destruct d. reflexivity.
Qed.

Lemma alternatives_DY_digits (y : nat) (rest : list ascii) :
  Z.of_nat y <= 9999 ->
  alternatives DY
    (dc (y / 1000) :: dc (y / 100) :: dc (y / 10) :: dc y :: rest)
  = [(y, rest)].
Proof.
  intros H. unfold alternatives. rewrite !in_range_dc, !val_dc.
  cbn [andb]. rewrite (four_digits y H). reflexivity.
Qed.

Lemma matches_month_day (m d : nat) :
  (1 <= m <= 12)%nat -> (1 <= d <= 31)%nat ->
  exists more,
    matches [Dm; Lit dash; Dd]
      [dc (m / 10); dc m; dash; dc (d / 10); dc d]
    = ({| f_year := None; f_month := Some m; f_day := Some d |}, [])
      :: more.
Proof.
  intros Hm Hd.
  assert (Hm' : In m (seq 1 12)) by (apply in_seq; lia).
  assert (Hd' : In d (seq 1 31)) by (apply in_seq; lia).
  clear Hm Hd. simpl in Hm', Hd'.
  repeat (destruct Hm' as [<- | Hm'];
          [repeat (destruct Hd' as [<- | Hd'];
                   [eexists; vm_compute; reflexivity |]);
           contradiction |]).
  contradiction.
Qed.

Lemma strptime_fmt_isoformat (d : date) :
  valid_date d -> strptime_fmt fmt_iso (isoformat d) = Some d.
Proof.
  intros (Hy & Hm & Hd). unfold strptime_fmt, fmt_iso.
  rewrite isoformat_chars.
  pose proof (days_in_month_le_31 (year d) (month d)) as H31.
  destruct (matches_month_day (month d) (day d)) as (more & Hmore);
    [assumption | lia |].
  change (matches [DY; Lit dash; Dm; Lit dash; Dd]
            [dc (year d / 1000); dc (year d / 100); dc (year d / 10);
             dc (year d); dash; dc (month d / 10); dc (month d); dash;
             dc (day d / 10); dc (day d)])
    with (flat_map
            (fun '(v, rest) =>
               map (fun '(f, rest') => (record_field DY v f, rest'))
                   (matches [Lit dash; Dm; Lit dash; Dd] rest))
            (alternatives DY
               (dc (year d / 1000) :: dc (year d / 100) :: dc (year d / 10)
                :: dc (year d)
                :: [dash; dc (month d / 10); dc (month d); dash;
                    dc (day d / 10); dc (day d)]))).
  rewrite alternatives_DY_digits by lia. cbn [flat_map].
  change (matches [Lit dash; Dm; Lit dash; Dd]
            [dash; dc (month d / 10); dc (month d); dash; dc (day d / 10);
             dc (day d)])
    with (map (fun '(f, rest') => (record_field (Lit dash) 0%nat f, rest'))
              (matches [Dm; Lit dash; Dd]
                 [dc (month d / 10); dc (month d); dash; dc (day d / 10);
                  dc (day d)]) ++ []).
  rewrite Hmore. cbn [map app record_field].
  unfold date_of_fields. cbn [f_year f_month f_day].
  assert (H1 : (1 <=? year d)%nat = true) by (apply Nat.leb_le; lia).
  assert (H2 : (1 <=? month d)%nat = true) by (apply Nat.leb_le; lia).
  assert (H3 : (month d <=? 12)%nat = true) by (apply Nat.leb_le; lia).
  assert (H4 : (1 <=? day d)%nat = true) by (apply Nat.leb_le; lia).
  assert (H5 : (day d <=? days_in_month (year d) (month d))%nat = true)
    by (apply Nat.leb_le; lia).
  rewrite H1, H2, H3, H4, H5. destruct d. reflexivity.
Qed.

Lemma strip_isoformat (d : date) : strip (isoformat d) = isoformat d.
Proof.
  unfold strip.
  rewrite <- (string_of_list_ascii_of_string (isoformat d)) at 2.
  f_equal. rewrite isoformat_chars. unfold strip_chars.
  cbn [lstrip]. rewrite is_space_dc. cbn [rev app lstrip].
  rewrite is_space_dc. reflexivity.
Qed.

(** An ISO date written by [isoformat] is read back unchanged, by
    [_parse_date] and by the [strptime] call of the conflict rules. *)
Theorem iso_dates_read_back (d : date) :
  valid_date d ->
  _parse_date (Some (isoformat d)) = Some d
  /\ strptime_date (Some (isoformat d)) = Ok d.
Proof.
  intros Hd. split.
  - unfold _parse_date, fmt.
    assert (Ht : truthy (Some (isoformat d)) = true)
      by (destruct d; reflexivity).
    rewrite Ht, strip_isoformat. unfold formats, first_format.
    rewrite (strptime_fmt_isoformat d Hd). reflexivity.
  - unfold strptime_date. rewrite (strptime_isoformat d Hd). reflexivity.
Qed.

Lemma iso_dates_read_back_witness :
  _parse_date (Some (isoformat (mkDate 2024 2 29)))
  = Some (mkDate 2024 2 29)
  /\ strptime_date (Some (isoformat (mkDate 2024 2 29)))
     = Ok (mkDate 2024 2 29).
Proof.
  apply (iso_dates_read_back (mkDate 2024 2 29)).
  unfold valid_date. simpl. lia.
Defined.

(** ** The dates that [_parse_date] returns *)

Lemma val_le_9 (c : ascii) : (val c <= 9)%nat.
Proof.
  unfold val, digit_val.
  destruct ((48 <=? nat_of_ascii c)%nat && (nat_of_ascii c <=? 57)%nat)
    eqn:E; [| lia].
  apply andb_true_iff in E. destruct E as [E1 E2].
  apply Nat.leb_le in E1, E2. lia.
Qed.

Lemma matches_inv (d : directive) (ds : list directive) (cs : list ascii)
    (f : fields) (r : list ascii) :
  In (f, r) (matches (d :: ds) cs) ->
  exists v rest f',
    In (v, rest) (alternatives d cs)
    /\ In (f', r) (matches ds rest)
    /\ f = record_field d v f'.
Proof.
  cbn [matches]. intros H. apply in_flat_map in H.
  destruct H as ((v & rest) & Hv & H). apply in_map_iff in H.
  destruct H as ((f' & r') & Heq & Hf). inversion Heq; subst.
  exists v, rest, f'. auto.
Qed.

Lemma matches_year_bound (fmt : list directive) (cs : list ascii)
    (f : fields) (r : list ascii) (y : nat) :
  In (f, r) (matches fmt cs) -> f_year f = Some y -> Z.of_nat y <= 9999.
Proof.
  revert cs f r y. induction fmt as [| d ds IH]; intros cs f r y H Hy.
  - destruct H as [H | []]. inversion H; subst. discriminate.
  - apply matches_inv in H.
    destruct H as (v & rest & f' & Hv & Hf & ->).
    destruct d; cbn [record_field f_year] in Hy;
      try (eapply IH; eassumption).
    + inversion Hy; subst y. cbn [alternatives] in Hv.
      destruct cs as [| a [| b [| c [| e cs']]]]; try contradiction.
      destruct (in_range 0 9 a && in_range 0 9 b && in_range 0 9 c
                && in_range 0 9 e); [| contradiction].
      destruct Hv as [Hv | []]. inversion Hv; subst.
      pose proof (val_le_9 a). pose proof (val_le_9 b).
      pose proof (val_le_9 c). pose proof (val_le_9 e). lia.
    + inversion Hy; subst y. cbn [alternatives] in Hv.
      destruct cs as [| a [| b cs']]; try contradiction.
      destruct (in_range 0 9 a && in_range 0 9 b); [| contradiction].
      destruct Hv as [Hv | []]. inversion Hv; subst.
      pose proof (val_le_9 a). pose proof (val_le_9 b).
      destruct (Nat.leb_spec (val a * 10 + val b) 68); lia.
Qed.

Lemma date_of_fields_valid (f : fields) (d : date) :
  (forall y, f_year f = Some y -> Z.of_nat y <= 9999) ->
  date_of_fields f = Some d -> valid_date d.
Proof.
  unfold date_of_fields, valid_date. intros Hy H.
  destruct (f_year f) as [y |]; [| discriminate].
  destruct (f_month f) as [m |]; [| discriminate].
  destruct (f_day f) as [dd |]; [| discriminate].
  destruct ((1 <=? y)%nat && (1 <=? m)%nat && (m <=? 12)%nat
            && (1 <=? dd)%nat && (dd <=? days_in_month y m)%nat) eqn:E;
    [| discriminate].
  inversion H; subst. cbn [year month day].
  repeat (apply andb_true_iff in E; destruct E as [E ?]).
  repeat match goal with
         | Hx : (_ <=? _)%nat = true |- _ => apply Nat.leb_le in Hx
         end.
  specialize (Hy y eq_refl). lia.
Qed.

Lemma strptime_fmt_valid (fmt : list directive) (s : string) (d : date) :
  strptime_fmt fmt s = Some d -> valid_date d.
Proof.
  unfold strptime_fmt.
  destruct (matches fmt (list_ascii_of_string s)) as [| (f & r) more] eqn:E;
    [discriminate |].
  destruct r; [| discriminate].
  apply date_of_fields_valid. intros y Hy.
  apply (matches_year_bound fmt (list_ascii_of_string s) f [] y); [| exact Hy].
  rewrite E. left. reflexivity.
Qed.

Lemma parsed_dates_valid_only (value : cell) (d : date) :
  _parse_date value = Some d -> valid_date d.
Proof.
  intros H. unfold _parse_date in H.
  destruct (truthy value); [| discriminate].
  revert H. generalize (strip (fmt value)). intros s.
  unfold formats, first_format.
  repeat match goal with
         | |- context [strptime_fmt ?f s] =>
             let E := fresh "E" in
             destruct (strptime_fmt f s) eqn:E;
             [intros H; inversion H; subst;
              eapply strptime_fmt_valid; eassumption |]
         end.
  discriminate.
Qed.

(** Whatever text it is given, [_parse_date] returns nothing or a day of the
    calendar with a year from 1 to 9999; so what it returns is written by
    [isoformat] as text that [strptime] reads back. *)
Theorem parsed_dates_are_valid (value : cell) (d : date) :
  _parse_date value = Some d ->
  valid_date d /\ strptime_date (Some (isoformat d)) = Ok d.
Proof.
  intros H. pose proof (parsed_dates_valid_only value d H) as Hv.
  split; [exact Hv |].
  unfold strptime_date. rewrite (strptime_isoformat d Hv). reflexivity.
Qed.

Lemma parsed_dates_are_valid_witness :
  valid_date (mkDate 2026 2 13)
  /\ strptime_date (Some (isoformat (mkDate 2026 2 13)))
     = Ok (mkDate 2026 2 13).
Proof.
  apply (parsed_dates_are_valid (Some " 13/2/26 ")). reflexivity.
Defined.

(** ** Rows read into records *)

Lemma obind_some {A B : Type} (o : option A) (k : A -> option B) (b : B) :
  obind o k = Some b -> exists a, o = Some a /\ k a = Some b.
Proof. destruct o as [a |]; simpl; [eauto | discriminate]. Qed.

Ltac obind_inv H :=
  let a := fresh "x" in
  let Ha := fresh "Hx" in
  apply obind_some in H; destruct H as (a & Ha & H).

Lemma split_labels_non_empty (s x : string) :
  In x (split_labels s) -> x <> "".
Proof.
  unfold split_labels. rewrite filter_In, negb_true_iff, String.eqb_neq.
  tauto.
Qed.

Lemma assignment_of_some (raw a : string) :
  assignment_of raw = Some a ->
  a = strip raw /\ a <> "" /\ a <> "-" /\ a <> en_dash.
Proof.
  unfold assignment_of.
  destruct (mem (strip raw) [en_dash; "-"; ""]) eqn:E; [discriminate |].
  intros H. inversion H; subst. split; [reflexivity |].
  assert (Hn : ~ In (strip raw) [en_dash; "-"; ""]).
  { intros Hin. apply mem_In in Hin. congruence. }
  simpl in Hn. repeat split; intros Heq; apply Hn; rewrite Heq; auto.
Qed.

Lemma pilot_status_of_known (s : string) :
  In (pilot_status_of s) ["Available"; "Assigned"; "On Leave"; "Unavailable"]
  /\ (~ In s ["Available"; "Assigned"; "On Leave"; "Unavailable"] ->
      pilot_status_of s = "Available")
  /\ (In s ["Available"; "Assigned"; "On Leave"; "Unavailable"] ->
      pilot_status_of s = s).
Proof.
  unfold pilot_status_of, PilotStatus.AVAILABLE, PilotStatus.ASSIGNED,
    PilotStatus.ON_LEAVE, PilotStatus.UNAVAILABLE.
  destruct (String.eqb_spec s "Available") as [-> | H1];
    [simpl; intuition |].
  destruct (String.eqb_spec s "Assigned") as [-> | H2];
    [simpl; intuition |].
  destruct (String.eqb_spec s "On Leave") as [-> | H3];
    [simpl; intuition |].
  destruct (String.eqb_spec s "Unavailable") as [-> | H4];
    [simpl; intuition |].
  simpl. intuition congruence.
Qed.

(** What [_parse_pilot_row] builds: the status is one of the four known
    ones (any other text reads as Available), the skill level is decided by
    the number of skills listed (none Beginner, one Intermediate, two
    Advanced, three or more Expert), an assignment is never blank or a dash,
    no label is empty, a start date is set only for an Assigned pilot and is
    a day of the calendar, and the end date is never set. *)
Theorem parsed_pilot_shape (r : row) (p : PilotRow) :
  _parse_pilot_row r = Some p ->
  let pilot := row_pilot p in
  In (pilot_status pilot) ["Available"; "Assigned"; "On Leave"; "Unavailable"]
  /\ skill_idx (skill_level pilot)
     = Z.of_nat (Nat.min 3 (List.length (drone_experience pilot)))
  /\ (forall a, pilot_assignment pilot = Some a ->
                a <> "" /\ a <> "-" /\ a <> en_dash)
  /\ (forall x, In x (certifications pilot) \/ In x (drone_experience pilot)
                -> x <> "")
  /\ (forall d, pilot_start pilot = Some d ->
                pilot_status pilot = "Assigned" /\ valid_date d)
  /\ pilot_end pilot = None.
Proof.
  unfold _parse_pilot_row. intros H.
  destruct (negb (truthy _) || negb (truthy _)); [discriminate |].
  obind_inv H. obind_inv H. obind_inv H. obind_inv H. obind_inv H.
  inversion H; subst p; clear H. cbn [row_pilot]. 
  cbn [pilot_status skill_level drone_experience pilot_assignment
       certifications pilot_start pilot_end].
  split; [apply pilot_status_of_known |].
  split.
  { destruct (split_labels x) as [| s1 [| s2 [| s3 l]]]; reflexivity. }
  split.
  { intros a Ha. apply assignment_of_some in Ha. tauto. }
  split.
  { intros y [Hy | Hy]; eapply split_labels_non_empty; eassumption. }
  split; [| reflexivity].
  intros d Hd.
  destruct (String.eqb_spec (pilot_status_of (strip x1)) PilotStatus.ASSIGNED)
    as [Heq | Hne]; [| discriminate].
  split; [exact Heq |].
  apply parsed_dates_valid_only in Hd. exact Hd.
Qed.

Lemma parsed_pilot_shape_witness :
  let pilot := row_pilot Sheet.pilot_read in
  In (pilot_status pilot) ["Available"; "Assigned"; "On Leave"; "Unavailable"]
  /\ skill_idx (skill_level pilot)
     = Z.of_nat (Nat.min 3 (List.length (drone_experience pilot)))
  /\ (forall a, pilot_assignment pilot = Some a ->
                a <> "" /\ a <> "-" /\ a <> en_dash)
  /\ (forall x, In x (certifications pilot) \/ In x (drone_experience pilot)
                -> x <> "")
  /\ (forall d, pilot_start pilot = Some d ->
                pilot_status pilot = "Assigned" /\ valid_date d)
  /\ pilot_end pilot = None.
Proof.
  apply (parsed_pilot_shape Sheet.pilot_row Sheet.pilot_read). reflexivity.
Defined.

Lemma get_all_pilots_In (rows : list row) (pilot : Pilot) :
  In pilot (get_all_pilots rows)
  <-> exists r p, In r rows /\ _parse_pilot_row r = Some p
                  /\ pilot = row_pilot p.
Proof.
  unfold get_all_pilots. rewrite in_flat_map. split.
  - intros (r & Hr & Hp).
    destruct (_parse_pilot_row r) as [p |] eqn:E; [| contradiction].
    destruct Hp as [<- | []]. eauto.
  - intros (r & p & Hr & Hp & ->). exists r. rewrite Hp. simpl. auto.
Qed.

Lemma parsed_pilot_no_end (r : row) (p : PilotRow) :
  _parse_pilot_row r = Some p -> pilot_end (row_pilot p) = None.
Proof.
  unfold _parse_pilot_row. intros H.
  destruct (negb (truthy _) || negb (truthy _)); [discriminate |].
  obind_inv H. obind_inv H. obind_inv H. obind_inv H. obind_inv H.
  inversion H; subst p. reflexivity.
Qed.

Lemma parsed_drone_no_dates (r : row) (d : Drone) :
  _parse_drone_row r = Some d -> drone_start d = None /\ drone_end d = None.
Proof.
  unfold _parse_drone_row. intros H.
  destruct (negb (truthy _) || negb (truthy _)); [discriminate |].
  obind_inv H. obind_inv H. obind_inv H. obind_inv H.
  inversion H; subst d. split; reflexivity.
Qed.

Lemma get_all_drones_In (rows : list row) (drone : Drone) :
  In drone (get_all_drones rows)
  <-> exists r, In r rows /\ _parse_drone_row r = Some drone.
Proof.
  unfold get_all_drones. rewrite in_flat_map. split.
  - intros (r & Hr & Hd).
    destruct (_parse_drone_row r) as [d |] eqn:E; [| contradiction].
    destruct Hd as [<- | []]. eauto.
  - intros (r & Hr & Hd). exists r. rewrite Hd. simpl. auto.
Qed.

(** For the rosters that the provider reads, whatever the rows and whatever
    the projects, the two double-booking rules return the empty list: the
    parsers never set an assignment end date, nor, for drones, a start
    date. *)
Theorem provider_rosters_never_double_booked (pilot_rows drone_rows : list row)
    (projects : list Project) :
  _detect_pilot_double_bookings (get_all_pilots pilot_rows) projects = Ok []
  /\ _detect_drone_double_bookings (get_all_drones drone_rows) projects
     = Ok []
  /\ (forall pilot, In pilot (get_all_pilots pilot_rows) ->
                    pilot_end pilot = None)
  /\ (forall drone, In drone (get_all_drones drone_rows) ->
                    drone_start drone = None /\ drone_end drone = None).
Proof.
  assert (Hp : forall pilot, In pilot (get_all_pilots pilot_rows) ->
                             pilot_end pilot = None).
  { intros pilot Hin. apply get_all_pilots_In in Hin.
    destruct Hin as (r & p & _ & Hparse & ->).
    exact (parsed_pilot_no_end r p Hparse). }
  assert (Hd : forall drone, In drone (get_all_drones drone_rows) ->
                             drone_start drone = None
                             /\ drone_end drone = None).
  { intros drone Hin. apply get_all_drones_In in Hin.
    destruct Hin as (r & _ & Hparse).
    exact (parsed_drone_no_dates r drone Hparse). }
  split; [| split; [| split; assumption]].
  - apply for_each_nil. intros pilot Hin. unfold pilot_bookings.
    rewrite (Hp pilot Hin).
    destruct (pilot_assignment pilot), (pilot_start pilot); reflexivity.
  - apply for_each_nil. intros drone Hin. unfold drone_bookings.
    rewrite (proj2 (Hd drone Hin)).
    destruct (drone_assignment drone), (drone_start drone); reflexivity.
Qed.

Lemma drone_status_of_known (s : string) :
  In (drone_status_of s)
     ["Available"; "Deployed"; "Maintenance"; "Unavailable"].
Proof.
  unfold drone_status_of, DroneStatus.AVAILABLE, DroneStatus.DEPLOYED,
    DroneStatus.MAINTENANCE, DroneStatus.UNAVAILABLE.
  repeat match goal with
         | |- context [String.eqb ?a ?b] => destruct (String.eqb a b)
         end; simpl; auto.
Qed.

(** What [_parse_drone_row] builds: the status is one of the four known
    ones, an assignment is never blank or a dash, no capability is empty,
    the next maintenance date, if any, is a day of the calendar, and no
    assignment date is ever set. *)
Theorem parsed_drone_shape (r : row) (d : Drone) :
  _parse_drone_row r = Some d ->
  In (drone_status d) ["Available"; "Deployed"; "Maintenance"; "Unavailable"]
  /\ (forall a, drone_assignment d = Some a ->
                a <> "" /\ a <> "-" /\ a <> en_dash)
  /\ (forall x, In x (capabilities d) -> x <> "")
  /\ (forall due, next_maintenance_date d = Some due -> valid_date due)
  /\ drone_start d = None /\ drone_end d = None.
Proof.
  unfold _parse_drone_row. intros H.
  destruct (negb (truthy _) || negb (truthy _)); [discriminate |].
  obind_inv H. obind_inv H. obind_inv H. obind_inv H.
  inversion H; subst d; clear H.
  cbn [drone_status drone_assignment capabilities next_maintenance_date
       drone_start drone_end].
  split; [apply drone_status_of_known |].
  split; [intros a Ha; apply assignment_of_some in Ha; tauto |].
  split; [intros y Hy; eapply split_labels_non_empty; eassumption |].
  split; [intros due Hdue; eapply parsed_dates_valid_only; eassumption |].
  split; reflexivity.
Qed.

Lemma parsed_drone_shape_witness :
  In (drone_status Sheet.drone_read)
     ["Available"; "Deployed"; "Maintenance"; "Unavailable"]
  /\ (forall a, drone_assignment Sheet.drone_read = Some a ->
                a <> "" /\ a <> "-" /\ a <> en_dash)
  /\ (forall x, In x (capabilities Sheet.drone_read) -> x <> "")
  /\ (forall due, next_maintenance_date Sheet.drone_read = Some due ->
                  valid_date due)
  /\ drone_start Sheet.drone_read = None
  /\ drone_end Sheet.drone_read = None.
Proof.
  apply (parsed_drone_shape Sheet.drone_row Sheet.drone_read). reflexivity.
Defined.

Lemma date_ltb_false (a b : date) : date_ltb a b = false <-> date_le b a.
Proof. unfold date_ltb, date_le. apply negb_false_iff. Qed.

Lemma stored_date_reads_back (value : cell) (s : string) :
  option_map isoformat (_parse_date value) = Some s ->
  exists d, _parse_date value = Some d /\ valid_date d /\ s = isoformat d
            /\ strptime_date (Some s) = Ok d.
Proof.
  destruct (_parse_date value) as [d |] eqn:E; [| discriminate].
  cbn [option_map]. intros H. inversion H; subst s.
  pose proof (parsed_dates_valid_only value d E) as Hv.
  exists d. split; [reflexivity |]. split; [assumption |].
  split; [reflexivity |].
  unfold strptime_date. rewrite (strptime_isoformat d Hv). reflexivity.
Qed.

(** What [_parse_project_row] builds: nobody is assigned; the required skill
    level is Advanced or Intermediate; a stored date is the ISO text of a
    day of the calendar, which the rules' [strptime] reads back; the status
    is Pending Assignment exactly when a date is missing, and Active exactly
    when both dates are there and today lies between them, ends included. *)
Theorem parsed_project_shape (today : date) (r : row) (p : ProjectDict) :
  _parse_project_row today r = Some p ->
  let project := pd_project p in
  assigned_pilots project = [] /\ assigned_drones project = []
  /\ (required_skill_level project = Some "Advanced"
      \/ required_skill_level project = Some "Intermediate")
  /\ (forall s, start_date project = Some s \/ end_date project = Some s ->
                exists d, valid_date d /\ s = isoformat d
                          /\ strptime_date (Some s) = Ok d)
  /\ (pd_status p = "Pending Assignment"
      <-> start_date project = None \/ end_date project = None)
  /\ (pd_status p = "Active"
      <-> exists s e,
            strptime_date (start_date project) = Ok s
            /\ strptime_date (end_date project) = Ok e
            /\ date_le s today /\ date_le today e).
Proof.
  unfold _parse_project_row. intros H.
  destruct (negb (truthy _)); [discriminate |].
  obind_inv H. obind_inv H. obind_inv H. obind_inv H. obind_inv H.
  inversion H; subst p; clear H.
  cbn [pd_project pd_status assigned_pilots assigned_drones
       required_skill_level start_date end_date].
  set (vs := por (get r "start_date") (get_or r "Start Date" "")).
  set (ve := por (get r "end_date") (get_or r "End Date" "")).
  split; [reflexivity |]. split; [reflexivity |].
  split.
  { rewrite Hx3. destruct (String.eqb x3 "Urgent"); auto. }
  split.
  { intros s [Hs | Hs]; apply stored_date_reads_back in Hs;
      destruct Hs as (d & _ & Hv & Heq & Hread); eauto. }
  destruct (_parse_date vs) as [s |] eqn:Es;
    destruct (_parse_date ve) as [e |] eqn:Ee; cbn [option_map].
  - pose proof (parsed_dates_valid_only vs s Es) as Hvs.
    pose proof (parsed_dates_valid_only ve e Ee) as Hve.
    unfold strptime_date.
    rewrite (strptime_isoformat s Hvs), (strptime_isoformat e Hve).
    destruct (date_ltb today s) eqn:L1.
    + split; [split; [discriminate | intros [H | H]; discriminate] |].
      split; [discriminate |].
      intros (s' & e' & Hs' & He' & Hle & _). inversion Hs'; subst s'.
      apply date_ltb_false in Hle. congruence.
    + destruct (date_ltb e today) eqn:L2.
      * split; [split; [discriminate | intros [H | H]; discriminate] |].
        split; [discriminate |].
        intros (s' & e' & Hs' & He' & _ & Hle). inversion He'; subst e'.
        apply date_ltb_false in Hle. congruence.
      * split; [split; [discriminate | intros [H | H]; discriminate] |].
        split; [| reflexivity]. intros _.
        apply date_ltb_false in L1, L2. exists s, e. auto.
  - split; [split; auto |].
    split; [discriminate |].
    intros (s' & e' & _ & He' & _). discriminate.
  - split; [split; auto |].
    split; [discriminate |].
    intros (s' & e' & Hs' & _). discriminate.
  - split; [split; auto |].
    split; [discriminate |].
    intros (s' & e' & Hs' & _). discriminate.
Qed.

Lemma parsed_project_shape_witness :
  let project := pd_project Sheet.project_read in
  assigned_pilots project = [] /\ assigned_drones project = []
  /\ (required_skill_level project = Some "Advanced"
      \/ required_skill_level project = Some "Intermediate")
  /\ (forall s, start_date project = Some s \/ end_date project = Some s ->
                exists d, valid_date d /\ s = isoformat d
                          /\ strptime_date (Some s) = Ok d)
  /\ (pd_status Sheet.project_read = "Pending Assignment"
      <-> start_date project = None \/ end_date project = None)
  /\ (pd_status Sheet.project_read = "Active"
      <-> exists s e,
            strptime_date (start_date project) = Ok s
            /\ strptime_date (end_date project) = Ok e
            /\ date_le s (mkDate 2026 2 10)
            /\ date_le (mkDate 2026 2 10) e).
Proof.
  apply (parsed_project_shape (mkDate 2026 2 10) Sheet.project_row
           Sheet.project_read).
  reflexivity.
Defined.

Lemma parsed_project_unassigned (today : date) (r : row) (p : ProjectDict) :
  _parse_project_row today r = Some p ->
  assigned_pilots (pd_project p) = [] /\ assigned_drones (pd_project p) = [].
Proof.
  unfold _parse_project_row. intros H.
  destruct (negb (truthy _)); [discriminate |].
  obind_inv H. obind_inv H. obind_inv H. obind_inv H. obind_inv H.
  inversion H; subst p. split; reflexivity.
Qed.

(** On the snapshot that the provider reads, whatever the rows, the sweep
    returns the empty list: the projects it builds list no pilot and no
    drone, so no rule has a resource to examine and no date is parsed. *)
Theorem provider_sweep_is_empty (today : date)
    (pilot_rows drone_rows project_rows : list row) :
  detect_all_conflicts (get_all_pilots pilot_rows)
    (get_all_drones drone_rows)
    (map pd_project (get_demo_projects today project_rows))
  = Ok [].
Proof.
  apply no_assignments_no_conflicts. intros project Hin.
  apply in_map_iff in Hin. destruct Hin as (p & <- & Hp).
  unfold get_demo_projects in Hp. apply in_flat_map in Hp.
  destruct Hp as (r & _ & Hp).
  destruct (_parse_project_row today r) as [p' |] eqn:E; [| contradiction].
  destruct Hp as [<- | []].
  exact (parsed_project_unassigned today r p' E).
Qed.

(** ** Malformed dates, through the record provider *)







(* ===================================================================== *)
(** ** Properties of the provider's filters and of the dashboard *)
(* ===================================================================== *)

Lemma for_each_filter {A : Type} (f : A -> result (list A))
    (keep : A -> bool) (l : list A) :
  (forall x, In x l -> f x = Ok (if keep x then [x] else [])) ->
  for_each f l = Ok (filter keep l).
Proof.
  induction l as [| x r IH]; simpl; intros H; [reflexivity |].
  rewrite (H x (or_introl eq_refl)), IH by (intros y Hy; apply H; auto).
  simpl. destruct (keep x); reflexivity.
Qed.

Lemma filter_twice {A : Type} (f g : A -> bool) (l : list A) :
  filter g (filter f l) = filter (fun x => f x && g x) l.
Proof.
  induction l as [| x r IH]; simpl; [reflexivity |].
  destruct (f x); simpl; [destruct (g x) |]; rewrite IH; reflexivity.
Qed.

Lemma filter_given {A : Type} (o : option string)
    (test : string -> A -> bool) (l : list A) :
  match given o with
  | Some s => filter (test s) l
  | None => l
  end
  = filter (fun x => match given o with
                     | Some s => test s x
                     | None => true
                     end) l.
Proof.
  destruct (given o); [reflexivity |].
  induction l as [| x r IH]; simpl; congruence.
Qed.

Lemma given_test_spec {A : Type} (o : option string)
    (test : string -> A -> bool) (x : A) :
  match given o with
  | Some s => test s x
  | None => true
  end = true
  <-> (forall s, o = Some s -> s <> "" -> test s x = true).
Proof.
  unfold given. destruct o as [s |].
  - destruct (String.eqb_spec s "") as [-> | Hne].
    + split; [intros _ s Hs Hne; inversion Hs; subst; contradiction | auto].
    + split; [intros H s' Hs' _; inversion Hs'; subst; assumption |].
      intros H. apply H; [reflexivity | assumption].
  - split; [intros _ s Hs; discriminate | auto].
Qed.

Lemma any_contains_spec (needle : string) (xs : list string) :
  any_contains needle xs = true <->
  exists x, In x xs /\ contains (lower needle) (lower x) = true.
Proof. unfold any_contains. apply existsb_exists. Qed.

Lemma index_of_known (s : string) :
  In s skill_order -> index_of s skill_order = Ok (skill_idx s).
Proof.
  intros H. unfold index_of, skill_idx.
  assert (Hm : mem s skill_order = true).
  { unfold mem. apply existsb_exists. exists s. split; [assumption |].
    apply String.eqb_refl. }
  rewrite Hm. reflexivity.
Qed.

(** When every pilot of the roster has one of the four skill levels,
    [get_available_pilots] returns, in roster order, exactly the pilots
    whose status is Available and who pass each filter that is given: the
    rank of the pilot's level reaches that of the asked level (an asked
    level outside the four ranks 0 and excludes nobody), some certification
    contains the asked text, the location equals the asked one, some drone
    experience contains the asked model, letter case ignored throughout.  A
    filter that is [None] or the empty string is not applied. *)
Theorem available_pilots_filter (all_pilots : list Pilot)
    (skill certification place drone_model : option string) :
  (forall p, In p all_pilots -> In (skill_level p) skill_order) ->
  exists pilots,
    get_available_pilots all_pilots skill certification place drone_model
    = Ok pilots
    /\ (exists keep, pilots = filter keep all_pilots)
    /\ forall p,
         In p pilots <->
         In p all_pilots
         /\ pilot_status p = PilotStatus.AVAILABLE
         /\ (forall s, skill = Some s -> s <> "" ->
               spec_skill_rank s <= spec_skill_rank (skill_level p))
         /\ (forall c, certification = Some c -> c <> "" ->
               exists x, In x (certifications p)
                         /\ contains (lower c) (lower x) = true)
         /\ (forall l, place = Some l -> l <> "" ->
               lower (pilot_location p) = lower l)
         /\ (forall m, drone_model = Some m -> m <> "" ->
               exists x, In x (drone_experience p)
                         /\ contains (lower m) (lower x) = true).
Proof.
  intros Hknown.
  unfold get_available_pilots.
  set (k0 := fun p : Pilot =>
               String.eqb (pilot_status p) PilotStatus.AVAILABLE).
  set (first := match given skill with Some _ => _ | None => _ end).
  assert (H1 : first
               = Ok (filter (fun p => match given skill with
                                      | Some s =>
                                          skill_idx s
                                          <=? skill_idx (skill_level p)
                                      | None => true
                                      end) (filter k0 all_pilots))).
  { subst first.
    rewrite <- (filter_given skill
                  (fun s p => skill_idx s <=? skill_idx (skill_level p))).
    destruct (given skill) as [s |]; [| reflexivity].
    cbv zeta. apply for_each_filter. intros p Hp.
    apply filter_In in Hp. destruct Hp as (Hp & _).
    rewrite (index_of_known _ (Hknown p Hp)). reflexivity. }
  rewrite H1. cbn [bind]. clear H1 first.
  rewrite (filter_given certification
             (fun c p => any_contains c (certifications p))).
  rewrite (filter_given place
             (fun l p => String.eqb (lower (pilot_location p)) (lower l))).
  rewrite (filter_given drone_model
             (fun m p => any_contains m (drone_experience p))).
  rewrite !filter_twice.
  eexists. split; [reflexivity |]. split; [eexists; reflexivity |].
  intros p. rewrite filter_In, !andb_true_iff.
  rewrite (given_test_spec skill
             (fun s p => skill_idx s <=? skill_idx (skill_level p))).
  rewrite (given_test_spec certification
             (fun c p => any_contains c (certifications p))).
  rewrite (given_test_spec place
             (fun l p => String.eqb (lower (pilot_location p)) (lower l))).
  rewrite (given_test_spec drone_model
             (fun m p => any_contains m (drone_experience p))).
  unfold k0. rewrite String.eqb_eq.
  setoid_rewrite Z.leb_le. setoid_rewrite skill_idx_spec.
  setoid_rewrite any_contains_spec. setoid_rewrite String.eqb_eq.
  tauto.
Qed.

Lemma available_pilots_filter_witness :
  exists pilots,
    get_available_pilots [Scenario.kavya; Scenario.meera; Scenario.arjun]
      (Some "Advanced") (Some "dgca") None (Some "")
    = Ok pilots
    /\ (exists keep,
          pilots
          = filter keep [Scenario.kavya; Scenario.meera; Scenario.arjun])
    /\ forall p,
         In p pilots <->
         In p [Scenario.kavya; Scenario.meera; Scenario.arjun]
         /\ pilot_status p = PilotStatus.AVAILABLE
         /\ (forall s, Some "Advanced" = Some s -> s <> "" ->
               spec_skill_rank s <= spec_skill_rank (skill_level p))
         /\ (forall c, Some "dgca" = Some c -> c <> "" ->
               exists x, In x (certifications p)
                         /\ contains (lower c) (lower x) = true)
         /\ (forall l, @None string = Some l -> l <> "" ->
               lower (pilot_location p) = lower l)
         /\ (forall m, Some "" = Some m -> m <> "" ->
               exists x, In x (drone_experience p)
                         /\ contains (lower m) (lower x) = true).
Proof.
  apply (available_pilots_filter
           [Scenario.kavya; Scenario.meera; Scenario.arjun]
           (Some "Advanced") (Some "dgca") None (Some "")).
  intros p [<- | [<- | [<- | []]]]; simpl; auto 6.
Defined.

(** [get_available_drones] returns, in fleet order, exactly the drones whose
    status is Available and that pass each filter that is given: some
    capability contains the asked text, the location equals the asked one,
    the model contains the asked text, letter case ignored throughout.  A
    filter that is [None] or the empty string is not applied. *)
Theorem available_drones_filter (all_drones : list Drone)
    (capability place model_name : option string) :
  (exists keep,
     get_available_drones all_drones capability place model_name
     = filter keep all_drones)
  /\ forall d,
       In d (get_available_drones all_drones capability place model_name)
       <->
       In d all_drones
       /\ drone_status d = DroneStatus.AVAILABLE
       /\ (forall c, capability = Some c -> c <> "" ->
             exists x, In x (capabilities d)
                       /\ contains (lower c) (lower x) = true)
       /\ (forall l, place = Some l -> l <> "" ->
             lower (drone_location d) = lower l)
       /\ (forall m, model_name = Some m -> m <> "" ->
             contains (lower m) (lower (model d)) = true).
Proof.
  unfold get_available_drones.
  set (k0 := fun d : Drone =>
               String.eqb (drone_status d) DroneStatus.AVAILABLE).
  rewrite (filter_given capability
             (fun c d => any_contains c (capabilities d))).
  rewrite (filter_given place
             (fun l d => String.eqb (lower (drone_location d)) (lower l))).
  rewrite (filter_given model_name
             (fun m d => contains (lower m) (lower (model d)))).
  rewrite !filter_twice.
  split; [eexists; reflexivity |].
  intros d. rewrite filter_In, !andb_true_iff.
  rewrite (given_test_spec capability
             (fun c d => any_contains c (capabilities d))).
  rewrite (given_test_spec place
             (fun l d => String.eqb (lower (drone_location d)) (lower l))).
  rewrite (given_test_spec model_name
             (fun m d => contains (lower m) (lower (model d)))).
  unfold k0. rewrite String.eqb_eq.
  setoid_rewrite any_contains_spec. setoid_rewrite String.eqb_eq.
  tauto.
Qed.

Lemma count_cons {A : Type} (keep : A -> bool) (x : A) (l : list A) :
  count keep (x :: l) = ((if keep x then 1 else 0) + count keep l)%nat.
Proof. unfold count. simpl. destruct (keep x); reflexivity. Qed.

Lemma count_partition {A : Type} (k1 k2 k3 k4 : A -> bool) (l : list A) :
  (forall x, In x l ->
     ((if k1 x then 1 else 0) + (if k2 x then 1 else 0)
      + (if k3 x then 1 else 0) + (if k4 x then 1 else 0) = 1)%nat) ->
  (List.length l = count k1 l + count k2 l + count k3 l + count k4 l)%nat.
Proof.
  induction l as [| x r IH]; intros H; [reflexivity |].
  rewrite !count_cons. cbn [List.length].
  pose proof (H x (or_introl eq_refl)) as Hx.
  assert (Hr : (List.length r
                = count k1 r + count k2 r + count k3 r + count k4 r)%nat)
    by (apply IH; intros y Hy; apply H; right; assumption).
  lia.
Qed.

Lemma count_false {A : Type} (l : list A) :
  count (fun _ : A => false) l = 0%nat.
Proof.
  induction l as [| x r IH]; [reflexivity |].
  rewrite count_cons, IH. reflexivity.
Qed.

Lemma count_sum {A : Type} (k a b : A -> bool) (l : list A) :
  (forall x, In x l ->
     ((if k x then 1 else 0)
      = (if a x then 1 else 0) + (if b x then 1 else 0))%nat) ->
  (count k l = count a l + count b l)%nat.
Proof.
  induction l as [| x r IH]; intros H; [reflexivity |].
  rewrite !count_cons.
  pose proof (H x (or_introl eq_refl)) as Hx.
  assert (Hr : (count k r = count a r + count b r)%nat)
    by (apply IH; intros y Hy; apply H; right; assumption).
  lia.
Qed.

Lemma parsed_pilot_status (rows : list row) (pilot : Pilot) :
  In pilot (get_all_pilots rows) ->
  In (pilot_status pilot)
     ["Available"; "Assigned"; "On Leave"; "Unavailable"].
Proof.
  intros H. apply get_all_pilots_In in H.
  destruct H as (r & p & _ & H & ->).
  unfold _parse_pilot_row in H.
  destruct (negb (truthy _) || negb (truthy _)); [discriminate |].
  obind_inv H. obind_inv H. obind_inv H. obind_inv H. obind_inv H.
  inversion H; subst p. cbn [row_pilot pilot_status].
  apply pilot_status_of_known.
Qed.

Lemma parsed_drone_status (rows : list row) (drone : Drone) :
  In drone (get_all_drones rows) ->
  In (drone_status drone)
     ["Available"; "Deployed"; "Maintenance"; "Unavailable"].
Proof.
  intros H. apply get_all_drones_In in H. destruct H as (r & _ & H).
  unfold _parse_drone_row in H.
  destruct (negb (truthy _) || negb (truthy _)); [discriminate |].
  obind_inv H. obind_inv H. obind_inv H. obind_inv H.
  inversion H; subst drone. cbn [drone_status].
  apply drone_status_of_known.
Qed.

Lemma parsed_project_status (today : date) (rows : list row)
    (p : ProjectDict) :
  In p (get_demo_projects today rows) ->
  In (pd_status p) ["Active"; "Pending"; "Pending Assignment"; "Completed"].
Proof.
  unfold get_demo_projects. rewrite in_flat_map. intros (r & _ & H).
  destruct (_parse_project_row today r) as [p' |] eqn:E; [| contradiction].
  destruct H as [<- | []].
  unfold _parse_project_row in E.
  destruct (negb (truthy _)); [discriminate |].
  obind_inv E. obind_inv E. obind_inv E. obind_inv E. obind_inv E.
  inversion E; subst p'. cbn [pd_status].
  destruct (_parse_date _) as [s |]; [| simpl; auto].
  destruct (_parse_date _) as [e |]; [| simpl; auto].
  destruct (date_ltb today s); [simpl; auto |].
  destruct (date_ltb e today); simpl; auto.
Qed.

(** The dashboard never fails on the rows that the provider reads, and its
    counts add up: every pilot is Available, Assigned, On Leave or
    Unavailable, every drone Available, Deployed, in Maintenance or
    Unavailable, every project Active, pending (Pending or Pending
    Assignment, which the pending count takes together) or Completed; the
    four conflict counts are 0, the provider's projects listing nobody. *)
Theorem dashboard_counts (today : date)
    (pilot_rows drone_rows project_rows : list row) :
  exists d,
    get_dashboard today pilot_rows drone_rows project_rows = Ok d
    /\ (pilots_total d
        = pilots_available d + pilots_assigned d + pilots_on_leave d
          + count (fun p => String.eqb (pilot_status p)
                              PilotStatus.UNAVAILABLE)
              (get_all_pilots pilot_rows))%nat
    /\ (drones_total d
        = drones_available d + drones_deployed d + drones_maintenance d
          + count (fun x => String.eqb (drone_status x)
                              DroneStatus.UNAVAILABLE)
              (get_all_drones drone_rows))%nat
    /\ (projects_total d
        = projects_active d + projects_pending d
          + count (fun p => String.eqb (pd_status p) "Completed")
              (get_demo_projects today project_rows))%nat
    /\ (projects_pending d
        = count (fun p => String.eqb (pd_status p) "Pending")
            (get_demo_projects today project_rows)
          + count (fun p => String.eqb (pd_status p) "Pending Assignment")
              (get_demo_projects today project_rows))%nat
    /\ conflicts_total d = 0%nat /\ conflicts_critical d = 0%nat
    /\ conflicts_high d = 0%nat /\ conflicts_medium d = 0%nat.
Proof.
  unfold get_dashboard.
  assert (Hs :
    detect_all_conflicts (get_all_pilots pilot_rows)
      (get_all_drones drone_rows)
      (map pd_project (get_demo_projects today project_rows)) = Ok []).
  { apply no_assignments_no_conflicts. intros project Hin.
    apply in_map_iff in Hin. destruct Hin as (p & <- & Hp).
    unfold get_demo_projects in Hp. apply in_flat_map in Hp.
    destruct Hp as (r & _ & Hp).
    destruct (_parse_project_row today r) as [p' |] eqn:E; [| contradiction].
    destruct Hp as [<- | []].
    exact (parsed_project_unassigned today r p' E). }
  rewrite Hs. cbn [bind]. eexists. split; [reflexivity |].
  cbn [pilots_total pilots_available pilots_assigned pilots_on_leave
       drones_total drones_available drones_deployed drones_maintenance
       projects_total projects_active projects_pending
       conflicts_total conflicts_critical conflicts_high conflicts_medium].
  split.
  { apply count_partition. intros p Hp.
    apply parsed_pilot_status in Hp.
    destruct Hp as [<- | [<- | [<- | [<- | []]]]]; reflexivity. }
  split.
  { apply count_partition. intros x Hx.
    apply parsed_drone_status in Hx.
    destruct Hx as [<- | [<- | [<- | [<- | []]]]]; reflexivity. }
  split.
  { rewrite (count_partition
               (fun p => String.eqb (pd_status p) "Active")
               (fun p => contains "Pending" (pd_status p))
               (fun p => String.eqb (pd_status p) "Completed")
               (fun _ => false)
               (get_demo_projects today project_rows)).
    - rewrite count_false. lia.
    - intros p Hp. apply parsed_project_status in Hp.
      destruct Hp as [<- | [<- | [<- | [<- | []]]]]; reflexivity. }
  split.
  { apply count_sum. intros p Hp. apply parsed_project_status in Hp.
    destruct Hp as [<- | [<- | [<- | [<- | []]]]]; reflexivity. }
  repeat split.
Qed.

(* ===================================================================== *)
(** ** Properties of the rows that a status update writes back *)
(* ===================================================================== *)

Lemma lookup_set_same (r : row) (k : string) (v : cell) :
  lookup k (set_item r k v) = Some v.
Proof.
  induction r as [| [k' v'] rest IH]; simpl.
  - rewrite String.eqb_refl. reflexivity.
  - destruct (String.eqb k' k) eqn:E; simpl; rewrite E; [reflexivity |].
    exact IH.
Qed.

Lemma lookup_set_other (r : row) (k k' : string) (v : cell) :
  k' <> k -> lookup k' (set_item r k v) = lookup k' r.
Proof.
  intros Hne. induction r as [| [k0 v0] rest IH]; simpl.
  - destruct (String.eqb_spec k k'); [congruence | reflexivity].
  - destruct (String.eqb_spec k0 k) as [-> | Hk]; simpl.
    + destruct (String.eqb_spec k k'); [congruence | reflexivity].
    + rewrite IH. reflexivity.
Qed.

Section UpdatedRow.

Variables (id_column id status : string) (assignment : option string).
Variable r : row.
Hypothesis Hid : get r id_column = Some id.

Lemma updated_row_get (k : string) :
  k <> "status" -> k <> "current_assignment" ->
  get (updated_row id_column id status assignment r) k = get r k.
Proof.
  intros H1 H2. unfold updated_row. rewrite Hid. cbn [cell_is].
  rewrite String.eqb_refl. unfold get.
  rewrite !lookup_set_other by assumption. reflexivity.
Qed.

Lemma updated_row_get_or (k d : string) :
  k <> "status" -> k <> "current_assignment" ->
  get_or (updated_row id_column id status assignment r) k d = get_or r k d.
Proof.
  intros H1 H2. unfold updated_row. rewrite Hid. cbn [cell_is].
  rewrite String.eqb_refl. unfold get_or.
  rewrite !lookup_set_other by assumption. reflexivity.
Qed.

Lemma updated_row_status :
  get (updated_row id_column id status assignment r) "status" = Some status.
Proof.
  unfold updated_row. rewrite Hid. cbn [cell_is].
  rewrite String.eqb_refl. unfold get.
  rewrite lookup_set_other by discriminate.
  rewrite lookup_set_same. reflexivity.
Qed.

Lemma updated_row_assignment :
  get (updated_row id_column id status assignment r) "current_assignment"
  = Some (or_else assignment en_dash).
Proof.
  unfold updated_row. rewrite Hid. cbn [cell_is].
  rewrite String.eqb_refl. unfold get.
  rewrite lookup_set_same. reflexivity.
Qed.

End UpdatedRow.

Lemma updated_row_other (id_column id status : string)
    (assignment : option string) (r : row) :
  get r id_column <> Some id ->
  updated_row id_column id status assignment r = r.
Proof.
  intros H. unfold updated_row.
  destruct (get r id_column) as [x |]; [| reflexivity].
  cbn [cell_is]. destruct (String.eqb_spec x id); [congruence | reflexivity].
Qed.

Lemma written_assignment_truthy (assignment : option string) :
  truthy (Some (or_else assignment en_dash)) = true.
Proof.
  destruct assignment as [a |]; [| reflexivity]. cbn [or_else].
  destruct (String.eqb a "") eqn:E; [reflexivity |].
  cbn [truthy]. rewrite E. reflexivity.
Qed.

Lemma written_assignment_read (assignment : option string) :
  assignment_of (or_else assignment en_dash)
  = match assignment with
    | Some a => assignment_of a
    | None => None
    end.
Proof.
  destruct assignment as [a |]; [| reflexivity]. cbn [or_else].
  destruct (String.eqb_spec a "") as [-> | _]; reflexivity.
Qed.

Lemma por_truthy (a b : cell) : truthy a = true -> por a b = a.
Proof. unfold por. intros ->. reflexivity. Qed.

Lemma set_item_columns (r : row) (k : string) (v : cell) :
  In k (map fst r) -> map fst (set_item r k v) = map fst r.
Proof.
  induction r as [| [k' v'] rest IH]; simpl; [intros [] |].
  intros H. destruct (String.eqb_spec k' k) as [-> | Hne]; [reflexivity |].
  simpl. rewrite IH; [reflexivity |]. destruct H; [contradiction | assumption].
Qed.

Lemma updated_row_columns (id_column id status : string)
    (assignment : option string) (r : row) :
  In "status" (map fst r) -> In "current_assignment" (map fst r) ->
  map fst (updated_row id_column id status assignment r) = map fst r.
Proof.
  intros H1 H2. unfold updated_row.
  destruct (cell_is _ _); [| reflexivity].
  rewrite set_item_columns; rewrite set_item_columns; auto.
Qed.

Lemma strip_pilot_status (st : string) :
  In st ["Available"; "Assigned"; "On Leave"; "Unavailable"] ->
  pilot_status_of (strip st) = st /\ st <> "".
Proof.
  intros [<- | [<- | [<- | [<- | []]]]]; split;
    solve [reflexivity | discriminate].
Qed.

Lemma strip_drone_status (st : string) :
  In st ["Available"; "Deployed"; "Maintenance"; "Unavailable"] ->
  drone_status_of (strip st) = st /\ st <> "".
Proof.
  intros [<- | [<- | [<- | [<- | []]]]]; split;
    solve [reflexivity | discriminate].
Qed.

(** Reading back the rows that [_update_pilot_in_csv] writes, for one of
    the four pilot statuses: every row that parsed still parses, at the
    same position; a row whose [pilot_id] cell is not the given id is
    unchanged; a row whose [pilot_id] cell is the given id reads back with
    the new status and the new assignment (none for [None], an empty text
    or a dash), a start date only when the status is Assigned, and the same
    id, name, skill level, certifications, experience, location and email;
    no column is added to a row that has the two columns written. *)
Theorem updated_pilot_reads_back (rows : list row) (pid st : string)
    (a : option string) (i : nat) (r : row) (p : PilotRow) :
  In st ["Available"; "Assigned"; "On Leave"; "Unavailable"] ->
  nth_error rows i = Some r ->
  _parse_pilot_row r = Some p ->
  exists r' p',
    nth_error (_update_pilot_in_csv rows pid st a) i = Some r'
    /\ _parse_pilot_row r' = Some p'
    /\ (get r "pilot_id" <> Some pid -> r' = r)
    /\ (get r "pilot_id" = Some pid ->
        pilot_status (row_pilot p') = st
        /\ pilot_assignment (row_pilot p')
           = match a with
             | Some x => assignment_of x
             | None => None
             end
        /\ (st <> "Assigned" -> pilot_start (row_pilot p') = None)
        /\ pilot_id (row_pilot p') = pilot_id (row_pilot p)
        /\ pilot_name (row_pilot p') = pilot_name (row_pilot p)
        /\ skill_level (row_pilot p') = skill_level (row_pilot p)
        /\ certifications (row_pilot p') = certifications (row_pilot p)
        /\ drone_experience (row_pilot p') = drone_experience (row_pilot p)
        /\ pilot_location (row_pilot p') = pilot_location (row_pilot p)
        /\ row_email p' = row_email p)
    /\ (In "status" (map fst r) -> In "current_assignment" (map fst r) ->
        map fst r' = map fst r).
Proof.
  intros Hst Hi Hp.
  exists (updated_row "pilot_id" pid st a r).
  assert (Hnth : nth_error (_update_pilot_in_csv rows pid st a) i
                 = Some (updated_row "pilot_id" pid st a r)).
  { unfold _update_pilot_in_csv. rewrite nth_error_map, Hi. reflexivity. }
  destruct (strip_pilot_status st Hst) as (Hread & Hne).
  assert (Hdec : get r "pilot_id" = Some pid \/ get r "pilot_id" <> Some pid).
  { destruct (get r "pilot_id") as [x |]; [| right; discriminate].
    destruct (String.eqb_spec x pid) as [-> | Hx]; [left; reflexivity |].
    right. congruence. }
  destruct Hdec as [Hid | Hid].
  - pose proof (updated_row_get "pilot_id" pid st a r Hid) as Hg.
    pose proof (updated_row_get_or "pilot_id" pid st a r Hid) as Hgo.
    pose proof (updated_row_status "pilot_id" pid st a r Hid) as Hs.
    pose proof (updated_row_assignment "pilot_id" pid st a r Hid) as Ha.
    unfold _parse_pilot_row in Hp |- *.
    rewrite Hs, Ha.
    rewrite !Hg by discriminate. rewrite !Hgo by discriminate.
    destruct (negb (truthy _) || negb (truthy _)); [discriminate |].
    obind_inv Hp. obind_inv Hp. obind_inv Hp. obind_inv Hp. obind_inv Hp.
    inversion Hp; subst p; clear Hp.
    rewrite (por_truthy (Some st))
      by (cbn [truthy]; destruct (String.eqb_spec st "");
          [contradiction | reflexivity]).
    rewrite (por_truthy (Some (or_else a en_dash)))
      by apply written_assignment_truthy.
    rewrite Hx, Hx0, Hx3. cbn [obind].
    eexists. split; [exact Hnth |]. split; [reflexivity |].
    split; [intros Hc; contradiction |].
    split.
    { intros _. cbn [row_pilot pilot_status pilot_assignment pilot_start
                     pilot_id pilot_name skill_level certifications
                     drone_experience pilot_location row_email].
      rewrite Hread, written_assignment_read.
      split; [reflexivity |]. split; [reflexivity |].
      split.
      { intros Hna. unfold PilotStatus.ASSIGNED.
        destruct (String.eqb_spec st "Assigned"); [contradiction |].
        reflexivity. }
      repeat split. }
    apply updated_row_columns.
  - rewrite (updated_row_other "pilot_id" pid st a r Hid) in Hnth |- *.
    exists p. split; [exact Hnth |]. split; [exact Hp |].
    split; [reflexivity |]. split; [intros Hc; contradiction |].
    reflexivity.
Qed.

Lemma updated_pilot_reads_back_witness :
  exists r' p',
    nth_error (_update_pilot_in_csv [Sheet.pilot_row] "P001" "Available" None)
      0
    = Some r'
    /\ _parse_pilot_row r' = Some p'
    /\ (get Sheet.pilot_row "pilot_id" <> Some "P001" -> r' = Sheet.pilot_row)
    /\ (get Sheet.pilot_row "pilot_id" = Some "P001" ->
        pilot_status (row_pilot p') = "Available"
        /\ pilot_assignment (row_pilot p') = None
        /\ ("Available" <> "Assigned" -> pilot_start (row_pilot p') = None)
        /\ pilot_id (row_pilot p') = pilot_id (row_pilot Sheet.pilot_read)
        /\ pilot_name (row_pilot p') = pilot_name (row_pilot Sheet.pilot_read)
        /\ skill_level (row_pilot p')
           = skill_level (row_pilot Sheet.pilot_read)
        /\ certifications (row_pilot p')
           = certifications (row_pilot Sheet.pilot_read)
        /\ drone_experience (row_pilot p')
           = drone_experience (row_pilot Sheet.pilot_read)
        /\ pilot_location (row_pilot p')
           = pilot_location (row_pilot Sheet.pilot_read)
        /\ row_email p' = row_email Sheet.pilot_read)
    /\ (In "status" (map fst Sheet.pilot_row) ->
        In "current_assignment" (map fst Sheet.pilot_row) ->
        map fst r' = map fst Sheet.pilot_row).
Proof.
  apply (updated_pilot_reads_back [Sheet.pilot_row] "P001" "Available" None
           0%nat Sheet.pilot_row Sheet.pilot_read).
  - simpl. auto.
  - reflexivity.
  - reflexivity.
Defined.

(** Reading back the rows that [_update_drone_in_csv] writes, for one of
    the four drone statuses: every row that parsed still parses, at the
    same position; a row whose [drone_id] cell is not the given id is
    unchanged; a row whose [drone_id] cell is the given id reads back with
    the new status and the new assignment (none for [None], an empty text
    or a dash) and is otherwise the same drone; no column is added to a row
    that has the two columns written. *)
Theorem updated_drone_reads_back (rows : list row) (did st : string)
    (a : option string) (i : nat) (r : row) (d : Drone) :
  In st ["Available"; "Deployed"; "Maintenance"; "Unavailable"] ->
  nth_error rows i = Some r ->
  _parse_drone_row r = Some d ->
  exists r' d',
    nth_error (_update_drone_in_csv rows did st a) i = Some r'
    /\ _parse_drone_row r' = Some d'
    /\ (get r "drone_id" <> Some did -> r' = r)
    /\ (get r "drone_id" = Some did ->
        drone_status d' = st
        /\ drone_assignment d'
           = match a with
             | Some x => assignment_of x
             | None => None
             end
        /\ drone_id d' = drone_id d
        /\ serial_number d' = serial_number d
        /\ model d' = model d
        /\ capabilities d' = capabilities d
        /\ drone_location d' = drone_location d
        /\ next_maintenance_date d' = next_maintenance_date d
        /\ drone_start d' = None /\ drone_end d' = None
        /\ notes d' = notes d)
    /\ (In "status" (map fst r) -> In "current_assignment" (map fst r) ->
        map fst r' = map fst r).
Proof.
  intros Hst Hi Hd.
  exists (updated_row "drone_id" did st a r).
  assert (Hnth : nth_error (_update_drone_in_csv rows did st a) i
                 = Some (updated_row "drone_id" did st a r)).
  { unfold _update_drone_in_csv. rewrite nth_error_map, Hi. reflexivity. }
  destruct (strip_drone_status st Hst) as (Hread & Hne).
  assert (Hdec : get r "drone_id" = Some did \/ get r "drone_id" <> Some did).
  { destruct (get r "drone_id") as [x |]; [| right; discriminate].
    destruct (String.eqb_spec x did) as [-> | Hx]; [left; reflexivity |].
    right. congruence. }
  destruct Hdec as [Hid | Hid].
  - pose proof (updated_row_get "drone_id" did st a r Hid) as Hg.
    pose proof (updated_row_get_or "drone_id" did st a r Hid) as Hgo.
    pose proof (updated_row_status "drone_id" did st a r Hid) as Hs.
    pose proof (updated_row_assignment "drone_id" did st a r Hid) as Ha.
    unfold _parse_drone_row in Hd |- *.
    rewrite Hs, Ha.
    rewrite !Hg by discriminate. rewrite !Hgo by discriminate.
    destruct (negb (truthy _) || negb (truthy _)); [discriminate |].
    obind_inv Hd. obind_inv Hd. obind_inv Hd. obind_inv Hd.
    inversion Hd; subst d; clear Hd.
    rewrite (por_truthy (Some st))
      by (cbn [truthy]; destruct (String.eqb_spec st "");
          [contradiction | reflexivity]).
    rewrite (por_truthy (Some (or_else a en_dash)))
      by apply written_assignment_truthy.
    rewrite Hx, Hx2. cbn [obind].
    eexists. split; [exact Hnth |]. split; [reflexivity |].
    split; [intros Hc; contradiction |].
    split.
    { intros _. cbn [drone_status drone_assignment drone_id serial_number
                     model capabilities drone_location
                     next_maintenance_date drone_start drone_end notes].
      rewrite Hread, written_assignment_read. repeat split. }
    apply updated_row_columns.
  - rewrite (updated_row_other "drone_id" did st a r Hid) in Hnth |- *.
    exists d. split; [exact Hnth |]. split; [exact Hd |].
    split; [reflexivity |]. split; [intros Hc; contradiction |].
    reflexivity.
Qed.

Lemma updated_drone_reads_back_witness :
  exists r' d',
    nth_error
      (_update_drone_in_csv [Sheet.drone_row] "D001" "Deployed"
         (Some "Project-A")) 0
    = Some r'
    /\ _parse_drone_row r' = Some d'
    /\ (get Sheet.drone_row "drone_id" <> Some "D001" -> r' = Sheet.drone_row)
    /\ (get Sheet.drone_row "drone_id" = Some "D001" ->
        drone_status d' = "Deployed"
        /\ drone_assignment d' = assignment_of "Project-A"
        /\ drone_id d' = drone_id Sheet.drone_read
        /\ serial_number d' = serial_number Sheet.drone_read
        /\ model d' = model Sheet.drone_read
        /\ capabilities d' = capabilities Sheet.drone_read
        /\ drone_location d' = drone_location Sheet.drone_read
        /\ next_maintenance_date d'
           = next_maintenance_date Sheet.drone_read
        /\ drone_start d' = None /\ drone_end d' = None
        /\ notes d' = notes Sheet.drone_read)
    /\ (In "status" (map fst Sheet.drone_row) ->
        In "current_assignment" (map fst Sheet.drone_row) ->
        map fst r' = map fst Sheet.drone_row).
Proof.
  apply (updated_drone_reads_back [Sheet.drone_row] "D001" "Deployed"
           (Some "Project-A") 0%nat Sheet.drone_row Sheet.drone_read).
  - simpl. auto.
  - reflexivity.
  - reflexivity.
Defined.
